(** * weather-getter-otel: postal code to temperature, in two services

    A shallow embedding of the Go sources:
    - [service-a/main.go]  (the Gateway, [ServiceA]),
    - [service-b/main.go]  (the Resolver, [ServiceB]),
    - [main.go]            (the standalone single-service variant),
    - [config/config.go] and [shared/config.go] (environment loading).

    Go strings are byte sequences and are modelled by [string]; an [error]
    is modelled by the text its [Error()] method returns, which is all the
    handlers ever look at; [float64] is the primitive binary64 [float]. *)

From Stdlib Require Import String Ascii List Bool Arith ZArith Lia Floats.
From Stdlib Require Import DecimalString.
Import ListNotations.

Local Open Scope string_scope.

Set Implicit Arguments.

(* A decimal constant such as 273.15 denotes the nearest binary64 value,
   in Go as here. *)
Set Warnings "-inexact-float".

(** ** Go's [(value, error)] results *)

Inductive result (A : Type) : Type :=
| Ok (a : A)
| Err (msg : string).

Arguments Ok {A} a.
Arguments Err {A} msg.

(** ** The fragment of [regexp] that the validators use

    [regexp.MatchString(pattern, s)] compiles [pattern] and reports whether
    the expression matches some substring of [s].  The patterns of this
    repository use begin and end of text, the Perl class [\d], literal bytes
    and the counted repetition [{n}]; everything else is rejected by
    [Compile], as a compile error would be.  Without the [m] flag [$] is the
    end of the text, not of a line.  The text is matched byte by byte:
    [\d] is the ASCII range from 0 to 9, which no byte of a longer UTF-8
    sequence falls in. *)

Module regexp.

Inductive Regexp : Type :=
| OpEmptyMatch
| OpBeginText
| OpEndText
| OpCharClass (lo hi : ascii)
| OpLiteral (c : ascii)
| OpRepeat (sub : Regexp) (n : nat)
| OpConcat (r1 r2 : Regexp).

Definition inRange (lo hi c : ascii) : bool :=
  ((nat_of_ascii lo <=? nat_of_ascii c)%nat
   && (nat_of_ascii c <=? nat_of_ascii hi)%nat)%bool.

(** The backtracking matcher: [matchAt re pos s k] matches [re] at offset
    [pos] of the text, [s] being the text from [pos] on, and hands the
    position reached to the continuation [k]. *)
Fixpoint matchAt (re : Regexp) (pos : nat) (s : list ascii)
         (k : nat -> list ascii -> bool) {struct re} : bool :=
  match re with
  | OpEmptyMatch => k pos s
  | OpBeginText => (pos =? 0)%nat && k pos s
  | OpEndText => match s with [] => k pos s | _ :: _ => false end
  | OpCharClass lo hi =>
      match s with
      | c :: s' => inRange lo hi c && k (S pos) s'
      | [] => false
      end
  | OpLiteral c0 =>
      match s with
      | c :: s' => Ascii.eqb c0 c && k (S pos) s'
      | [] => false
      end
  | OpRepeat sub n =>
      (fix rep (m : nat) (pos : nat) (s : list ascii) {struct m} : bool :=
         match m with
         | O => k pos s
         | S m' => matchAt sub pos s (rep m')
         end) n pos s
  | OpConcat r1 r2 =>
      matchAt r1 pos s (fun pos' s' => matchAt r2 pos' s' k)
  end.

(** Unanchored search: a match may start at any offset of the text. *)
Definition Match (re : Regexp) (s : list ascii) : bool :=
  existsb (fun i => matchAt re i (skipn i s) (fun _ _ => true))
          (seq 0 (S (length s))).

(** *** Parsing the pattern *)

Definition isDigit (c : ascii) : bool := inRange "0" "9" c.

Definition digitVal (c : ascii) : nat := nat_of_ascii c - nat_of_ascii "0".

(** Reads the [n}] that follows an opening brace. *)
Fixpoint parseCount (s : list ascii) (acc : option nat)
  : option (nat * list ascii) :=
  match s with
  | [] => None
  | c :: s' =>
      if Ascii.eqb c "}" then
        match acc with Some n => Some (n, s') | None => None end
      else if isDigit c then
        parseCount s' (Some (10 * match acc with Some n => n | None => 0 end
                             + digitVal c))
      else None
  end.

Definition isMeta (c : ascii) : bool :=
  existsb (Ascii.eqb c)
          ["\"; "."; "+"; "*"; "?"; "("; ")"; "|"; "["; "]"; "{"; "}"]%char.

(** One atom of the pattern. *)
Definition parseAtom (s : list ascii) : option (Regexp * list ascii) :=
  match s with
  | [] => None
  | c :: s' =>
      if Ascii.eqb c "^" then Some (OpBeginText, s')
      else if Ascii.eqb c "$" then Some (OpEndText, s')
      else if Ascii.eqb c "\" then
        match s' with
        | e :: s'' =>
            if Ascii.eqb e "d" then Some (OpCharClass "0" "9", s'') else None
        | [] => None
        end
      else if isMeta c then None
      else Some (OpLiteral c, s')
  end.

Fixpoint parseSeq (fuel : nat) (s : list ascii) : option Regexp :=
  match fuel with
  | O => match s with [] => Some OpEmptyMatch | _ :: _ => None end
  | S fuel' =>
      match s with
      | [] => Some OpEmptyMatch
      | _ :: _ =>
          match parseAtom s with
          | None => None
          | Some (a, rest) =>
              let counted :=
                match rest with
                | c :: rest' =>
                    if Ascii.eqb c "{" then
                      match parseCount rest' None with
                      | Some (n, rest'') => Some (OpRepeat a n, rest'')
                      | None => None
                      end
                    else Some (a, rest)
                | [] => Some (a, rest)
                end in
              match counted with
              | None => None
              | Some (a', rest') =>
                  match parseSeq fuel' rest' with
                  | Some r => Some (OpConcat a' r)
                  | None => None
                  end
              end
          end
      end
  end.

Definition Compile (pattern : string) : result Regexp :=
  let p := list_ascii_of_string pattern in
  match parseSeq (length p) p with
  | Some re => Ok re
  | None => Err ("error parsing regexp: `" ++ pattern ++ "`")
  end.

(** [regexp.MatchString]: the match flag and the compile error. *)
Definition MatchString (pattern : string) (s : string) : bool * option string :=
  match Compile pattern with
  | Err e => (false, Some e)
  | Ok re => (Match re (list_ascii_of_string s), None)
  end.

End regexp.

(** ** [encoding/json]

    What a service encodes is kept as the document it encodes, not as text;
    decoding is the library's business and is taken as a parameter, one
    decoder per target type. *)

Module json.

(** The structs of this repository are flat: an encoded document is an
    object whose members, in field order, are scalars. *)
Inductive Scalar : Type :=
| Boolean (b : bool)
| Num (f : float)
| Str (s : string).

Definition Value : Type := list (string * Scalar).

(** The reader of a body: the bytes it delivers and the error, if any,
    that ends the reading. *)
Record Body : Type := mkBody { bytes : string; readErr : option string }.

(** [Unmarshal] is [json.Unmarshal(data, &v)] and [Decode] is
    [json.NewDecoder(body).Decode(&v)], both into a zero value of [A]. *)
Class Decodable (A : Type) : Type := {
  Unmarshal : string -> result A;
  Decode : Body -> result A
}.

(** [json.Marshal] and [Encoder.Encode] of the structs of this repository,
    which hold strings and finite numbers only, do not fail. *)
Class Encodable (A : Type) : Type := Marshal : A -> Value.

End json.

(** [io.ReadAll]: the bytes read and the error that stopped the reading. *)
Definition io_ReadAll (b : json.Body) : string * option string :=
  (json.bytes b, json.readErr b).

(** ** [net/url] *)

Module url.

Definition isUnreserved (c : ascii) : bool :=
  (regexp.inRange "a" "z" c || regexp.inRange "A" "Z" c
   || regexp.inRange "0" "9" c
   || existsb (Ascii.eqb c) ["-"; "_"; "."; "~"]%char)%bool.

Definition upperhex (n : nat) : ascii :=
  nth n (list_ascii_of_string "0123456789ABCDEF") "0"%char.

(** [url.QueryEscape]: a space becomes [+], a byte outside the unreserved
    set becomes [%XX]. *)
Fixpoint QueryEscape (s : string) : string :=
  match s with
  | EmptyString => EmptyString
  | String.String c s' =>
      if Ascii.eqb c " " then String.String "+" (QueryEscape s')
      else if isUnreserved c then String.String c (QueryEscape s')
      else String.String "%"
             (String.String (upperhex (nat_of_ascii c / 16))
                (String.String (upperhex (nat_of_ascii c mod 16))
                   (QueryEscape s')))
  end.

(** [url.Parse] is the library's; only its verdict matters here. *)
Class Parser : Type := parseError : string -> option string.

End url.

(** ** [net/http] *)

Module http.

Definition StatusOK : Z := 200.
Definition StatusBadRequest : Z := 400.
Definition StatusNotFound : Z := 404.
Definition StatusMethodNotAllowed : Z := 405.
Definition StatusUnprocessableEntity : Z := 422.
Definition StatusInternalServerError : Z := 500.

Definition MethodPost : string := "POST".

(** A request as a handler receives it. *)
Record Request : Type := mkRequest {
  Method : string;
  Path : string;
  RemoteAddr : string;
  Body : json.Body
}.

(** A request as a client sends it. *)
Record ClientRequest : Type := mkClientRequest {
  reqMethod : string;
  reqURL : string;
  reqHeader : list (string * string);
  reqBody : option json.Value
}.

Record Response : Type := mkResponse {
  StatusCode : Z;
  RespBody : json.Body
}.

(** What has gone to the client through an [http.ResponseWriter]. *)
Inductive Written : Type :=
| Raw (s : string)
| Encoded (v : json.Value).

Record ResponseWriter : Type := mkResponseWriter {
  header : list (string * string);
  status : option Z;
  written : list Written
}.

Definition NewRecorder : ResponseWriter :=
  {| header := []; status := None; written := [] |}.

Definition HeaderSet (w : ResponseWriter) (k v : string) : ResponseWriter :=
  {| header := (k, v) :: filter (fun kv => negb (String.eqb (fst kv) k)) (header w);
     status := status w;
     written := written w |}.

(** The first [WriteHeader] decides the status; a later one is ignored. *)
Definition WriteHeader (w : ResponseWriter) (code : Z) : ResponseWriter :=
  match status w with
  | Some _ => w
  | None => {| header := header w; status := Some code; written := written w |}
  end.

(** A write before any [WriteHeader] sends status 200 first. *)
Definition Write (w : ResponseWriter) (p : Written) : ResponseWriter :=
  let w' := WriteHeader w StatusOK in
  {| header := header w'; status := status w'; written := written w' ++ [p] |}.

(** [json.NewEncoder(w).Encode(v)]. *)
Definition Encode {A : Type} {encoder : json.Encodable A}
           (w : ResponseWriter) (v : A)
  : ResponseWriter :=
  Write w (Encoded (json.Marshal v)).

(** [http.NewRequestWithContext]: fails when the URL does not parse. *)
Definition NewRequestWithContext {parser : url.Parser} (method target : string)
           (body : option json.Value) : result ClientRequest :=
  match url.parseError target with
  | Some e => Err e
  | None => Ok {| reqMethod := method; reqURL := target;
                  reqHeader := []; reqBody := body |}
  end.

Definition SetHeader (req : ClientRequest) (k v : string) : ClientRequest :=
  {| reqMethod := reqMethod req; reqURL := reqURL req;
     reqHeader := (k, v) :: reqHeader req; reqBody := reqBody req |}.

End http.

(** ** [strconv], [fmt] and [os] *)

Module strconv.

Definition Itoa (n : Z) : string := NilZero.string_of_int (Z.to_int n).

(** The text between double quotes, as error messages show it. *)
Definition Quote (s : string) : string :=
  String.String (ascii_of_nat 34) (s ++ String.String (ascii_of_nat 34) "").

Definition ParseBool (str : string) : result bool :=
  if existsb (String.eqb str) ["1"; "t"; "T"; "TRUE"; "true"; "True"]
  then Ok true
  else if existsb (String.eqb str) ["0"; "f"; "F"; "FALSE"; "false"; "False"]
  then Ok false
  else Err ("strconv.ParseBool: parsing " ++ Quote str ++ ": invalid syntax").

End strconv.

Module os.

(** The process environment: the variables that are set. *)
Definition Environ : Type := string -> option string.

(** [os.Getenv]: the value, empty when the variable is not set. *)
Definition Getenv (env : Environ) (key : string) : string :=
  match env key with
  | Some v => v
  | None => ""
  end.

End os.

(** ** The world a handler runs in

    A handler reads the clock, writes log lines and trace records, and
    sends requests to other hosts.  [upstream] is what the network answers
    to a request, a response or a transport error (a timeout and a
    cancelled context are transport errors); within one exchange each
    external API is called at most once, so the answers are those of the
    exchange.  [outbound] keeps every request handed to the transport,
    oldest first. *)

Inductive LogValue : Type :=
| LStr (s : string)
| LInt (n : Z)
| LFloat (f : float).

Inductive LogLine : Type :=
| Line (asJSON : bool) (timestamp : nat) (level message : string)
       (fields : list (string * LogValue))
| Printf (text : string).

Inductive TraceRecord : Type :=
| SpanStart (tracer name : string)
| SpanEvent (span name : string) (attrs : list (string * string))
| SpanEnd (name : string).

Definition Upstream : Type := http.ClientRequest -> result http.Response.

Record World : Type := mkWorld {
  upstream : Upstream;
  clock : nat;
  outbound : list http.ClientRequest;
  logged : list LogLine;
  traced : list TraceRecord
}.

Definition M (A : Type) : Type := World -> A * World.

Definition ret {A : Type} (a : A) : M A := fun w => (a, w).

Definition bind {A B : Type} (m : M A) (k : A -> M B) : M B :=
  fun w => let (a, w') := m w in k a w'.

Notation "x <- c1 ;; c2" := (bind c1 (fun x => c2))
  (at level 61, c1 at next level, right associativity).
Notation "c1 ;; c2" := (bind c1 (fun _ => c2))
  (at level 61, right associativity).

Definition emit (l : LogLine) : M unit :=
  fun w => (tt, {| upstream := upstream w; clock := clock w;
                   outbound := outbound w; logged := logged w ++ [l];
                   traced := traced w |}).

Definition trace (t : TraceRecord) : M unit :=
  fun w => (tt, {| upstream := upstream w; clock := clock w;
                   outbound := outbound w; logged := logged w;
                   traced := traced w ++ [t] |}).

(** [time.Now()]. *)
Definition time_Now : M nat := fun w => (clock w, w).

(** [client.Do(req)] and [client.Get(url)]: the request goes out, time
    passes, and the network's answer or a transport error comes back. *)
Definition client_Do (req : http.ClientRequest) : M (result http.Response) :=
  fun w => (upstream w req,
            {| upstream := upstream w; clock := S (clock w);
               outbound := outbound w ++ [req]; logged := logged w;
               traced := traced w |}).

Definition client_Get {parser : url.Parser} (target : string)
  : M (result http.Response) :=
  match http.NewRequestWithContext "GET" target None with
  | Err e => ret (Err ("Get " ++ strconv.Quote target ++ ": " ++ e))
  | Ok req => client_Do req
  end.

(** [time.Since(start).String()]. *)
Definition durationString (start stop : nat) : string :=
  strconv.Itoa (Z.of_nat (stop - start)).

(** ** Package [shared]: configuration, logger, tracer and wire types *)

Module shared.

Record Config : Type := mkConfig {
  Port : string;
  LogLevel : string;
  LogJSON : bool;
  WeatherAPIKey : string;
  ServiceBURL : string;
  ZipkinURL : string
}.

Definition getEnv (env : os.Environ) (key defaultValue : string) : string :=
  let value := os.Getenv env key in
  if negb (String.eqb value "") then value else defaultValue.

Definition getEnvBool (env : os.Environ) (key : string) (defaultValue : bool)
  : bool :=
  let value := os.Getenv env key in
  if negb (String.eqb value "") then
    match strconv.ParseBool value with
    | Ok boolValue => boolValue
    | Err _ => defaultValue
    end
  else defaultValue.

Definition GetConfig (env : os.Environ) : Config :=
  let port := getEnv env "PORT" "8080" in
  let logLevel := getEnv env "LOG_LEVEL" "INFO" in
  let logJSON := getEnvBool env "LOG_JSON" false in
  let weatherAPIKey := getEnv env "WEATHER_API_KEY" "" in
  let serviceBURL := getEnv env "SERVICE_B_URL" "http://localhost:8081" in
  let zipkinURL := getEnv env "ZIPKIN_URL" "http://localhost:9411" in
  {| Port := port; LogLevel := logLevel; LogJSON := logJSON;
     WeatherAPIKey := weatherAPIKey; ServiceBURL := serviceBURL;
     ZipkinURL := zipkinURL |}.

(** *** [shared/logger.go] *)

Definition LogLevelT : Type := Z.
Definition DEBUG : LogLevelT := 0%Z.
Definition INFO : LogLevelT := 1%Z.
Definition WARN : LogLevelT := 2%Z.
Definition ERROR : LogLevelT := 3%Z.

Record Logger : Type := NewLogger { level : LogLevelT; json : bool }.

Definition levelString (lv : LogLevelT) : string :=
  if (lv =? DEBUG)%Z then "DEBUG"
  else if (lv =? INFO)%Z then "INFO"
  else if (lv =? WARN)%Z then "WARN"
  else if (lv =? ERROR)%Z then "ERROR"
  else "UNKNOWN".

Definition log (l : Logger) (lv : LogLevelT) (message : string)
           (fields : list (string * LogValue)) : M unit :=
  now <- time_Now ;;
  emit (Line (json l) now (levelString lv) message fields).

Definition Debug (l : Logger) (message : string) fields : M unit :=
  if (level l <=? DEBUG)%Z then log l DEBUG message fields else ret tt.

Definition Info (l : Logger) (message : string) fields : M unit :=
  if (level l <=? INFO)%Z then log l INFO message fields else ret tt.

Definition Warn (l : Logger) (message : string) fields : M unit :=
  if (level l <=? WARN)%Z then log l WARN message fields else ret tt.

Definition Error (l : Logger) (message : string) fields : M unit :=
  if (level l <=? ERROR)%Z then log l ERROR message fields else ret tt.

(** *** [shared/otel.go] *)

Definition CreateSpan (tracer name : string) : M string :=
  trace (SpanStart tracer name) ;; ret name.

Definition AddEvent (span name : string) (attrs : list (string * string))
  : M unit :=
  trace (SpanEvent span name attrs).

Definition End (span : string) : M unit := trace (SpanEnd span).

(** A function body that starts with [CreateSpan] and [defer span.End()]. *)
Definition withSpan {A : Type} (tracer name : string) (body : string -> M A)
  : M A :=
  span <- CreateSpan tracer name ;;
  r <- body span ;;
  (End span ;; ret r).

(** *** The wire types

    Modelled from the spec: the file of [shared] that declares the wire
    types is not among the sources.  The structs have the fields the two
    services read and write, and are encoded under the member names of
    the spec's examples, which are those of the same structs in
    [main.go]. *)

Module ZipcodeRequest.
Record t : Type := mk { CEP : string }.
End ZipcodeRequest.

Module ViaCEPResponse.
Record t : Type := mk {
  Logradouro : string;
  Bairro : string;
  Localidade : string;
  UF : string;
  Erro : bool
}.
End ViaCEPResponse.

Module WeatherAPIResponse.
Record location : Type := mkLocation { Name : string; Country : string }.
Record current : Type := mkCurrent { TempC : float; TempF : float }.
Record t : Type := mk { Location : location; Current : current }.
End WeatherAPIResponse.

Module WeatherResponse.
Record t : Type := mk {
  City : string;
  TempC : float;
  TempF : float;
  TempK : float
}.
End WeatherResponse.

Module ErrorResponse.
Record t : Type := mk { Message : string }.
End ErrorResponse.

#[global] Instance encodeZipcodeRequest : json.Encodable ZipcodeRequest.t :=
  fun v => [("cep", json.Str (ZipcodeRequest.CEP v))].

#[global] Instance encodeWeatherResponse : json.Encodable WeatherResponse.t :=
  fun v => [("city", json.Str (WeatherResponse.City v));
            ("temp_C", json.Num (WeatherResponse.TempC v));
            ("temp_F", json.Num (WeatherResponse.TempF v));
            ("temp_K", json.Num (WeatherResponse.TempK v))].

#[global] Instance encodeErrorResponse : json.Encodable ErrorResponse.t :=
  fun v => [("message", json.Str (ErrorResponse.Message v))].

End shared.

(** ** The Resolver: [service-b/main.go] *)

Module ServiceB.
Import shared.

Record ServiceB : Type := mkServiceB {
  config : shared.Config;
  logger : shared.Logger;
  tracer : string
}.

Section Methods.
Context {parser : url.Parser}.
Context {zipcodes : json.Decodable ZipcodeRequest.t}.
Context {locations : json.Decodable ViaCEPResponse.t}.
Context {samples : json.Decodable WeatherAPIResponse.t}.

Definition sendErrorResponse (w : http.ResponseWriter) (message : string)
           (statusCode : Z) : http.ResponseWriter :=
  http.Encode (http.WriteHeader w statusCode)
              {| ErrorResponse.Message := message |}.

Definition isValidZipcode (zipcode : string) : bool :=
  let (matched, _) := regexp.MatchString "^\d{8}$" zipcode in
  matched.

Definition getLocationFromCEP (s : ServiceB) (cep : string)
  : M (result ViaCEPResponse.t) :=
  withSpan (tracer s) "service-b.getLocationFromCEP" (fun span =>
    AddEvent span "Calling ViaCEP API" [("cep", cep)] ;;
    let apiURL := "https://viacep.com.br/ws/" ++ cep ++ "/json/" in
    Debug (logger s) "Consultando ViaCEP"
          [("cep", LStr cep); ("endpoint", LStr apiURL)] ;;
    match http.NewRequestWithContext "GET" apiURL None with
    | Err err => ret (Err ("failed to create request: " ++ err))
    | Ok req =>
        start <- time_Now ;;
        resp <- client_Do req ;;
        stop <- time_Now ;;
        AddEvent span "ViaCEP response received"
                 [("duration", durationString start stop)] ;;
        match resp with
        | Err err =>
            Error (logger s) "Erro ao consultar ViaCEP"
                  [("cep", LStr cep); ("error", LStr err)] ;;
            ret (Err ("error contacting ViaCEP: " ++ err))
        | Ok resp =>
            if negb (http.StatusCode resp =? http.StatusOK)%Z then
              Error (logger s) "ViaCEP retornou status inválido"
                    [("cep", LStr cep);
                     ("status_code", LInt (http.StatusCode resp))] ;;
              ret (Err ("ViaCEP returned status code "
                        ++ strconv.Itoa (http.StatusCode resp)))
            else
              match json.Decode (http.RespBody resp) with
              | Err err =>
                  Error (logger s) "Erro ao decodificar resposta do ViaCEP"
                        [("cep", LStr cep); ("error", LStr err)] ;;
                  ret (Err ("error decoding ViaCEP response: " ++ err))
              | Ok viaCEPResp =>
                  if (ViaCEPResponse.Erro viaCEPResp
                      || String.eqb (ViaCEPResponse.Localidade viaCEPResp) "")%bool
                  then
                    Warn (logger s) "CEP não encontrado" [("cep", LStr cep)] ;;
                    ret (Err "CEP not found")
                  else
                    Info (logger s) "CEP encontrado com sucesso"
                         [("cep", LStr cep);
                          ("city", LStr (ViaCEPResponse.Localidade viaCEPResp));
                          ("state", LStr (ViaCEPResponse.UF viaCEPResp));
                          ("district", LStr (ViaCEPResponse.Bairro viaCEPResp));
                          ("street", LStr (ViaCEPResponse.Logradouro viaCEPResp))] ;;
                    ret (Ok viaCEPResp)
              end
        end
    end).

Definition getWeatherFromLocation (s : ServiceB) (city : string)
  : M (result WeatherAPIResponse.t) :=
  withSpan (tracer s) "service-b.getWeatherFromLocation" (fun span =>
    AddEvent span "Calling WeatherAPI" [("city", city)] ;;
    let apiKey := WeatherAPIKey (config s) in
    Debug (logger s) "Verificando chave de API"
          [("key_length", LInt (Z.of_nat (String.length apiKey)))] ;;
    if String.eqb apiKey "" then
      ret (Err "WEATHER_API_KEY environment variable not set")
    else
      let query := city ++ ", Brazil" in
      let query := url.QueryEscape query in
      let apiURL := "https://api.weatherapi.com/v1/current.json?key="
                    ++ apiKey ++ "&q=" ++ query ++ "&aqi=no" in
      Debug (logger s) "Fazendo requisição para WeatherAPI"
            [("city", LStr city); ("encoded_city", LStr query)] ;;
      match http.NewRequestWithContext "GET" apiURL None with
      | Err err => ret (Err ("failed to create request: " ++ err))
      | Ok req =>
          start <- time_Now ;;
          resp <- client_Do req ;;
          stop <- time_Now ;;
          AddEvent span "WeatherAPI response received"
                   [("duration", durationString start stop)] ;;
          match resp with
          | Err err =>
              Error (logger s) "Falha na requisição HTTP"
                    [("error", LStr err); ("city", LStr city)] ;;
              ret (Err ("failed to make request: " ++ err))
          | Ok resp =>
              if negb (http.StatusCode resp =? http.StatusOK)%Z then
                let (body, _) := io_ReadAll (http.RespBody resp) in
                let responseBody := body in
                Error (logger s) "Resposta de erro da WeatherAPI"
                      [("status_code", LInt (http.StatusCode resp));
                       ("response", LStr responseBody);
                       ("city", LStr city)] ;;
                ret (Err ("weather API returned status code "
                          ++ strconv.Itoa (http.StatusCode resp)
                          ++ ": " ++ responseBody))
              else
                match json.Decode (http.RespBody resp) with
                | Err err =>
                    Error (logger s) "Erro ao decodificar resposta"
                          [("error", LStr err)] ;;
                    ret (Err ("error decoding response: " ++ err))
                | Ok weatherResp =>
                    Info (logger s) "Dados de clima obtidos com sucesso"
                         [("city", LStr city);
                          ("temp_c", LFloat (WeatherAPIResponse.TempC
                                               (WeatherAPIResponse.Current weatherResp)));
                          ("temp_f", LFloat (WeatherAPIResponse.TempF
                                               (WeatherAPIResponse.Current weatherResp)));
                          ("country", LStr (WeatherAPIResponse.Country
                                              (WeatherAPIResponse.Location weatherResp)))] ;;
                    ret (Ok weatherResp)
                end
          end
      end).

Definition handleWeatherRequest (s : ServiceB) (w : http.ResponseWriter)
           (r : http.Request) : M http.ResponseWriter :=
  withSpan (tracer s) "service-b.handleWeatherRequest" (fun _ =>
    let w := http.HeaderSet w "Content-Type" "application/json" in
    if negb (String.eqb (http.Method r) http.MethodPost) then
      ret (sendErrorResponse w "method not allowed" http.StatusMethodNotAllowed)
    else
      match io_ReadAll (http.Body r) with
      | (_, Some err) =>
          Error (logger s) "Erro ao ler body da requisição"
                [("error", LStr err)] ;;
          ret (sendErrorResponse w "invalid request body" http.StatusBadRequest)
      | (body, None) =>
          match json.Unmarshal body with
          | Err err =>
              Error (logger s) "Erro ao fazer parse do JSON"
                    [("error", LStr err); ("body", LStr body)] ;;
              ret (sendErrorResponse w "invalid json format" http.StatusBadRequest)
          | Ok request =>
              Info (logger s) "Requisição recebida"
                   [("method", LStr (http.Method r));
                    ("cep", LStr (ZipcodeRequest.CEP request));
                    ("ip", LStr (http.RemoteAddr r))] ;;
              if negb (isValidZipcode (ZipcodeRequest.CEP request)) then
                Warn (logger s) "CEP inválido"
                     [("cep", LStr (ZipcodeRequest.CEP request))] ;;
                ret (sendErrorResponse w "invalid zipcode"
                                       http.StatusUnprocessableEntity)
              else
                location <- getLocationFromCEP s (ZipcodeRequest.CEP request) ;;
                match location with
                | Err err =>
                    Error (logger s) "Erro ao obter localização"
                          [("cep", LStr (ZipcodeRequest.CEP request));
                           ("error", LStr err)] ;;
                    ret (sendErrorResponse w "can not find zipcode"
                                           http.StatusNotFound)
                | Ok location =>
                    Info (logger s) "Localização encontrada"
                         [("cep", LStr (ZipcodeRequest.CEP request));
                          ("city", LStr (ViaCEPResponse.Localidade location));
                          ("state", LStr (ViaCEPResponse.UF location))] ;;
                    weather <- getWeatherFromLocation s
                                 (ViaCEPResponse.Localidade location) ;;
                    match weather with
                    | Err err =>
                        Error (logger s) "Erro ao obter clima"
                              [("city", LStr (ViaCEPResponse.Localidade location));
                               ("error", LStr err)] ;;
                        ret (sendErrorResponse w
                               "error getting weather information"
                               http.StatusInternalServerError)
                    | Ok weather =>
                        let response :=
                          {| WeatherResponse.City :=
                               ViaCEPResponse.Localidade location;
                             WeatherResponse.TempC :=
                               WeatherAPIResponse.TempC
                                 (WeatherAPIResponse.Current weather);
                             WeatherResponse.TempF :=
                               WeatherAPIResponse.TempF
                                 (WeatherAPIResponse.Current weather);
                             WeatherResponse.TempK :=
                               (WeatherAPIResponse.TempC
                                  (WeatherAPIResponse.Current weather)
                                + 273.15)%float |} in
                        Info (logger s) "Enviando resposta"
                             [("cep", LStr (ZipcodeRequest.CEP request));
                              ("city", LStr (WeatherResponse.City response));
                              ("temp_c", LFloat (WeatherResponse.TempC response));
                              ("temp_f", LFloat (WeatherResponse.TempF response));
                              ("temp_k", LFloat (WeatherResponse.TempK response))] ;;
                        ret (http.Encode w response)
                    end
                end
          end
      end).

Definition healthCheck (w : http.ResponseWriter) (r : http.Request)
  : http.ResponseWriter :=
  http.Write (http.WriteHeader w http.StatusOK) (http.Raw "OK").

End Methods.

End ServiceB.

(** ** The Gateway: [service-a/main.go] *)

Module ServiceA.
Import shared.

Record ServiceA : Type := mkServiceA {
  config : shared.Config;
  logger : shared.Logger;
  tracer : string
}.

Section Methods.
Context {parser : url.Parser}.
Context {zipcodes : json.Decodable ZipcodeRequest.t}.
Context {reports : json.Decodable WeatherResponse.t}.

Definition sendErrorResponse (w : http.ResponseWriter) (message : string)
           (statusCode : Z) : http.ResponseWriter :=
  http.Encode (http.WriteHeader w statusCode)
              {| ErrorResponse.Message := message |}.

Definition isValidZipcode (zipcode : string) : bool :=
  let (matched, _) := regexp.MatchString "^\d{8}$" zipcode in
  matched.

Definition callServiceB (s : ServiceA) (cep : string)
  : M (result WeatherResponse.t) :=
  withSpan (tracer s) "service-a.callServiceB" (fun span =>
    AddEvent span "Calling Service B"
             [("cep", cep); ("service_b_url", ServiceBURL (config s))] ;;
    let requestBody := {| ZipcodeRequest.CEP := cep |} in
    let jsonBody := json.Marshal requestBody in
    match http.NewRequestWithContext
            "POST" (ServiceBURL (config s) ++ "/weather") (Some jsonBody) with
    | Err err => ret (Err ("failed to create request: " ++ err))
    | Ok req =>
        let req := http.SetHeader req "Content-Type" "application/json" in
        start <- time_Now ;;
        resp <- client_Do req ;;
        stop <- time_Now ;;
        AddEvent span "Service B response received"
                 [("duration", durationString start stop)] ;;
        match resp with
        | Err err =>
            ret (Err ("failed to make request to service B: " ++ err))
        | Ok resp =>
            match io_ReadAll (http.RespBody resp) with
            | (_, Some err) =>
                ret (Err ("failed to read response body: " ++ err))
            | (respBody, None) =>
                Debug (logger s) "Resposta do Service B"
                      [("status_code", LInt (http.StatusCode resp));
                       ("response", LStr respBody);
                       ("duration", LStr (durationString start stop))] ;;
                if (http.StatusCode resp =? http.StatusNotFound)%Z then
                  ret (Err "can not find zipcode")
                else if (http.StatusCode resp
                         =? http.StatusUnprocessableEntity)%Z then
                  ret (Err "invalid zipcode")
                else if negb (http.StatusCode resp =? http.StatusOK)%Z then
                  ret (Err ("service B returned status "
                            ++ strconv.Itoa (http.StatusCode resp)
                            ++ ": " ++ respBody))
                else
                  match json.Unmarshal respBody with
                  | Err err =>
                      ret (Err ("failed to unmarshal response: " ++ err))
                  | Ok weatherResponse => ret (Ok weatherResponse)
                  end
            end
        end
    end).

Definition handleCEPRequest (s : ServiceA) (w : http.ResponseWriter)
           (r : http.Request) : M http.ResponseWriter :=
  withSpan (tracer s) "service-a.handleCEPRequest" (fun _ =>
    let w := http.HeaderSet w "Content-Type" "application/json" in
    if negb (String.eqb (http.Method r) http.MethodPost) then
      ret (sendErrorResponse w "method not allowed" http.StatusMethodNotAllowed)
    else
      match io_ReadAll (http.Body r) with
      | (_, Some err) =>
          Error (logger s) "Erro ao ler body da requisição"
                [("error", LStr err)] ;;
          ret (sendErrorResponse w "invalid request body" http.StatusBadRequest)
      | (body, None) =>
          match json.Unmarshal body with
          | Err err =>
              Error (logger s) "Erro ao fazer parse do JSON"
                    [("error", LStr err); ("body", LStr body)] ;;
              ret (sendErrorResponse w "invalid json format" http.StatusBadRequest)
          | Ok request =>
              Info (logger s) "Requisição recebida"
                   [("method", LStr (http.Method r));
                    ("cep", LStr (ZipcodeRequest.CEP request));
                    ("ip", LStr (http.RemoteAddr r))] ;;
              if negb (isValidZipcode (ZipcodeRequest.CEP request)) then
                Warn (logger s) "CEP inválido"
                     [("cep", LStr (ZipcodeRequest.CEP request))] ;;
                ret (sendErrorResponse w "invalid zipcode"
                                       http.StatusUnprocessableEntity)
              else
                weatherResponse <- callServiceB s (ZipcodeRequest.CEP request) ;;
                match weatherResponse with
                | Err err =>
                    Error (logger s) "Erro ao chamar Service B"
                          [("cep", LStr (ZipcodeRequest.CEP request));
                           ("error", LStr err)] ;;
                    if String.eqb err "can not find zipcode" then
                      ret (sendErrorResponse w "can not find zipcode"
                                             http.StatusNotFound)
                    else if String.eqb err "invalid zipcode" then
                      ret (sendErrorResponse w "invalid zipcode"
                                             http.StatusUnprocessableEntity)
                    else
                      ret (sendErrorResponse w "error processing request"
                                             http.StatusInternalServerError)
                | Ok weatherResponse => ret (http.Encode w weatherResponse)
                end
          end
      end).

Definition healthCheck (w : http.ResponseWriter) (r : http.Request)
  : http.ResponseWriter :=
  http.Write (http.WriteHeader w http.StatusOK) (http.Raw "OK").

End Methods.

End ServiceA.

(** ** The standalone variant: [config/config.go], the [logging] package
    and [main.go] *)

Module config.

Record Config : Type := mkConfig {
  Port : string;
  WeatherAPIKey : string;
  DevMode : bool;
  LogJSON : bool;
  LogLevel : string
}.

Definition getEnv (env : os.Environ) (key defaultValue : string) : string :=
  let value := os.Getenv env key in
  if String.eqb value "" then defaultValue else value.

Definition getEnvAsBool (env : os.Environ) (key : string) (defaultValue : bool)
  : bool :=
  let value := os.Getenv env key in
  if String.eqb value "" then defaultValue
  else
    match strconv.ParseBool value with
    | Err _ => defaultValue
    | Ok v => v
    end.

Definition GetConfig (env : os.Environ) : Config :=
  {| Port := getEnv env "PORT" "8080";
     WeatherAPIKey := os.Getenv env "WEATHER_API_KEY";
     DevMode := getEnvAsBool env "DEV_MODE" false;
     LogJSON := getEnvAsBool env "LOG_JSON" false;
     LogLevel := getEnv env "LOG_LEVEL" "INFO" |}.

End config.

Module logging.

Definition Level : Type := Z.
Definition DEBUG : Level := 0%Z.
Definition INFO : Level := 1%Z.
Definition WARN : Level := 2%Z.
Definition ERROR : Level := 3%Z.
Definition FATAL : Level := 4%Z.

Definition LevelString (l : Level) : string :=
  if (l =? DEBUG)%Z then "DEBUG"
  else if (l =? INFO)%Z then "INFO"
  else if (l =? WARN)%Z then "WARN"
  else if (l =? ERROR)%Z then "ERROR"
  else if (l =? FATAL)%Z then "FATAL"
  else "UNKNOWN".

Record Logger : Type := New { level : Level; enableJSON : bool }.

(** The handlers never log at [FATAL], so the exit of the process that
    follows a fatal line is left out. *)
Definition log (l : Logger) (lv : Level) (message : string)
           (fields : list (string * LogValue)) : M unit :=
  if (lv <? level l)%Z then ret tt
  else
    now <- time_Now ;;
    emit (Line (enableJSON l) now (LevelString lv) message fields).

Definition Debug (l : Logger) (message : string) fields : M unit :=
  log l DEBUG message fields.
Definition Info (l : Logger) (message : string) fields : M unit :=
  log l INFO message fields.
Definition Warn (l : Logger) (message : string) fields : M unit :=
  log l WARN message fields.
Definition Error (l : Logger) (message : string) fields : M unit :=
  log l ERROR message fields.

End logging.

Module Standalone.

Module ViaCEPResponse.
Record t : Type := mk {
  CEP : string;
  Logradouro : string;
  Complemento : string;
  Bairro : string;
  Localidade : string;
  UF : string;
  IBGE : string;
  GIA : string;
  DDD : string;
  SIAFI : string;
  Erro : bool
}.
End ViaCEPResponse.

Module WeatherAPIResponse.
Record location : Type := mkLocation {
  Name : string;
  Region : string;
  Country : string;
  Lat : float;
  Lon : float
}.
Record current : Type := mkCurrent { TempC : float; TempF : float }.
Record t : Type := mk { Location : location; Current : current }.
End WeatherAPIResponse.

Module WeatherResponse.
Record t : Type := mk { TempC : float; TempF : float; TempK : float }.
End WeatherResponse.

Module ErrorResponse.
Record t : Type := mk { Message : string }.
End ErrorResponse.

#[global] Instance encodeWeatherResponse : json.Encodable WeatherResponse.t :=
  fun v => [("temp_C", json.Num (WeatherResponse.TempC v));
            ("temp_F", json.Num (WeatherResponse.TempF v));
            ("temp_K", json.Num (WeatherResponse.TempK v))].

#[global] Instance encodeErrorResponse : json.Encodable ErrorResponse.t :=
  fun v => [("message", json.Str (ErrorResponse.Message v))].

(** The package variables [conf] and [logger].  [main] assigns them once,
    before the server starts, and no handler writes them. *)
Record Globals : Type := mkGlobals {
  conf : config.Config;
  logger : logging.Logger
}.

(** [s[n:]]: the bytes from offset [n] on; out of range it panics. *)
Fixpoint sliceFrom (s : string) (n : nat) : option string :=
  match n with
  | O => Some s
  | S n' =>
      match s with
      | EmptyString => None
      | String.String _ s' => sliceFrom s' n'
      end
  end.

Section Functions.
Context {parser : url.Parser}.
Context {locations : json.Decodable ViaCEPResponse.t}.
Context {samples : json.Decodable WeatherAPIResponse.t}.

Definition sendErrorResponse (w : http.ResponseWriter) (message : string)
           (statusCode : Z) : http.ResponseWriter :=
  http.Encode (http.WriteHeader w statusCode)
              {| ErrorResponse.Message := message |}.

Definition isValidZipcode (zipcode : string) : bool :=
  let (matched, _) := regexp.MatchString "^\d{8}$" zipcode in
  matched.

Definition getLocationFromCEP (g : Globals) (cep : string)
  : M (result ViaCEPResponse.t) :=
  let apiURL := "https://viacep.com.br/ws/" ++ cep ++ "/json/" in
  logging.Debug (logger g) "Consultando ViaCEP"
                [("cep", LStr cep); ("endpoint", LStr apiURL)] ;;
  resp <- client_Get apiURL ;;
  match resp with
  | Err err =>
      logging.Error (logger g) "Erro ao consultar ViaCEP"
                    [("cep", LStr cep); ("error", LStr err)] ;;
      ret (Err ("error contacting ViaCEP: " ++ err))
  | Ok resp =>
      if negb (http.StatusCode resp =? http.StatusOK)%Z then
        logging.Error (logger g) "ViaCEP retornou status inválido"
                      [("cep", LStr cep);
                       ("status_code", LInt (http.StatusCode resp))] ;;
        ret (Err ("ViaCEP returned status code "
                  ++ strconv.Itoa (http.StatusCode resp)))
      else
        match json.Decode (http.RespBody resp) with
        | Err err =>
            logging.Error (logger g) "Erro ao decodificar resposta do ViaCEP"
                          [("cep", LStr cep); ("error", LStr err)] ;;
            ret (Err ("error decoding ViaCEP response: " ++ err))
        | Ok viaCEPResp =>
            if (ViaCEPResponse.Erro viaCEPResp
                || String.eqb (ViaCEPResponse.Localidade viaCEPResp) "")%bool
            then
              logging.Warn (logger g) "CEP não encontrado" [("cep", LStr cep)] ;;
              ret (Err "CEP not found")
            else
              logging.Info (logger g) "CEP encontrado com sucesso"
                           [("cep", LStr cep);
                            ("city", LStr (ViaCEPResponse.Localidade viaCEPResp));
                            ("state", LStr (ViaCEPResponse.UF viaCEPResp));
                            ("district", LStr (ViaCEPResponse.Bairro viaCEPResp));
                            ("street", LStr (ViaCEPResponse.Logradouro viaCEPResp))] ;;
              ret (Ok viaCEPResp)
        end
  end.

Definition getWeatherFromLocation (g : Globals) (city : string)
  : M (result WeatherAPIResponse.t) :=
  let apiKey := config.WeatherAPIKey (conf g) in
  logging.Debug (logger g) "Verificando chave de API"
                [("key_length", LInt (Z.of_nat (String.length apiKey)))] ;;
  if String.eqb apiKey "" then
    ret (Err "WEATHER_API_KEY environment variable not set")
  else
    let query := city ++ ", Brazil" in
    let query := url.QueryEscape query in
    let apiURL := "https://api.weatherapi.com/v1/current.json?key="
                  ++ apiKey ++ "&q=" ++ query ++ "&aqi=no" in
    logging.Debug (logger g) "Fazendo requisição para WeatherAPI"
                  [("city", LStr city); ("encoded_city", LStr query)] ;;
    resp <- client_Get apiURL ;;
    match resp with
    | Err err =>
        logging.Error (logger g) "Falha na requisição HTTP"
                      [("error", LStr err); ("city", LStr city)] ;;
        ret (Err ("failed to make request: " ++ err))
    | Ok resp =>
        if negb (http.StatusCode resp =? http.StatusOK)%Z then
          let (body, _) := io_ReadAll (http.RespBody resp) in
          let responseBody := body in
          logging.Error (logger g) "Resposta de erro da WeatherAPI"
                        [("status_code", LInt (http.StatusCode resp));
                         ("response", LStr responseBody);
                         ("city", LStr city)] ;;
          ret (Err ("weather API returned status code "
                    ++ strconv.Itoa (http.StatusCode resp)
                    ++ ": " ++ responseBody))
        else
          match json.Decode (http.RespBody resp) with
          | Err err =>
              logging.Error (logger g) "Erro ao decodificar resposta"
                            [("error", LStr err)] ;;
              ret (Err ("error decoding response: " ++ err))
          | Ok weatherResp =>
              logging.Info (logger g) "Dados de clima obtidos com sucesso"
                           [("city", LStr city);
                            ("temp_c", LFloat (WeatherAPIResponse.TempC
                                                 (WeatherAPIResponse.Current weatherResp)));
                            ("temp_f", LFloat (WeatherAPIResponse.TempF
                                                 (WeatherAPIResponse.Current weatherResp)));
                            ("country", LStr (WeatherAPIResponse.Country
                                                (WeatherAPIResponse.Location weatherResp)))] ;;
              ret (Ok weatherResp)
          end
    end.

Definition getMockWeatherData (city : string) : M WeatherAPIResponse.t :=
  emit (Printf ("Using mock weather data for " ++ city)) ;;
  ret {| WeatherAPIResponse.Location :=
           {| WeatherAPIResponse.Name := city;
              WeatherAPIResponse.Region := "";
              WeatherAPIResponse.Country := "Brazil";
              WeatherAPIResponse.Lat := 0%float;
              WeatherAPIResponse.Lon := 0%float |};
         WeatherAPIResponse.Current :=
           {| WeatherAPIResponse.TempC := 25.0%float;
              WeatherAPIResponse.TempF := 77.0%float |} |}.

(** The tail of [handleWeatherRequest], from the response struct on. *)
Definition respond (g : Globals) (w : http.ResponseWriter) (zipcode : string)
           (weather : WeatherAPIResponse.t) : M http.ResponseWriter :=
  let response :=
    {| WeatherResponse.TempC :=
         WeatherAPIResponse.TempC (WeatherAPIResponse.Current weather);
       WeatherResponse.TempF :=
         WeatherAPIResponse.TempF (WeatherAPIResponse.Current weather);
       WeatherResponse.TempK :=
         (WeatherAPIResponse.TempC (WeatherAPIResponse.Current weather)
          + 273.15)%float |} in
  logging.Info (logger g) "Enviando resposta"
               [("zipcode", LStr zipcode);
                ("temp_c", LFloat (WeatherResponse.TempC response))] ;;
  ret (http.Encode w response).

(** The handler yields [None] when it panics: the path is shorter than
    the prefix it cuts off. *)
Definition handleWeatherRequest (g : Globals) (w : http.ResponseWriter)
           (r : http.Request) : M (option http.ResponseWriter) :=
  let w := http.HeaderSet w "Content-Type" "application/json" in
  match sliceFrom (http.Path r) (String.length "/weather/") with
  | None => ret None
  | Some zipcode =>
      logging.Info (logger g) "Requisição recebida"
                   [("method", LStr (http.Method r));
                    ("path", LStr (http.Path r));
                    ("zipcode", LStr zipcode);
                    ("ip", LStr (http.RemoteAddr r))] ;;
      if negb (isValidZipcode zipcode) then
        logging.Warn (logger g) "CEP inválido" [("zipcode", LStr zipcode)] ;;
        ret (Some (sendErrorResponse w "invalid zipcode"
                                     http.StatusUnprocessableEntity))
      else
        location <- getLocationFromCEP g zipcode ;;
        match location with
        | Err err =>
            logging.Error (logger g) "Erro ao obter localização"
                          [("zipcode", LStr zipcode); ("error", LStr err)] ;;
            ret (Some (sendErrorResponse w "can not find zipcode"
                                         http.StatusNotFound))
        | Ok location =>
            logging.Info (logger g) "Localização encontrada"
                         [("zipcode", LStr zipcode);
                          ("city", LStr (ViaCEPResponse.Localidade location));
                          ("state", LStr (ViaCEPResponse.UF location))] ;;
            weather <- getWeatherFromLocation g
                         (ViaCEPResponse.Localidade location) ;;
            match weather with
            | Err err =>
                logging.Error (logger g) "Erro ao obter clima"
                              [("city", LStr (ViaCEPResponse.Localidade location));
                               ("error", LStr err)] ;;
                if config.DevMode (conf g) then
                  logging.Info (logger g) "Usando dados simulados"
                               [("city", LStr (ViaCEPResponse.Localidade location))] ;;
                  weather <- getMockWeatherData
                               (ViaCEPResponse.Localidade location) ;;
                  w' <- respond g w zipcode weather ;;
                  ret (Some w')
                else
                  ret (Some (sendErrorResponse w
                               "error getting weather information"
                               http.StatusInternalServerError))
            | Ok weather =>
                w' <- respond g w zipcode weather ;;
                ret (Some w')
            end
        end
  end.

Definition healthCheck (w : http.ResponseWriter) (r : http.Request)
  : http.ResponseWriter :=
  http.Write (http.WriteHeader w http.StatusOK) (http.Raw "OK").

End Functions.

End Standalone.

(** * Vocabulary of the properties *)

(** What [^\d{8}$] compiles to. *)
Definition zipcodeRegexp : regexp.Regexp :=
  regexp.OpConcat regexp.OpBeginText
    (regexp.OpConcat (regexp.OpRepeat (regexp.OpCharClass "0" "9") 8)
       (regexp.OpConcat regexp.OpEndText regexp.OpEmptyMatch)).

(** The ASCII decimal digits, and the strings made of exactly eight of
    them. *)
Definition asciiDigits : list ascii :=
  ["0"; "1"; "2"; "3"; "4"; "5"; "6"; "7"; "8"; "9"]%char.

Definition EightDigits (s : string) : Prop :=
  String.length s = 8%nat
  /\ Forall (fun c => In c asciiDigits) (list_ascii_of_string s).

(** A variable of the environment that is not set, or whose value
    [strconv.ParseBool] rejects. *)
Definition UnsetOrUnparsable (env : os.Environ) (key : string) : Prop :=
  env key = None
  \/ exists v e, env key = Some v /\ strconv.ParseBool v = Err e.

(** An environment with the given variables, the first binding winning. *)
Fixpoint environ (vars : list (string * string)) : os.Environ :=
  fun key =>
    match vars with
    | [] => None
    | (k, v) :: vars' => if String.eqb k key then Some v else environ vars' key
    end.

(** The two shapes of a finished response, as a fresh recorder holds them:
    an error envelope under its status, and a document under status 200. *)
Definition errorEnvelope (code : Z) (message : string) : http.ResponseWriter :=
  {| http.header := [("Content-Type", "application/json")];
     http.status := Some code;
     http.written := [http.Encoded [("message", json.Str message)]] |}.

Definition okDocument (v : json.Value) : http.ResponseWriter :=
  {| http.header := [("Content-Type", "application/json")];
     http.status := Some http.StatusOK;
     http.written := [http.Encoded v] |}.

(** A POST whose body is read in full and decodes to a request for the
    postal code [cep]: the requests that get as far as the validation in
    the Gateway and in the Resolver. *)
Definition CarriesCEP {zipcodes : json.Decodable shared.ZipcodeRequest.t}
           (r : http.Request) (cep : string) : Prop :=
  http.Method r = http.MethodPost
  /\ json.readErr (http.Body r) = None
  /\ exists request,
       json.Unmarshal (json.bytes (http.Body r)) = Ok request
       /\ shared.ZipcodeRequest.CEP request = cep.

(** The requests the services send. *)
Definition viaCEPRequest (cep : string) : http.ClientRequest :=
  {| http.reqMethod := "GET";
     http.reqURL := "https://viacep.com.br/ws/" ++ cep ++ "/json/";
     http.reqHeader := [];
     http.reqBody := None |}.

Definition weatherAPIRequest (apiKey city : string) : http.ClientRequest :=
  {| http.reqMethod := "GET";
     http.reqURL := "https://api.weatherapi.com/v1/current.json?key="
                      ++ apiKey ++ "&q=" ++ url.QueryEscape (city ++ ", Brazil")
                      ++ "&aqi=no";
     http.reqHeader := [];
     http.reqBody := None |}.

Definition serviceBRequest (serviceBURL cep : string) : http.ClientRequest :=
  {| http.reqMethod := "POST";
     http.reqURL := serviceBURL ++ "/weather";
     http.reqHeader := [("Content-Type", "application/json")];
     http.reqBody := Some [("cep", json.Str cep)] |}.

(** [Sendable req]: the URL of [req] parses, so the request can be built. *)
Definition Sendable {parser : url.Parser} (req : http.ClientRequest) : Prop :=
  url.parseError (http.reqURL req) = None.

Section Geocoding.
Context {parser : url.Parser}.
Variable Location : Type.
Context {locations : json.Decodable Location}.
Variable erro : Location -> bool.
Variable localidade : Location -> string.

(** The four ways in which the geocoding step fails. *)
Inductive GeocodingFails (up : Upstream) (cep : string) : Prop :=
| geocoding_transport_failure (err : string) :
    Sendable (viaCEPRequest cep) ->
    up (viaCEPRequest cep) = Err err ->
    GeocodingFails up cep
| geocoding_status_not_200 (resp : http.Response) :
    Sendable (viaCEPRequest cep) ->
    up (viaCEPRequest cep) = Ok resp ->
    http.StatusCode resp <> http.StatusOK ->
    GeocodingFails up cep
| geocoding_malformed_body (resp : http.Response) (err : string) :
    Sendable (viaCEPRequest cep) ->
    up (viaCEPRequest cep) = Ok resp ->
    http.StatusCode resp = http.StatusOK ->
    json.Decode (http.RespBody resp) = Err err ->
    GeocodingFails up cep
| geocoding_not_found (resp : http.Response) (found : Location) :
    Sendable (viaCEPRequest cep) ->
    up (viaCEPRequest cep) = Ok resp ->
    http.StatusCode resp = http.StatusOK ->
    json.Decode (http.RespBody resp) = Ok found ->
    erro found = true \/ localidade found = "" ->
    GeocodingFails up cep.

(** The geocoding step succeeds with [found]. *)
Definition GeocodingFinds (up : Upstream) (cep : string) (found : Location)
  : Prop :=
  Sendable (viaCEPRequest cep)
  /\ exists resp,
       up (viaCEPRequest cep) = Ok resp
       /\ http.StatusCode resp = http.StatusOK
       /\ json.Decode (http.RespBody resp) = Ok found
       /\ erro found = false
       /\ localidade found <> "".

End Geocoding.

Section Weather.
Context {parser : url.Parser}.
Variable Sample : Type.
Context {samples : json.Decodable Sample}.

(** The weather step succeeds with [sample]. *)
Definition WeatherFinds (up : Upstream) (apiKey city : string) (sample : Sample)
  : Prop :=
  apiKey <> ""
  /\ Sendable (weatherAPIRequest apiKey city)
  /\ exists resp,
       up (weatherAPIRequest apiKey city) = Ok resp
       /\ http.StatusCode resp = http.StatusOK
       /\ json.Decode (http.RespBody resp) = Ok sample.

(** The ways in which the weather step fails once the key is there. *)
Inductive WeatherFails (up : Upstream) (apiKey city : string) : Prop :=
| weather_unsendable (err : string) :
    url.parseError (http.reqURL (weatherAPIRequest apiKey city)) = Some err ->
    WeatherFails up apiKey city
| weather_transport_failure (err : string) :
    Sendable (weatherAPIRequest apiKey city) ->
    up (weatherAPIRequest apiKey city) = Err err ->
    WeatherFails up apiKey city
| weather_status_not_200 (resp : http.Response) :
    Sendable (weatherAPIRequest apiKey city) ->
    up (weatherAPIRequest apiKey city) = Ok resp ->
    http.StatusCode resp <> http.StatusOK ->
    WeatherFails up apiKey city
| weather_malformed_body (resp : http.Response) (err : string) :
    Sendable (weatherAPIRequest apiKey city) ->
    up (weatherAPIRequest apiKey city) = Ok resp ->
    http.StatusCode resp = http.StatusOK ->
    json.Decode (http.RespBody resp) = Err err ->
    WeatherFails up apiKey city.

End Weather.

(** The line a logger writes when the level passes. *)
Definition lineIf (pass : bool) (l : LogLine) : list LogLine :=
  if pass then [l] else [].

(** The world with more lines in its log. *)
Definition alsoLogged (ls : list LogLine) (w : World) : World :=
  {| upstream := upstream w; clock := clock w; outbound := outbound w;
     logged := logged w ++ ls; traced := traced w |}.

(** The world with more records in its trace, and the world after a
    request has gone out. *)
Definition alsoTraced (ts : list TraceRecord) (w : World) : World :=
  {| upstream := upstream w; clock := clock w; outbound := outbound w;
     logged := logged w; traced := traced w ++ ts |}.

Definition sent (req : http.ClientRequest) (w : World) : World :=
  {| upstream := upstream w; clock := S (clock w);
     outbound := outbound w ++ [req]; logged := logged w;
     traced := traced w |}.

(** A finished exchange: one document has been written, an error envelope
    under an error status or a report under status 200. *)
Definition OneResponse (Report : Type) {encoder : json.Encodable Report}
           (w : http.ResponseWriter) : Prop :=
  (exists code message, (400 <= code)%Z /\ w = errorEnvelope code message)
  \/ (exists report : Report, w = okDocument (json.Marshal report)).

Arguments OneResponse Report {_} w.

(** The texts printed through the standard logger alone, which is how the
    mock data announces itself. *)
Definition printfs (ls : list LogLine) : list string :=
  flat_map (fun l => match l with
                     | Printf text => [text]
                     | Line _ _ _ _ _ => []
                     end) ls.

Definition printed (w : World) : list string := printfs (logged w).

(** A request of the standalone handler for the postal code [zipcode]. *)
Definition PathCarries (r : http.Request) (zipcode : string) : Prop :=
  Standalone.sliceFrom (http.Path r) (String.length "/weather/") = Some zipcode.

(** ** Traffic, spans, log lines and queries *)

(** The requests a client really sends when asked to send [req]: none when
    the URL does not parse. *)
Definition attempt {parser : url.Parser} (req : http.ClientRequest)
  : list http.ClientRequest :=
  match url.parseError (http.reqURL req) with
  | Some _ => []
  | None => [req]
  end.

(** The ways in which the Gateway gets no usable response from the
    Resolver at [serviceBURL]. *)
Inductive NoResponse {parser : url.Parser} (up : Upstream)
          (serviceBURL cep : string) : Prop :=
| no_response_bad_url (err : string) :
    url.parseError (http.reqURL (serviceBRequest serviceBURL cep)) = Some err ->
    NoResponse up serviceBURL cep
| no_response_transport (err : string) :
    Sendable (serviceBRequest serviceBURL cep) ->
    up (serviceBRequest serviceBURL cep) = Err err ->
    NoResponse up serviceBURL cep
| no_response_unread_body (resp : http.Response) (err : string) :
    Sendable (serviceBRequest serviceBURL cep) ->
    up (serviceBRequest serviceBURL cep) = Ok resp ->
    json.readErr (http.RespBody resp) = Some err ->
    NoResponse up serviceBURL cep.

(** The values that [strconv.ParseBool] reads as true. *)
Definition truthy : list string := ["1"; "t"; "T"; "TRUE"; "true"; "True"].

(** Whether the records [ts] are well nested inside a span named [outer],
    [open] being the spans opened since, innermost first: a span ends only
    as the innermost of them, an event goes to the innermost open span,
    and at the end all of them are closed. *)
Fixpoint nested (outer : string) (open : list string) (ts : list TraceRecord)
  : bool :=
  match ts with
  | [] => match open with [] => true | _ :: _ => false end
  | SpanStart _ name :: ts' => nested outer (name :: open) ts'
  | SpanEvent span _ _ :: ts' =>
      String.eqb (hd outer open) span && nested outer open ts'
  | SpanEnd name :: ts' =>
      match open with
      | top :: rest => String.eqb top name && nested outer rest ts'
      | [] => false
      end
  end.

(** One span [name] of [tracer], from its start to its end, around well
    nested records. *)
Definition OneSpan (tracer name : string) (ts : list TraceRecord) : Prop :=
  exists inner,
    ts = (SpanStart tracer name :: inner ++ [SpanEnd name])%list
    /\ nested name [] inner = true.

(** A line that a logger of the services set to [threshold] lets through:
    a line of the logger, at one of its four levels, not below
    [threshold]. *)
Definition Passes (threshold : shared.LogLevelT) (l : LogLine) : Prop :=
  match l with
  | Line _ _ name _ _ =>
      exists lv, name = shared.levelString lv
                 /\ (threshold <= lv)%Z
                 /\ (shared.DEBUG <= lv <= shared.ERROR)%Z
  | Printf _ => False
  end.


(** The bytes an escaped query component is made of: letters, digits,
    [-], [_], [.], [~], the [+] that stands for a space and the [%] of an
    escape. *)
Definition querySafe (c : ascii) : bool :=
  (url.isUnreserved c || Ascii.eqb c "+" || Ascii.eqb c "%")%bool.

(** The bytes that delimit the parts of a URL and of its query. *)
Definition delimiters : list ascii := ["&"; "="; "#"; "?"; "/"; " "]%char.

(** A request to the weather API under [key] whose query names a place
    with escaped bytes only. *)
Definition EscapedWeatherRequest (key : string) (req : http.ClientRequest)
  : Prop :=
  exists q,
    http.reqURL req
    = "https://api.weatherapi.com/v1/current.json?key=" ++ key
      ++ "&q=" ++ q ++ "&aqi=no"
    /\ forallb querySafe (list_ascii_of_string q) = true
    /\ forall c, In c delimiters -> ~ In c (list_ascii_of_string q).

(** ** A worked exchange

    The postal code 29902555 of the spec's scenario: the geocoding API
    answers Vitória, ES and the weather API 25.5 °C, 77.9 °F.  The decoders
    are given by the table of the bodies they accept, each with the value
    [encoding/json] decodes it to; every other body is malformed. *)

Definition tableLookup {A : Type} (table : list (string * A)) (data : string)
  : result A :=
  match find (fun kv => String.eqb (fst kv) data) table with
  | Some kv => Ok (snd kv)
  | None => Err "invalid character looking for beginning of value"
  end.

Definition tableDecoder {A : Type} (table : list (string * A))
  : json.Decodable A :=
  {| json.Unmarshal := tableLookup table;
     json.Decode := fun body =>
       match json.readErr body with
       | Some e => Err e
       | None => tableLookup table (json.bytes body)
       end |}.

(** The text of an object with one string member, and with two. *)
Definition member (key value : string) : string :=
  strconv.Quote key ++ ":" ++ strconv.Quote value.

Definition cepBody (cep : string) : string := "{" ++ member "cep" cep ++ "}".

Definition viaCEPBody : string :=
  "{" ++ member "localidade" "Vitória" ++ "," ++ member "uf" "ES" ++ "}".

Definition viaCEPNotFoundBody : string :=
  "{" ++ strconv.Quote "erro" ++ ":true}".

Definition weatherBody : string :=
  "{" ++ strconv.Quote "current" ++ ":{" ++ strconv.Quote "temp_c" ++ ":25.5,"
      ++ strconv.Quote "temp_f" ++ ":77.9}}".

Definition reportBody : string :=
  "{" ++ member "city" "Vitória" ++ "," ++ strconv.Quote "temp_C" ++ ":25.5,"
      ++ strconv.Quote "temp_F" ++ ":77.9," ++ strconv.Quote "temp_K"
      ++ ":298.65}".

Definition anyURL : url.Parser := fun _ => None.

Definition demoZipcodeDecoder : json.Decodable shared.ZipcodeRequest.t :=
  tableDecoder
    [(cepBody "29902555", {| shared.ZipcodeRequest.CEP := "29902555" |});
     (cepBody "99999999", {| shared.ZipcodeRequest.CEP := "99999999" |});
     (cepBody "12345", {| shared.ZipcodeRequest.CEP := "12345" |})].

Definition demoViaCEPDecoder : json.Decodable shared.ViaCEPResponse.t :=
  tableDecoder
    [(viaCEPBody,
      {| shared.ViaCEPResponse.Logradouro := "";
         shared.ViaCEPResponse.Bairro := "";
         shared.ViaCEPResponse.Localidade := "Vitória";
         shared.ViaCEPResponse.UF := "ES";
         shared.ViaCEPResponse.Erro := false |});
     (viaCEPNotFoundBody,
      {| shared.ViaCEPResponse.Logradouro := "";
         shared.ViaCEPResponse.Bairro := "";
         shared.ViaCEPResponse.Localidade := "";
         shared.ViaCEPResponse.UF := "";
         shared.ViaCEPResponse.Erro := true |})].

Definition demoWeatherDecoder : json.Decodable shared.WeatherAPIResponse.t :=
  tableDecoder
    [(weatherBody,
      {| shared.WeatherAPIResponse.Location :=
           {| shared.WeatherAPIResponse.Name := "";
              shared.WeatherAPIResponse.Country := "" |};
         shared.WeatherAPIResponse.Current :=
           {| shared.WeatherAPIResponse.TempC := 25.5%float;
              shared.WeatherAPIResponse.TempF := 77.9%float |} |})].

Definition demoReportDecoder : json.Decodable shared.WeatherResponse.t :=
  tableDecoder
    [(reportBody,
      {| shared.WeatherResponse.City := "Vitória";
         shared.WeatherResponse.TempC := 25.5%float;
         shared.WeatherResponse.TempF := 77.9%float;
         shared.WeatherResponse.TempK := 298.65%float |})].

Definition demoStandaloneViaCEPDecoder
  : json.Decodable Standalone.ViaCEPResponse.t :=
  tableDecoder
    [(viaCEPBody,
      {| Standalone.ViaCEPResponse.CEP := "";
         Standalone.ViaCEPResponse.Logradouro := "";
         Standalone.ViaCEPResponse.Complemento := "";
         Standalone.ViaCEPResponse.Bairro := "";
         Standalone.ViaCEPResponse.Localidade := "Vitória";
         Standalone.ViaCEPResponse.UF := "ES";
         Standalone.ViaCEPResponse.IBGE := "";
         Standalone.ViaCEPResponse.GIA := "";
         Standalone.ViaCEPResponse.DDD := "";
         Standalone.ViaCEPResponse.SIAFI := "";
         Standalone.ViaCEPResponse.Erro := false |})].

Definition demoStandaloneWeatherDecoder
  : json.Decodable Standalone.WeatherAPIResponse.t :=
  tableDecoder
    [(weatherBody,
      {| Standalone.WeatherAPIResponse.Location :=
           {| Standalone.WeatherAPIResponse.Name := "";
              Standalone.WeatherAPIResponse.Region := "";
              Standalone.WeatherAPIResponse.Country := "";
              Standalone.WeatherAPIResponse.Lat := 0%float;
              Standalone.WeatherAPIResponse.Lon := 0%float |};
         Standalone.WeatherAPIResponse.Current :=
           {| Standalone.WeatherAPIResponse.TempC := 25.5%float;
              Standalone.WeatherAPIResponse.TempF := 77.9%float |} |})].

(** A response read in full, and a network that answers by URL. *)
Definition reply (code : Z) (text : string) : result http.Response :=
  Ok {| http.StatusCode := code;
        http.RespBody := {| json.bytes := text; json.readErr := None |} |}.

Definition routes (table : list (string * result http.Response)) : Upstream :=
  fun req =>
  match find (fun kv => String.eqb (fst kv) (http.reqURL req)) table with
  | Some kv => snd kv
  | None => Err "dial tcp: lookup failed: no such host"
  end.

Definition freshWorld (up : Upstream) : World :=
  {| upstream := up; clock := 0; outbound := []; logged := []; traced := [] |}.

Definition postCEP (cep : string) : http.Request :=
  {| http.Method := "POST"; http.Path := "/cep"; http.RemoteAddr := "10.0.0.1:4000";
     http.Body := {| json.bytes := cepBody cep; json.readErr := None |} |}.

Definition getWeather (zipcode : string) : http.Request :=
  {| http.Method := "GET"; http.Path := "/weather/" ++ zipcode;
     http.RemoteAddr := "10.0.0.1:4000";
     http.Body := {| json.bytes := ""; json.readErr := None |} |}.

Definition demoLogger : shared.Logger :=
  {| shared.level := shared.INFO; shared.json := false |}.

Definition demoConfig (weatherAPIKey : string) : shared.Config :=
  {| shared.Port := "8081"; shared.LogLevel := "INFO"; shared.LogJSON := false;
     shared.WeatherAPIKey := weatherAPIKey;
     shared.ServiceBURL := "http://service-b:8081";
     shared.ZipkinURL := "http://zipkin:9411/api/v2/spans" |}.

Definition demoResolver (weatherAPIKey : string) : ServiceB.ServiceB :=
  {| ServiceB.config := demoConfig weatherAPIKey;
     ServiceB.logger := demoLogger;
     ServiceB.tracer := "service-b" |}.

Definition demoGateway : ServiceA.ServiceA :=
  {| ServiceA.config := demoConfig "";
     ServiceA.logger := demoLogger;
     ServiceA.tracer := "service-a" |}.

Definition demoGlobals (weatherAPIKey : string) (devMode : bool)
  : Standalone.Globals :=
  {| Standalone.conf :=
       {| config.Port := "8080"; config.WeatherAPIKey := weatherAPIKey;
          config.DevMode := devMode; config.LogJSON := false;
          config.LogLevel := "INFO" |};
     Standalone.logger :=
       {| logging.level := logging.INFO; logging.enableJSON := false |} |}.

(** The two external APIs of the scenario, under the key [secret]. *)
Definition demoUpstream : Upstream :=
  routes
    [(http.reqURL (viaCEPRequest "29902555"), reply 200 viaCEPBody);
     (http.reqURL (viaCEPRequest "99999999"), reply 200 viaCEPNotFoundBody);
     (http.reqURL (weatherAPIRequest "secret" "Vitória"), reply 200 weatherBody)].

(** The Resolver as the Gateway sees it, answering [code] and [text]. *)
Definition resolverAnswers (code : Z) (text : string) : Upstream :=
  routes [("http://service-b:8081/weather", reply code text)].

(** A colder day: the weather API answers 0.2 °C and 32.36 °F. *)
Definition coldWeatherBody : string :=
  "{" ++ strconv.Quote "current" ++ ":{" ++ strconv.Quote "temp_c" ++ ":0.2,"
      ++ strconv.Quote "temp_f" ++ ":32.36}}".

Definition coldWeatherDecoder : json.Decodable shared.WeatherAPIResponse.t :=
  tableDecoder
    [(coldWeatherBody,
      {| shared.WeatherAPIResponse.Location :=
           {| shared.WeatherAPIResponse.Name := "";
              shared.WeatherAPIResponse.Country := "" |};
         shared.WeatherAPIResponse.Current :=
           {| shared.WeatherAPIResponse.TempC := 0.2%float;
              shared.WeatherAPIResponse.TempF := 32.36%float |} |})].

Definition coldUpstream : Upstream :=
  routes
    [(http.reqURL (viaCEPRequest "29902555"), reply 200 viaCEPBody);
     (http.reqURL (weatherAPIRequest "secret" "Vitória"), reply 200 coldWeatherBody)].

(** A request of another method, a body that is not JSON, and a path
    without the prefix. *)
Definition deleteCEP (cep : string) : http.Request :=
  {| http.Method := "DELETE"; http.Path := "/cep";
     http.RemoteAddr := "10.0.0.1:4000";
     http.Body := {| json.bytes := cepBody cep; json.readErr := None |} |}.

Definition postText (text : string) : http.Request :=
  {| http.Method := "POST"; http.Path := "/cep";
     http.RemoteAddr := "10.0.0.1:4000";
     http.Body := {| json.bytes := text; json.readErr := None |} |}.


Definition getPath (path : string) : http.Request :=
  {| http.Method := "GET"; http.Path := path;
     http.RemoteAddr := "10.0.0.1:4000";
     http.Body := {| json.bytes := ""; json.readErr := None |} |}.

(** A network on which no host answers. *)
Definition unreachable : Upstream := routes [].

(** * Properties *)

(** ** The postal-code validator *)

Section Validator.

Import regexp.

Lemma matchAt_repeat_class_S lo hi n pos s k :
  matchAt (OpRepeat (OpCharClass lo hi) (S n)) pos s k
  = match s with
    | c :: s' => inRange lo hi c && matchAt (OpRepeat (OpCharClass lo hi) n) (S pos) s' k
    | [] => false
    end.
Proof. destruct s; reflexivity. Qed.

Lemma matchAt_concat r1 r2 pos s k :
  matchAt (OpConcat r1 r2) pos s k
  = matchAt r1 pos s (fun pos' s' => matchAt r2 pos' s' k).
Proof. reflexivity. Qed.

(** A counted class consumes exactly [n] bytes of the class. *)
Lemma matchAt_repeat_class lo hi n : forall pos s k,
  matchAt (OpRepeat (OpCharClass lo hi) n) pos s k
  = (n <=? length s)%nat
    && forallb (inRange lo hi) (firstn n s)
    && k (pos + n)%nat (skipn n s).
Proof.
  induction n as [|n IH]; intros pos s k.
  - cbn. now rewrite Nat.add_0_r.
  - rewrite matchAt_repeat_class_S. destruct s as [|c s].
    + reflexivity.
    + rewrite IH. cbn [length firstn skipn forallb].
      replace (S pos + n)%nat with (pos + S n)%nat by lia.
      change (S n <=? S (length s))%nat with (n <=? length s)%nat.
      destruct (inRange lo hi c), (n <=? length s)%nat; reflexivity.
Qed.

Lemma Compile_zipcode : Compile "^\d{8}$" = Ok zipcodeRegexp.
Proof. reflexivity. Qed.

(** The leading [^] lets the search succeed at offset 0 only. *)
Lemma Match_begin_text re s :
  Match (OpConcat OpBeginText re) s = matchAt re 0 s (fun _ _ => true).
Proof.
  unfold Match. cbn [seq existsb skipn matchAt Nat.eqb andb].
  match goal with |- (_ || ?b)%bool = _ => assert (E : b = false) end.
  { apply not_true_is_false. intros E. apply existsb_exists in E.
    destruct E as [i [Hi E]]. apply in_seq in Hi.
    destruct i as [|i]; [lia | discriminate E]. }
  rewrite E. apply orb_false_r.
Qed.

Lemma Match_zipcode s :
  Match zipcodeRegexp s
  = (length s =? 8)%nat && forallb isDigit s.
Proof.
  unfold zipcodeRegexp. rewrite Match_begin_text.
  rewrite matchAt_concat, matchAt_repeat_class.
  destruct (Nat.leb_spec 8 (length s)) as [Hle|Hlt].
  - destruct (Nat.eqb_spec (length s) 8) as [Heq|Hne].
    + rewrite firstn_all2 by lia. rewrite skipn_all2 by lia.
      unfold isDigit. cbn. now rewrite andb_true_r.
    + destruct (skipn 8 s) eqn:Hs.
      * apply (f_equal (@length ascii)) in Hs. rewrite length_skipn in Hs.
        cbn in Hs. lia.
      * cbn. now rewrite andb_false_r.
  - destruct (Nat.eqb_spec (length s) 8) as [Heq|Hne]; [lia | reflexivity].
Qed.

End Validator.

Section ValidatorClaims.

Lemma isDigit_spec c : regexp.isDigit c = true <-> In c asciiDigits.
Proof.
  destruct c as [[] [] [] [] [] [] [] []]; vm_compute;
    (split; [intros E; first [discriminate E | tauto]
            | intros E; first [reflexivity
                              | repeat (destruct E as [E|E]; [discriminate E|]);
                                destruct E]]).
Qed.

Lemma length_list_ascii_of_string s :
  length (list_ascii_of_string s) = String.length s.
Proof. induction s as [|c s IH]; cbn; congruence. Qed.

Lemma MatchString_zipcode s :
  fst (regexp.MatchString "^\d{8}$" s) = true <-> EightDigits s.
Proof.
  unfold regexp.MatchString. rewrite Compile_zipcode. cbn [fst].
  rewrite Match_zipcode, andb_true_iff, Nat.eqb_eq, forallb_forall.
  unfold EightDigits. rewrite length_list_ascii_of_string, Forall_forall.
  split; intros [Hl Hd]; split; auto; intros c Hc; apply isDigit_spec; auto.
Qed.

(** C2.  Each of the three validators ([ServiceA.isValidZipcode],
    [ServiceB.isValidZipcode] and the standalone [isValidZipcode]) returns
    true exactly on the strings of eight ASCII decimal digits, so a string
    of another length or with another byte yields false; the Gateway's
    and the Resolver's validators agree on every string. *)
Theorem isValidZipcode_iff_eight_digits (zipcode : string) :
  (ServiceA.isValidZipcode zipcode = true <-> EightDigits zipcode)
  /\ (ServiceB.isValidZipcode zipcode = true <-> EightDigits zipcode)
  /\ (Standalone.isValidZipcode zipcode = true <-> EightDigits zipcode)
  /\ ServiceA.isValidZipcode zipcode = ServiceB.isValidZipcode zipcode.
Proof.
  assert (E : forall f : string -> bool,
             (forall s, f s = fst (regexp.MatchString "^\d{8}$" s)) ->
             f zipcode = true <-> EightDigits zipcode).
  { intros f Hf. rewrite Hf. apply MatchString_zipcode. }
  split; [|split; [|split]]; try reflexivity;
    apply E; intros s;
    unfold ServiceA.isValidZipcode, ServiceB.isValidZipcode,
      Standalone.isValidZipcode;
    now destruct (regexp.MatchString "^\d{8}$" s).
Qed.

Example isValidZipcode_examples :
  map ServiceB.isValidZipcode
      ["29902555"; "12345"; "abc12345"; ""; "29902-555"; "12345678";
       "1234567"; "123456789"; "1234567a"]
  = [true; false; false; false; false; true; false; false; false].
Proof. reflexivity. Qed.

End ValidatorClaims.

(** ** Boolean configuration variables *)

Section ConfigClaims.

Lemma getEnvAsBool_unset_or_unparsable env key defaultValue :
  UnsetOrUnparsable env key ->
  config.getEnvAsBool env key defaultValue = defaultValue.
Proof.
  unfold config.getEnvAsBool, os.Getenv.
  intros [Hunset | (v & e & Hset & Hparse)].
  - rewrite Hunset. reflexivity.
  - rewrite Hset, Hparse. now destruct (String.eqb v "").
Qed.

Lemma getEnvBool_unset_or_unparsable env key defaultValue :
  UnsetOrUnparsable env key ->
  shared.getEnvBool env key defaultValue = defaultValue.
Proof.
  unfold shared.getEnvBool, os.Getenv.
  intros [Hunset | (v & e & Hset & Hparse)].
  - rewrite Hunset. reflexivity.
  - rewrite Hset, Hparse. now destruct (negb (String.eqb v "")).
Qed.

(** C10.  For a boolean variable that is unset or whose value does not
    parse as a boolean, both loaders ([getEnvAsBool] of [config] and
    [getEnvBool] of [shared]) return the default they were given; so an
    unparsable [DEV_MODE] leaves development mode off, and an unparsable
    [LOG_JSON] leaves JSON logging off in both configurations. *)
Theorem boolean_variable_falls_back_to_default (env : os.Environ) :
  (forall key defaultValue,
      UnsetOrUnparsable env key ->
      config.getEnvAsBool env key defaultValue = defaultValue
      /\ shared.getEnvBool env key defaultValue = defaultValue)
  /\ (UnsetOrUnparsable env "DEV_MODE" ->
      config.DevMode (config.GetConfig env) = false)
  /\ (UnsetOrUnparsable env "LOG_JSON" ->
      config.LogJSON (config.GetConfig env) = false
      /\ shared.LogJSON (shared.GetConfig env) = false).
Proof.
  split; [|split].
  - intros key d Hk. split.
    + now apply getEnvAsBool_unset_or_unparsable.
    + now apply getEnvBool_unset_or_unparsable.
  - intros Hk. cbn. now apply getEnvAsBool_unset_or_unparsable.
  - intros Hk. cbn. split.
    + now apply getEnvAsBool_unset_or_unparsable.
    + now apply getEnvBool_unset_or_unparsable.
Qed.

(** [DEV_MODE=enabled] is not a boolean: development mode stays off. *)
Lemma boolean_variable_falls_back_to_default_witness :
  UnsetOrUnparsable (environ [("DEV_MODE", "enabled")]) "DEV_MODE"
  /\ config.DevMode (config.GetConfig (environ [("DEV_MODE", "enabled")])) = false.
Proof.
  assert (U : UnsetOrUnparsable (environ [("DEV_MODE", "enabled")]) "DEV_MODE").
  { right. eexists. eexists. split; reflexivity. }
  split.
  - exact U.
  - exact (proj1 (proj2 (boolean_variable_falls_back_to_default
                           (environ [("DEV_MODE", "enabled")]))) U).
Defined.

Example getEnvAsBool_parses :
  map (fun v => config.getEnvAsBool (environ [("DEV_MODE", v)]) "DEV_MODE" false)
      ["1"; "true"; "TRUE"; "T"; "0"; "false"; "yes"; "on"; ""; "tRuE"]
  = [true; true; true; true; false; false; false; false; false; false].
Proof. reflexivity. Qed.

End ConfigClaims.

(** ** Running the handlers *)

Unset Implicit Arguments.

Section Runs.

Lemma bind_run {A B : Type} (m : M A) (k : A -> M B) w a w' :
  m w = (a, w') -> bind m k w = k a w'.
Proof. unfold bind. now intros ->. Qed.

Lemma bind_assoc_run {A B C : Type} (m : M A) (f : A -> M B) (g : B -> M C) w :
  bind (bind m f) g w = bind m (fun a => bind (f a) g) w.
Proof. unfold bind. now destruct (m w). Qed.

Lemma ret_run {A : Type} (a : A) w : ret a w = (a, w).
Proof. reflexivity. Qed.

Lemma emit_run l w : emit l w = (tt, alsoLogged [l] w).
Proof. reflexivity. Qed.

Lemma trace_run t w : trace t w = (tt, alsoTraced [t] w).
Proof. reflexivity. Qed.

Lemma time_Now_run w : time_Now w = (clock w, w).
Proof. reflexivity. Qed.

Lemma client_Do_run req w : client_Do req w = (upstream w req, sent req w).
Proof. reflexivity. Qed.

Lemma alsoLogged_nil w : alsoLogged [] w = w.
Proof. destruct w. unfold alsoLogged. cbn. now rewrite app_nil_r. Qed.

(** A logger call returns nothing and only adds to the log: one line
    when the level passes, none otherwise. *)
Lemma shared_Debug_run l message fields w :
  shared.Debug l message fields w
  = (tt, alsoLogged (lineIf (shared.level l <=? shared.DEBUG)%Z
                             (Line (shared.json l) (clock w) "DEBUG" message fields))
                     w).
Proof.
  unfold shared.Debug. destruct (shared.level l <=? shared.DEBUG)%Z.
  - reflexivity.
  - now rewrite alsoLogged_nil.
Qed.

Lemma shared_Info_run l message fields w :
  shared.Info l message fields w
  = (tt, alsoLogged (lineIf (shared.level l <=? shared.INFO)%Z
                             (Line (shared.json l) (clock w) "INFO" message fields))
                     w).
Proof.
  unfold shared.Info. destruct (shared.level l <=? shared.INFO)%Z.
  - reflexivity.
  - now rewrite alsoLogged_nil.
Qed.

Lemma shared_Warn_run l message fields w :
  shared.Warn l message fields w
  = (tt, alsoLogged (lineIf (shared.level l <=? shared.WARN)%Z
                             (Line (shared.json l) (clock w) "WARN" message fields))
                     w).
Proof.
  unfold shared.Warn. destruct (shared.level l <=? shared.WARN)%Z.
  - reflexivity.
  - now rewrite alsoLogged_nil.
Qed.

Lemma shared_Error_run l message fields w :
  shared.Error l message fields w
  = (tt, alsoLogged (lineIf (shared.level l <=? shared.ERROR)%Z
                             (Line (shared.json l) (clock w) "ERROR" message fields))
                     w).
Proof.
  unfold shared.Error. destruct (shared.level l <=? shared.ERROR)%Z.
  - reflexivity.
  - now rewrite alsoLogged_nil.
Qed.

Lemma logging_log_run l lv message fields w :
  logging.log l lv message fields w
  = (tt, alsoLogged (lineIf (negb (lv <? logging.level l)%Z)
                             (Line (logging.enableJSON l) (clock w)
                                   (logging.LevelString lv) message fields))
                     w).
Proof.
  unfold logging.log. destruct (lv <? logging.level l)%Z.
  - now rewrite alsoLogged_nil.
  - reflexivity.
Qed.


Lemma Encode_fresh {A : Type} {encoder : json.Encodable A} (v : A) :
  http.Encode
    (http.HeaderSet http.NewRecorder "Content-Type" "application/json") v
  = okDocument (json.Marshal v).
Proof. reflexivity. Qed.

(** Two texts that differ in their first byte are different, whatever
    follows the first. *)
Lemma eqb_first_byte c1 p x c2 q :
  c1 <> c2 ->
  String.eqb (String.String c1 p ++ x) (String.String c2 q) = false.
Proof.
  intros Hne. change (String.String c1 p ++ x) with (String.String c1 (p ++ x)).
  cbn [String.eqb]. apply Ascii.eqb_neq in Hne. now rewrite Hne.
Qed.

End Runs.

Create HintDb runs discriminated.

#[export] Hint Resolve ret_run emit_run trace_run time_Now_run client_Do_run
  shared_Debug_run shared_Info_run shared_Warn_run shared_Error_run
  logging_log_run : runs.

(** One step of a sequence: the first computation is run by a lemma of the
    [runs] database or by a hypothesis, and its continuation takes over. *)
Ltac step :=
  first
    [ rewrite bind_assoc_run
    | rewrite ret_run
    | erewrite bind_run;
      [ | first [ eassumption | solve [ eauto 2 with runs ] ] ];
      cbv beta ].

(** The world a step leaves behind, seen through its fields. *)
Ltac through :=
  cbn [upstream outbound clock logged traced alsoLogged alsoTraced sent
       fst snd negb] in *.

(** Resolves a test or a call whose outcome a hypothesis gives. *)
Ltac resolve :=
  match goal with
  | E : ?f ?x = _ |- context [?f ?x] => rewrite E; cbv beta iota
  end.

Ltac run := repeat first [ step | progress through | resolve ].

(** Turns the facts about statuses and strings into the tests the code
    makes. *)
Ltac as_tests :=
  repeat match goal with
    | E : ?a <> ?b :> Z |- _ => apply Z.eqb_neq in E
    | E : ?a = ?b :> Z |- _ => apply Z.eqb_eq in E
    | E : ?a <> ?b :> string |- _ => apply String.eqb_neq in E
    end.

(** All the paths: run as far as the hypotheses reach, then split on the
    next test. *)
Ltac paths :=
  repeat (run;
          match goal with
          | |- context [match ?x with _ => _ end] => destruct x eqn:?
          end);
  run.

(** Opens a request that carries a postal code, as tests on the request. *)
Ltac open_request Hcarries request :=
  let Hm := fresh "Hmethod" in
  let Hr := fresh "Hread" in
  let Hu := fresh "Hdecoded" in
  let Hc := fresh "Hcep" in
  destruct Hcarries as (Hm & Hr & request & Hu & Hc);
  apply String.eqb_eq in Hm; subst.

(** Runs the call at the head of the sequence, whatever it returns. *)
Ltac call :=
  match goal with
  | |- context [bind ?m ?k ?W] =>
      let a := fresh "res" in
      let w' := fresh "w" in
      let E := fresh "Ecall" in
      destruct (m W) as [a w'] eqn:E
  end.

(** Runs one side of an equation between two runs, then the other. *)
Ltac run_sides :=
  match goal with
  | |- ?L = ?R =>
      let x := fresh "other" in
      let E := fresh "Eother" in
      remember R as x eqn:E; run; subst x
  end;
  match goal with
  | |- ?L = ?R =>
      let x := fresh "other" in
      let E := fresh "Eother" in
      remember L as x eqn:E; run; subst x
  end.

(** Runs the same call on both sides of an equation between two runs whose
    worlds answer alike. *)
Ltac both_call f frame steady :=
  match goal with
  | |- fst ?L = fst ?R =>
      match L with
      | context [bind (f ?s ?c) _ ?W2] =>
          match R with
          | context [bind (f s c) _ ?W1] =>
              let Hs := fresh "Hsame" in
              let F1 := fresh "Hframe" in
              let F2 := fresh "Hframe" in
              assert (Hs : fst (f s c W2) = fst (f s c W1))
                by (apply steady; through; congruence);
              pose proof (frame s c W1) as F1;
              pose proof (frame s c W2) as F2;
              destruct (f s c W1) eqn:?;
              destruct (f s c W2) eqn:?;
              through; subst
          end
      end
  end.

(** All the paths of two runs side by side. *)
Ltac paths_sides :=
  repeat (run_sides;
          match goal with
          | |- context [match ?x with _ => _ end] => destruct x eqn:?
          end);
  run_sides.

(** Turns the tests the code has made into facts. *)
Ltac as_facts :=
  repeat match goal with
    | E : (_ =? _)%Z = true |- _ => rewrite Z.eqb_eq in E
    | E : (_ =? _)%Z = false |- _ => rewrite Z.eqb_neq in E
    end.

Ltac unfold_tracer :=
  unfold shared.withSpan, shared.CreateSpan, shared.AddEvent, shared.End.

Ltac unfold_logging :=
  unfold logging.Debug, logging.Info, logging.Warn, logging.Error.

Section ResolverRuns.
Context {parser : url.Parser}.
Context {zipcodes : json.Decodable shared.ZipcodeRequest.t}.
Context {locations : json.Decodable shared.ViaCEPResponse.t}.
Context {samples : json.Decodable shared.WeatherAPIResponse.t}.

(** The geocoding call, in each way it fails, returns an error after one
    request to the geocoding API. *)
Lemma ServiceB_getLocationFromCEP_fails s cep w :
  GeocodingFails shared.ViaCEPResponse.Erro shared.ViaCEPResponse.Localidade
                 (upstream w) cep ->
  exists err w',
    ServiceB.getLocationFromCEP s cep w = (Err err, w')
    /\ upstream w' = upstream w
    /\ outbound w' = (outbound w ++ [viaCEPRequest cep])%list.
Proof.
  intros Hfail.
  unfold ServiceB.getLocationFromCEP, http.NewRequestWithContext.
  unfold_tracer.
  destruct Hfail as [err Hs Hup | resp Hs Hup Hst | resp err Hs Hup Hst Hd
                    | resp found Hs Hup Hst Hd Hnf];
    unfold Sendable, viaCEPRequest in *; cbn [http.reqURL] in Hs; as_tests.
  - eexists; eexists; split; [run; reflexivity | through; auto].
  - eexists; eexists; split; [run; reflexivity | through; auto].
  - eexists; eexists; split; [run; reflexivity | through; auto].
  - assert (Hnf' : (shared.ViaCEPResponse.Erro found
                    || String.eqb (shared.ViaCEPResponse.Localidade found) "")%bool
                   = true).
    { destruct Hnf as [E|E]; rewrite E; [reflexivity|].
      apply orb_true_r. }
    eexists; eexists; split; [run; reflexivity | through; auto].
Qed.

Lemma ServiceB_getLocationFromCEP_finds s cep w found :
  GeocodingFinds shared.ViaCEPResponse.Erro shared.ViaCEPResponse.Localidade
                 (upstream w) cep found ->
  exists w',
    ServiceB.getLocationFromCEP s cep w = (Ok found, w')
    /\ upstream w' = upstream w
    /\ outbound w' = (outbound w ++ [viaCEPRequest cep])%list.
Proof.
  intros (Hs & resp & Hup & Hst & Hd & He & Hl).
  unfold ServiceB.getLocationFromCEP, http.NewRequestWithContext.
  unfold_tracer.
  unfold Sendable, viaCEPRequest in *; cbn [http.reqURL] in Hs; as_tests.
  eexists; split; [run; cbn [orb]; run; reflexivity | through; auto].
Qed.

Lemma ServiceB_getLocationFromCEP_frame s cep w :
  upstream (snd (ServiceB.getLocationFromCEP s cep w)) = upstream w.
Proof.
  unfold ServiceB.getLocationFromCEP, http.NewRequestWithContext.
  unfold_tracer. paths; reflexivity.
Qed.

Lemma ServiceB_getLocationFromCEP_steady s cep w1 w2 :
  upstream w2 = upstream w1 ->
  fst (ServiceB.getLocationFromCEP s cep w2)
  = fst (ServiceB.getLocationFromCEP s cep w1).
Proof.
  intros Hu.
  unfold ServiceB.getLocationFromCEP, http.NewRequestWithContext.
  unfold_tracer. paths_sides; reflexivity.
Qed.

(** Without a key the weather call returns its error and nothing goes
    out. *)
Lemma ServiceB_getWeatherFromLocation_no_key s city w :
  shared.WeatherAPIKey (ServiceB.config s) = "" ->
  exists w',
    ServiceB.getWeatherFromLocation s city w
    = (Err "WEATHER_API_KEY environment variable not set", w')
    /\ upstream w' = upstream w
    /\ outbound w' = outbound w.
Proof.
  intros Hkey.
  unfold ServiceB.getWeatherFromLocation. unfold_tracer.
  eexists; split; [run; cbn [String.eqb]; run; reflexivity | through; auto].
Qed.

Lemma ServiceB_getWeatherFromLocation_finds s city w sample :
  WeatherFinds (upstream w) (shared.WeatherAPIKey (ServiceB.config s)) city
               sample ->
  exists w',
    ServiceB.getWeatherFromLocation s city w = (Ok sample, w')
    /\ upstream w' = upstream w.
Proof.
  intros (Hkey & Hs & resp & Hup & Hst & Hd).
  unfold ServiceB.getWeatherFromLocation, http.NewRequestWithContext.
  unfold_tracer.
  unfold Sendable, weatherAPIRequest in *; cbn [http.reqURL] in Hs; as_tests.
  eexists; split; [run; reflexivity | through; auto].
Qed.

Lemma ServiceB_getWeatherFromLocation_fails s city w :
  WeatherFails (Sample := shared.WeatherAPIResponse.t)
               (upstream w) (shared.WeatherAPIKey (ServiceB.config s)) city ->
  exists err w',
    ServiceB.getWeatherFromLocation s city w = (Err err, w')
    /\ upstream w' = upstream w.
Proof.
  intros Hfail.
  unfold ServiceB.getWeatherFromLocation, http.NewRequestWithContext,
    io_ReadAll.
  unfold_tracer.
  destruct (String.eqb (shared.WeatherAPIKey (ServiceB.config s)) "") eqn:Hkey;
    [eexists; eexists; split; [run; reflexivity | through; auto]|].
  destruct Hfail as [err Hs | err Hs Hup | resp Hs Hup Hst | resp err Hs Hup Hst Hd];
    unfold Sendable, weatherAPIRequest in *; cbn [http.reqURL] in Hs; as_tests;
    eexists; eexists; (split; [run; reflexivity | through; auto]).
Qed.

Lemma ServiceB_getWeatherFromLocation_frame s city w :
  upstream (snd (ServiceB.getWeatherFromLocation s city w)) = upstream w.
Proof.
  unfold ServiceB.getWeatherFromLocation, http.NewRequestWithContext,
    io_ReadAll.
  unfold_tracer. paths; reflexivity.
Qed.

Lemma ServiceB_getWeatherFromLocation_steady s city w1 w2 :
  upstream w2 = upstream w1 ->
  fst (ServiceB.getWeatherFromLocation s city w2)
  = fst (ServiceB.getWeatherFromLocation s city w1).
Proof.
  intros Hu.
  unfold ServiceB.getWeatherFromLocation, http.NewRequestWithContext,
    io_ReadAll.
  unfold_tracer. paths_sides; reflexivity.
Qed.

(** *** The handler, path by path *)

Lemma ServiceB_handle_invalid s r world cep :
  CarriesCEP r cep ->
  ServiceB.isValidZipcode cep = false ->
  fst (ServiceB.handleWeatherRequest s http.NewRecorder r world)
  = errorEnvelope http.StatusUnprocessableEntity "invalid zipcode"
  /\ outbound (snd (ServiceB.handleWeatherRequest s http.NewRecorder r world))
     = outbound world.
Proof.
  intros Hcarries Hv. open_request Hcarries request.
  unfold ServiceB.handleWeatherRequest, io_ReadAll. unfold_tracer.
  run. split; reflexivity.
Qed.

Lemma ServiceB_handle_geocoding_fails s r world cep :
  CarriesCEP r cep ->
  ServiceB.isValidZipcode cep = true ->
  GeocodingFails shared.ViaCEPResponse.Erro shared.ViaCEPResponse.Localidade
                 (upstream world) cep ->
  fst (ServiceB.handleWeatherRequest s http.NewRecorder r world)
  = errorEnvelope http.StatusNotFound "can not find zipcode".
Proof.
  intros Hcarries Hv Hfail. open_request Hcarries request.
  unfold ServiceB.handleWeatherRequest, io_ReadAll. unfold_tracer.
  run.
  match goal with
  | |- context [bind (ServiceB.getLocationFromCEP s ?c) _ ?W] =>
      destruct (ServiceB_getLocationFromCEP_fails s c W Hfail)
        as (err & w' & E & Hup' & Hout')
  end.
  run. reflexivity.
Qed.

Lemma ServiceB_handle_no_key s r world cep found :
  CarriesCEP r cep ->
  ServiceB.isValidZipcode cep = true ->
  GeocodingFinds shared.ViaCEPResponse.Erro shared.ViaCEPResponse.Localidade
                 (upstream world) cep found ->
  shared.WeatherAPIKey (ServiceB.config s) = "" ->
  fst (ServiceB.handleWeatherRequest s http.NewRecorder r world)
  = errorEnvelope http.StatusInternalServerError
                  "error getting weather information"
  /\ outbound (snd (ServiceB.handleWeatherRequest s http.NewRecorder r world))
     = (outbound world ++ [viaCEPRequest cep])%list.
Proof.
  intros Hcarries Hv Hfinds Hkey. open_request Hcarries request.
  unfold ServiceB.handleWeatherRequest, io_ReadAll. unfold_tracer.
  run.
  match goal with
  | |- context [bind (ServiceB.getLocationFromCEP s ?c) _ ?W] =>
      destruct (ServiceB_getLocationFromCEP_finds s c W _ Hfinds)
        as (w' & E & Hup' & Hout')
  end.
  run.
  match goal with
  | |- context [bind (ServiceB.getWeatherFromLocation s ?c) _ ?W] =>
      destruct (ServiceB_getWeatherFromLocation_no_key s c W Hkey)
        as (w'' & E' & Hup'' & Hout'')
  end.
  run. split; reflexivity.
Qed.

Lemma ServiceB_handle_weather_fails s r world cep found :
  CarriesCEP r cep ->
  ServiceB.isValidZipcode cep = true ->
  GeocodingFinds shared.ViaCEPResponse.Erro shared.ViaCEPResponse.Localidade
                 (upstream world) cep found ->
  WeatherFails (Sample := shared.WeatherAPIResponse.t) (upstream world)
               (shared.WeatherAPIKey (ServiceB.config s))
               (shared.ViaCEPResponse.Localidade found) ->
  fst (ServiceB.handleWeatherRequest s http.NewRecorder r world)
  = errorEnvelope http.StatusInternalServerError
                  "error getting weather information".
Proof.
  intros Hcarries Hv Hfinds Hfails. open_request Hcarries request.
  unfold ServiceB.handleWeatherRequest, io_ReadAll. unfold_tracer.
  run.
  match goal with
  | |- context [bind (ServiceB.getLocationFromCEP s ?c) _ ?W] =>
      destruct (ServiceB_getLocationFromCEP_finds s c W _ Hfinds)
        as (w' & E & Hup' & Hout')
  end.
  run.
  match goal with
  | |- context [bind (ServiceB.getWeatherFromLocation s ?c) _ ?W] =>
      destruct (ServiceB_getWeatherFromLocation_fails s c W)
        as (err & w'' & E' & Hup''); [through; rewrite Hup'; exact Hfails|]
  end.
  run. reflexivity.
Qed.

Lemma ServiceB_handle_success s r world cep found sample :
  CarriesCEP r cep ->
  ServiceB.isValidZipcode cep = true ->
  GeocodingFinds shared.ViaCEPResponse.Erro shared.ViaCEPResponse.Localidade
                 (upstream world) cep found ->
  WeatherFinds (upstream world) (shared.WeatherAPIKey (ServiceB.config s))
               (shared.ViaCEPResponse.Localidade found) sample ->
  fst (ServiceB.handleWeatherRequest s http.NewRecorder r world)
  = okDocument
      (json.Marshal
         {| shared.WeatherResponse.City := shared.ViaCEPResponse.Localidade found;
            shared.WeatherResponse.TempC :=
              shared.WeatherAPIResponse.TempC (shared.WeatherAPIResponse.Current sample);
            shared.WeatherResponse.TempF :=
              shared.WeatherAPIResponse.TempF (shared.WeatherAPIResponse.Current sample);
            shared.WeatherResponse.TempK :=
              (shared.WeatherAPIResponse.TempC (shared.WeatherAPIResponse.Current sample)
               + 273.15)%float |}).
Proof.
  intros Hcarries Hv Hfinds Hw. open_request Hcarries request.
  unfold ServiceB.handleWeatherRequest, io_ReadAll. unfold_tracer.
  run.
  match goal with
  | |- context [bind (ServiceB.getLocationFromCEP s ?c) _ ?W] =>
      destruct (ServiceB_getLocationFromCEP_finds s c W _ Hfinds)
        as (w' & E & Hup' & Hout')
  end.
  run.
  match goal with
  | |- context [bind (ServiceB.getWeatherFromLocation s ?c) _ ?W] =>
      destruct (ServiceB_getWeatherFromLocation_finds s c W sample)
        as (w'' & E' & Hup''); [through; rewrite Hup'; exact Hw|]
  end.
  run. reflexivity.
Qed.

Lemma ServiceB_handle_frame s w0 r world :
  upstream (snd (ServiceB.handleWeatherRequest s w0 r world)) = upstream world.
Proof.
  unfold ServiceB.handleWeatherRequest, io_ReadAll. unfold_tracer.
  repeat (run; first [ match goal with
                       | |- context [match ?x with _ => _ end] => destruct x eqn:?
                       end
                     | match goal with
                       | |- context [bind (ServiceB.getLocationFromCEP s ?c) _ ?W] =>
                           let E := fresh "Eloc" in
                           pose proof (ServiceB_getLocationFromCEP_frame s c W) as E;
                           destruct (ServiceB.getLocationFromCEP s c W) eqn:?; through
                       | |- context [bind (ServiceB.getWeatherFromLocation s ?c) _ ?W] =>
                           let E := fresh "Ewea" in
                           pose proof (ServiceB_getWeatherFromLocation_frame s c W) as E;
                           destruct (ServiceB.getWeatherFromLocation s c W) eqn:?; through
                       end ]).
  all: run; try reflexivity; try congruence.
Qed.
Lemma ServiceB_handle_steady s w0 r w1 w2 :
  upstream w2 = upstream w1 ->
  fst (ServiceB.handleWeatherRequest s w0 r w2)
  = fst (ServiceB.handleWeatherRequest s w0 r w1).
Proof.
  intros Hu.
  unfold ServiceB.handleWeatherRequest, io_ReadAll. unfold_tracer.
  repeat (run_sides; first [ match goal with
                       | |- context [match ?x with _ => _ end] => destruct x eqn:?
                       end
                     | both_call ServiceB.getLocationFromCEP
                                 ServiceB_getLocationFromCEP_frame
                                 ServiceB_getLocationFromCEP_steady
                     | both_call ServiceB.getWeatherFromLocation
                                 ServiceB_getWeatherFromLocation_frame
                                 ServiceB_getWeatherFromLocation_steady ]).
  all: run_sides; reflexivity.
Qed.
End ResolverRuns.

Section GatewayRuns.
Context {parser : url.Parser}.
Context {zipcodes : json.Decodable shared.ZipcodeRequest.t}.
Context {reports : json.Decodable shared.WeatherResponse.t}.

(** What [callServiceB] makes of a response it has read in full. *)
Lemma ServiceA_callServiceB_received s cep w resp :
  Sendable (serviceBRequest (shared.ServiceBURL (ServiceA.config s)) cep) ->
  upstream w (serviceBRequest (shared.ServiceBURL (ServiceA.config s)) cep)
  = Ok resp ->
  json.readErr (http.RespBody resp) = None ->
  exists res w',
    ServiceA.callServiceB s cep w = (res, w')
    /\ (http.StatusCode resp = http.StatusNotFound ->
        res = Err "can not find zipcode")
    /\ (http.StatusCode resp = http.StatusUnprocessableEntity ->
        res = Err "invalid zipcode")
    /\ (http.StatusCode resp <> http.StatusNotFound ->
        http.StatusCode resp <> http.StatusUnprocessableEntity ->
        http.StatusCode resp <> http.StatusOK ->
        res = Err ("service B returned status "
                   ++ strconv.Itoa (http.StatusCode resp) ++ ": "
                   ++ json.bytes (http.RespBody resp)))
    /\ (http.StatusCode resp = http.StatusOK ->
        forall report,
          json.Unmarshal (json.bytes (http.RespBody resp)) = Ok report ->
          res = Ok report)
    /\ (http.StatusCode resp = http.StatusOK ->
        forall err,
          json.Unmarshal (json.bytes (http.RespBody resp)) = Err err ->
          res = Err ("failed to unmarshal response: " ++ err)).
Proof.
  intros Hs Hup Hread.
  unfold ServiceA.callServiceB, http.NewRequestWithContext, io_ReadAll.
  unfold_tracer.
  unfold Sendable in Hs; cbn [http.reqURL serviceBRequest] in Hs.
  destruct (http.StatusCode resp =? http.StatusNotFound)%Z eqn:E404;
    [|destruct (http.StatusCode resp =? http.StatusUnprocessableEntity)%Z eqn:E422;
      [|destruct (http.StatusCode resp =? http.StatusOK)%Z eqn:E200;
        [destruct (json.Unmarshal (json.bytes (http.RespBody resp))) eqn:Edec|]]];
    eexists; eexists;
    (split;
     [ run;
       match goal with
       | |- context [upstream w ?req] =>
           change (upstream w req)
             with (upstream w (serviceBRequest
                                 (shared.ServiceBURL (ServiceA.config s)) cep))
       end;
       run; reflexivity |]);
    as_facts;
    repeat split; intros; try congruence;
    try (exfalso; unfold http.StatusNotFound, http.StatusUnprocessableEntity,
           http.StatusOK in *; congruence).
Qed.


Lemma ServiceA_handle_invalid s r world cep :
  CarriesCEP r cep ->
  ServiceA.isValidZipcode cep = false ->
  fst (ServiceA.handleCEPRequest s http.NewRecorder r world)
  = errorEnvelope http.StatusUnprocessableEntity "invalid zipcode"
  /\ outbound (snd (ServiceA.handleCEPRequest s http.NewRecorder r world))
     = outbound world.
Proof.
  intros Hcarries Hv. open_request Hcarries request.
  unfold ServiceA.handleCEPRequest, io_ReadAll. unfold_tracer.
  run. split; reflexivity.
Qed.


End GatewayRuns.

(** ** The log of the standalone variant *)

Section Printed.

Lemma printfs_app l1 l2 : printfs (l1 ++ l2) = (printfs l1 ++ printfs l2)%list.
Proof. unfold printfs. apply flat_map_app. Qed.

Lemma printed_alsoLogged_line pass j t lv msg fields w :
  printed (alsoLogged (lineIf pass (Line j t lv msg fields)) w) = printed w.
Proof.
  unfold printed, alsoLogged. cbn [logged]. rewrite printfs_app.
  destruct pass; cbn; apply app_nil_r.
Qed.

Lemma printed_alsoLogged_printf text w :
  printed (alsoLogged [Printf text] w) = (printed w ++ [text])%list.
Proof. unfold printed, alsoLogged. cbn [logged]. now rewrite printfs_app. Qed.

Lemma printed_alsoTraced ts w : printed (alsoTraced ts w) = printed w.
Proof. reflexivity. Qed.

Lemma printed_sent req w : printed (sent req w) = printed w.
Proof. reflexivity. Qed.

End Printed.

Create Rewrite HintDb worlds.

#[export] Hint Rewrite printed_alsoLogged_line printed_alsoLogged_printf
  printed_alsoTraced printed_sent : worlds.

(** Runs the geocoding call of the standalone handler by a lemma. *)
Ltac locate_with lemma hyp :=
  match goal with
  | |- context [bind (Standalone.getLocationFromCEP ?g ?c) _ ?W] =>
      destruct (lemma g c W _ hyp) as (?w' & ?E & ?Hup' & ?Hout' & ?Hpr')
  end.


Section StandaloneRuns.
Context {parser : url.Parser}.
Context {locations : json.Decodable Standalone.ViaCEPResponse.t}.
Context {samples : json.Decodable Standalone.WeatherAPIResponse.t}.

Lemma Standalone_getLocationFromCEP_fails g cep w :
  GeocodingFails Standalone.ViaCEPResponse.Erro
                 Standalone.ViaCEPResponse.Localidade (upstream w) cep ->
  exists err w',
    Standalone.getLocationFromCEP g cep w = (Err err, w')
    /\ upstream w' = upstream w.
Proof.
  intros Hfail.
  unfold Standalone.getLocationFromCEP, client_Get, http.NewRequestWithContext.
  unfold_logging.
  destruct Hfail as [err Hs Hup | resp Hs Hup Hst | resp err Hs Hup Hst Hd
                    | resp found Hs Hup Hst Hd Hnf];
    unfold Sendable, viaCEPRequest in *; cbn [http.reqURL] in Hs; as_tests.
  - eexists; eexists; split; [run; reflexivity | through; auto].
  - eexists; eexists; split; [run; reflexivity | through; auto].
  - eexists; eexists; split; [run; reflexivity | through; auto].
  - assert (Hnf' : (Standalone.ViaCEPResponse.Erro found
                    || String.eqb (Standalone.ViaCEPResponse.Localidade found) "")%bool
                   = true).
    { destruct Hnf as [E|E]; rewrite E; [reflexivity|].
      apply orb_true_r. }
    eexists; eexists; split; [run; reflexivity | through; auto].
Qed.

Lemma Standalone_getLocationFromCEP_finds g cep w found :
  GeocodingFinds Standalone.ViaCEPResponse.Erro
                 Standalone.ViaCEPResponse.Localidade (upstream w) cep found ->
  exists w',
    Standalone.getLocationFromCEP g cep w = (Ok found, w')
    /\ upstream w' = upstream w
    /\ outbound w' = (outbound w ++ [viaCEPRequest cep])%list
    /\ printed w' = printed w.
Proof.
  intros (Hs & resp & Hup & Hst & Hd & He & Hl).
  unfold Standalone.getLocationFromCEP, client_Get, http.NewRequestWithContext.
  unfold_logging.
  unfold Sendable, viaCEPRequest in *; cbn [http.reqURL] in Hs; as_tests.
  eexists; split; [run; cbn [orb]; run; reflexivity
                  | through; autorewrite with worlds; auto].
Qed.

Lemma Standalone_getLocationFromCEP_frame g cep w :
  upstream (snd (Standalone.getLocationFromCEP g cep w)) = upstream w
  /\ printed (snd (Standalone.getLocationFromCEP g cep w)) = printed w.
Proof.
  unfold Standalone.getLocationFromCEP, client_Get, http.NewRequestWithContext.
  unfold_logging. paths; autorewrite with worlds; auto.
Qed.

Lemma Standalone_getLocationFromCEP_steady g cep w1 w2 :
  upstream w2 = upstream w1 ->
  fst (Standalone.getLocationFromCEP g cep w2)
  = fst (Standalone.getLocationFromCEP g cep w1).
Proof.
  intros Hu.
  unfold Standalone.getLocationFromCEP, client_Get, http.NewRequestWithContext.
  unfold_logging. paths_sides; reflexivity.
Qed.

Lemma Standalone_getWeatherFromLocation_no_key g city w :
  config.WeatherAPIKey (Standalone.conf g) = "" ->
  exists w',
    Standalone.getWeatherFromLocation g city w
    = (Err "WEATHER_API_KEY environment variable not set", w')
    /\ upstream w' = upstream w
    /\ outbound w' = outbound w
    /\ printed w' = printed w.
Proof.
  intros Hkey.
  unfold Standalone.getWeatherFromLocation. unfold_logging.
  eexists; split; [run; cbn [String.eqb]; run; reflexivity
                  | through; autorewrite with worlds; auto].
Qed.

Lemma Standalone_getWeatherFromLocation_finds g city w sample :
  WeatherFinds (upstream w) (config.WeatherAPIKey (Standalone.conf g)) city
               sample ->
  exists w',
    Standalone.getWeatherFromLocation g city w = (Ok sample, w')
    /\ upstream w' = upstream w.
Proof.
  intros (Hkey & Hs & resp & Hup & Hst & Hd).
  unfold Standalone.getWeatherFromLocation, client_Get,
    http.NewRequestWithContext.
  unfold_logging.
  unfold Sendable, weatherAPIRequest in *; cbn [http.reqURL] in Hs; as_tests.
  eexists; split; [run; reflexivity | through; auto].
Qed.

Lemma Standalone_getWeatherFromLocation_fails g city w :
  WeatherFails (Sample := Standalone.WeatherAPIResponse.t)
               (upstream w) (config.WeatherAPIKey (Standalone.conf g)) city ->
  exists err w',
    Standalone.getWeatherFromLocation g city w = (Err err, w')
    /\ upstream w' = upstream w
    /\ printed w' = printed w.
Proof.
  intros Hfail.
  unfold Standalone.getWeatherFromLocation, client_Get,
    http.NewRequestWithContext, io_ReadAll.
  unfold_logging.
  destruct (String.eqb (config.WeatherAPIKey (Standalone.conf g)) "") eqn:Hkey;
    [eexists; eexists; split; [run; reflexivity
                              | through; autorewrite with worlds; auto]|].
  destruct Hfail as [err Hs | err Hs Hup | resp Hs Hup Hst | resp err Hs Hup Hst Hd];
    unfold Sendable, weatherAPIRequest in *; cbn [http.reqURL] in Hs; as_tests;
    eexists; eexists;
    (split; [run; reflexivity | through; autorewrite with worlds; auto]).
Qed.

Lemma Standalone_getWeatherFromLocation_frame g city w :
  upstream (snd (Standalone.getWeatherFromLocation g city w)) = upstream w
  /\ printed (snd (Standalone.getWeatherFromLocation g city w)) = printed w.
Proof.
  unfold Standalone.getWeatherFromLocation, client_Get,
    http.NewRequestWithContext, io_ReadAll.
  unfold_logging. paths; autorewrite with worlds; auto.
Qed.

Lemma Standalone_getWeatherFromLocation_steady g city w1 w2 :
  upstream w2 = upstream w1 ->
  fst (Standalone.getWeatherFromLocation g city w2)
  = fst (Standalone.getWeatherFromLocation g city w1).
Proof.
  intros Hu.
  unfold Standalone.getWeatherFromLocation, client_Get,
    http.NewRequestWithContext, io_ReadAll.
  unfold_logging. paths_sides; reflexivity.
Qed.


Lemma Standalone_sendErrorResponse_fresh message code :
  http.Encode
    (http.WriteHeader
       (http.HeaderSet http.NewRecorder "Content-Type" "application/json") code)
    {| Standalone.ErrorResponse.Message := message |}
  = errorEnvelope code message.
Proof. reflexivity. Qed.

(** *** The handler, path by path *)

Lemma Standalone_handle_no_key g r world zipcode found :
  PathCarries r zipcode ->
  Standalone.isValidZipcode zipcode = true ->
  GeocodingFinds Standalone.ViaCEPResponse.Erro
                 Standalone.ViaCEPResponse.Localidade
                 (upstream world) zipcode found ->
  config.WeatherAPIKey (Standalone.conf g) = "" ->
  let run := Standalone.handleWeatherRequest g http.NewRecorder r world in
  outbound (snd run) = (outbound world ++ [viaCEPRequest zipcode])%list
  /\ (config.DevMode (Standalone.conf g) = false ->
      fst run = Some (errorEnvelope http.StatusInternalServerError
                                    "error getting weather information"))
  /\ (config.DevMode (Standalone.conf g) = true ->
      fst run = Some (okDocument [("temp_C", json.Num 25.0%float);
                                  ("temp_F", json.Num 77.0%float);
                                  ("temp_K", json.Num (25.0 + 273.15)%float)])).
Proof.
  intros Hpath Hv Hfinds Hkey. unfold PathCarries in Hpath.
  unfold Standalone.handleWeatherRequest, Standalone.respond,
    Standalone.getMockWeatherData.
  unfold_logging. cbv zeta. run.
  locate_with Standalone_getLocationFromCEP_finds Hfinds.
  run.
  match goal with
  | |- context [bind (Standalone.getWeatherFromLocation g ?c) _ ?W] =>
      destruct (Standalone_getWeatherFromLocation_no_key g c W Hkey)
        as (w'' & E' & Hup'' & Hout'' & Hpr'')
  end.
  run.
  destruct (config.DevMode (Standalone.conf g)); run;
    (split; [reflexivity|]); split; intros; try discriminate; reflexivity.
Qed.


Lemma Standalone_handle_weather_fails g r world zipcode found :
  PathCarries r zipcode ->
  Standalone.isValidZipcode zipcode = true ->
  GeocodingFinds Standalone.ViaCEPResponse.Erro
                 Standalone.ViaCEPResponse.Localidade
                 (upstream world) zipcode found ->
  config.WeatherAPIKey (Standalone.conf g) = ""
  \/ WeatherFails (Sample := Standalone.WeatherAPIResponse.t) (upstream world)
                  (config.WeatherAPIKey (Standalone.conf g))
                  (Standalone.ViaCEPResponse.Localidade found) ->
  let run := Standalone.handleWeatherRequest g http.NewRecorder r world in
  (config.DevMode (Standalone.conf g) = false ->
   fst run = Some (errorEnvelope http.StatusInternalServerError
                                 "error getting weather information")
   /\ printed (snd run) = printed world)
  /\ (config.DevMode (Standalone.conf g) = true ->
      fst run = Some (okDocument [("temp_C", json.Num 25.0%float);
                                  ("temp_F", json.Num 77.0%float);
                                  ("temp_K", json.Num (25.0 + 273.15)%float)])
      /\ printed (snd run)
         = (printed world
            ++ [("Using mock weather data for "
                 ++ Standalone.ViaCEPResponse.Localidade found)%string])%list).
Proof.
  intros Hpath Hv Hfinds Hfails. unfold PathCarries in Hpath.
  unfold Standalone.handleWeatherRequest, Standalone.respond,
    Standalone.getMockWeatherData.
  unfold_logging. cbv zeta. run.
  locate_with Standalone_getLocationFromCEP_finds Hfinds.
  run.
  match goal with
  | |- context [bind (Standalone.getWeatherFromLocation g ?c) _ ?W] =>
      assert (Hw : exists err w'',
                 Standalone.getWeatherFromLocation g c W = (Err err, w'')
                 /\ upstream w'' = upstream W /\ printed w'' = printed W)
  end.
  { destruct Hfails as [Hkey | Hfails].
    - match goal with
      | |- exists _ _, Standalone.getWeatherFromLocation g ?c ?W = _ /\ _ =>
          destruct (Standalone_getWeatherFromLocation_no_key g c W Hkey)
            as (w'' & E' & Hup'' & Hout'' & Hpr'')
      end.
      eauto.
    - apply Standalone_getWeatherFromLocation_fails.
      through. rewrite Hup'. exact Hfails. }
  destruct Hw as (err & w'' & E' & Hup'' & Hpr'').
  run.
  destruct (config.DevMode (Standalone.conf g)); run;
    split; intros; try discriminate;
    (split; [reflexivity|]);
    autorewrite with worlds; rewrite Hpr''; autorewrite with worlds;
    rewrite Hpr'; autorewrite with worlds; reflexivity.
Qed.

Lemma Standalone_handle_success g r world zipcode found sample :
  PathCarries r zipcode ->
  Standalone.isValidZipcode zipcode = true ->
  GeocodingFinds Standalone.ViaCEPResponse.Erro
                 Standalone.ViaCEPResponse.Localidade
                 (upstream world) zipcode found ->
  WeatherFinds (upstream world) (config.WeatherAPIKey (Standalone.conf g))
               (Standalone.ViaCEPResponse.Localidade found) sample ->
  fst (Standalone.handleWeatherRequest g http.NewRecorder r world)
  = Some (okDocument
            (json.Marshal
               {| Standalone.WeatherResponse.TempC :=
                    Standalone.WeatherAPIResponse.TempC
                      (Standalone.WeatherAPIResponse.Current sample);
                  Standalone.WeatherResponse.TempF :=
                    Standalone.WeatherAPIResponse.TempF
                      (Standalone.WeatherAPIResponse.Current sample);
                  Standalone.WeatherResponse.TempK :=
                    (Standalone.WeatherAPIResponse.TempC
                       (Standalone.WeatherAPIResponse.Current sample)
                     + 273.15)%float |})).
Proof.
  intros Hpath Hv Hfinds Hw. unfold PathCarries in Hpath.
  unfold Standalone.handleWeatherRequest, Standalone.respond.
  unfold_logging. cbv zeta. run.
  locate_with Standalone_getLocationFromCEP_finds Hfinds.
  run.
  match goal with
  | |- context [bind (Standalone.getWeatherFromLocation g ?c) _ ?W] =>
      destruct (Standalone_getWeatherFromLocation_finds g c W sample)
        as (w'' & E' & Hup''); [through; rewrite Hup'; exact Hw|]
  end.
  run. reflexivity.
Qed.

(** With development mode off nothing is printed by the mock data, on
    any path. *)
Lemma Standalone_handle_prints_nothing g w0 r world :
  config.DevMode (Standalone.conf g) = false ->
  printed (snd (Standalone.handleWeatherRequest g w0 r world)) = printed world.
Proof.
  intros Hdev.
  unfold Standalone.handleWeatherRequest, Standalone.respond,
    Standalone.getMockWeatherData.
  unfold_logging. cbv zeta.
  repeat (run; first [ match goal with
                       | |- context [match ?x with _ => _ end] => destruct x eqn:?
                       end
                     | match goal with
                       | |- context [bind (Standalone.getLocationFromCEP g ?c) _ ?W] =>
                           let E := fresh "Eloc" in
                           pose proof (Standalone_getLocationFromCEP_frame g c W) as E;
                           destruct (Standalone.getLocationFromCEP g c W) eqn:?;
                           through; destruct E
                       | |- context [bind (Standalone.getWeatherFromLocation g ?c) _ ?W] =>
                           let E := fresh "Ewea" in
                           pose proof (Standalone_getWeatherFromLocation_frame g c W) as E;
                           destruct (Standalone.getWeatherFromLocation g c W) eqn:?;
                           through; destruct E
                       end ]).
  all: run; autorewrite with worlds in *; try congruence.
Qed.

Lemma Standalone_handle_steady g w0 r w1 w2 :
  upstream w2 = upstream w1 ->
  fst (Standalone.handleWeatherRequest g w0 r w2)
  = fst (Standalone.handleWeatherRequest g w0 r w1).
Proof.
  intros Hu.
  assert (FL : forall g c W,
             upstream (snd (Standalone.getLocationFromCEP g c W)) = upstream W)
    by (intros; apply Standalone_getLocationFromCEP_frame).
  assert (FW : forall g c W,
             upstream (snd (Standalone.getWeatherFromLocation g c W)) = upstream W)
    by (intros; apply Standalone_getWeatherFromLocation_frame).
  unfold Standalone.handleWeatherRequest, Standalone.respond,
    Standalone.getMockWeatherData.
  unfold_logging. cbv zeta.
  repeat (run_sides; first [ match goal with
                       | |- context [match ?x with _ => _ end] => destruct x eqn:?
                       end
                     | both_call Standalone.getLocationFromCEP FL
                                 Standalone_getLocationFromCEP_steady
                     | both_call Standalone.getWeatherFromLocation FW
                                 Standalone_getWeatherFromLocation_steady ]).
  all: run_sides; reflexivity.
Qed.

Lemma Standalone_handle_frame g w0 r world :
  upstream (snd (Standalone.handleWeatherRequest g w0 r world)) = upstream world.
Proof.
  unfold Standalone.handleWeatherRequest, Standalone.respond,
    Standalone.getMockWeatherData.
  unfold_logging. cbv zeta.
  repeat (run; first [ match goal with
                       | |- context [match ?x with _ => _ end] => destruct x eqn:?
                       end
                     | match goal with
                       | |- context [bind (Standalone.getLocationFromCEP g ?c) _ ?W] =>
                           let E := fresh "Eloc" in
                           pose proof (Standalone_getLocationFromCEP_frame g c W) as E;
                           destruct (Standalone.getLocationFromCEP g c W) eqn:?;
                           through; destruct E
                       | |- context [bind (Standalone.getWeatherFromLocation g ?c) _ ?W] =>
                           let E := fresh "Ewea" in
                           pose proof (Standalone_getWeatherFromLocation_frame g c W) as E;
                           destruct (Standalone.getWeatherFromLocation g c W) eqn:?;
                           through; destruct E
                       end ]).
  all: run; try congruence.
Qed.

End StandaloneRuns.

(** * The properties of the specification *)

Section GatewayClaims.
Context {parser : url.Parser}.
Context {zipcodes : json.Decodable shared.ZipcodeRequest.t}.
Context {reports : json.Decodable shared.WeatherResponse.t}.

(** C1, amended.  For a request that reaches the call to the Resolver and
    a response of the Resolver that the Gateway reads in full: status 404
    is answered with 404 and [can not find zipcode]; 422 with 422 and
    [invalid zipcode]; any other status but 200 with 500; 200 with a body
    that decodes with 200 and the decoded report, encoded again as it is;
    and 200 with a body that does not decode with 500. *)
Theorem gateway_translates_resolver_response s r world cep resp :
  CarriesCEP r cep ->
  ServiceA.isValidZipcode cep = true ->
  Sendable (serviceBRequest (shared.ServiceBURL (ServiceA.config s)) cep) ->
  upstream world (serviceBRequest (shared.ServiceBURL (ServiceA.config s)) cep)
  = Ok resp ->
  json.readErr (http.RespBody resp) = None ->
  let answer := fst (ServiceA.handleCEPRequest s http.NewRecorder r world) in
  (http.StatusCode resp = http.StatusNotFound ->
   answer = errorEnvelope http.StatusNotFound "can not find zipcode")
  /\ (http.StatusCode resp = http.StatusUnprocessableEntity ->
      answer = errorEnvelope http.StatusUnprocessableEntity "invalid zipcode")
  /\ (http.StatusCode resp <> http.StatusNotFound ->
      http.StatusCode resp <> http.StatusUnprocessableEntity ->
      http.StatusCode resp <> http.StatusOK ->
      answer = errorEnvelope http.StatusInternalServerError
                             "error processing request")
  /\ (http.StatusCode resp = http.StatusOK ->
      forall report,
        json.Unmarshal (json.bytes (http.RespBody resp)) = Ok report ->
        answer = okDocument (json.Marshal report))
  /\ (http.StatusCode resp = http.StatusOK ->
      forall err,
        json.Unmarshal (json.bytes (http.RespBody resp)) = Err err ->
        answer = errorEnvelope http.StatusInternalServerError
                               "error processing request").
Proof.
  intros Hcarries Hv Hs Hup Hread answer. subst answer.
  open_request Hcarries request.
  unfold ServiceA.handleCEPRequest, io_ReadAll. unfold_tracer.
  run.
  match goal with
  | |- context [bind (ServiceA.callServiceB s ?c) _ ?W] =>
      destruct (ServiceA_callServiceB_received s c W resp Hs Hup Hread)
        as (res & w' & E & R404 & R422 & Rother & Rok & Rbad)
  end.
  run.
  repeat split.
  - intros Hst. rewrite (R404 Hst). run. reflexivity.
  - intros Hst. rewrite (R422 Hst). run. reflexivity.
  - intros H404 H422 H200. rewrite (Rother H404 H422 H200).
    cbv beta iota. run. rewrite !eqb_first_byte by discriminate.
    run. reflexivity.
  - intros Hst report Hdec. rewrite (Rok Hst report Hdec). run. reflexivity.
  - intros Hst err Hdec. rewrite (Rbad Hst err Hdec).
    cbv beta iota. run. rewrite !eqb_first_byte by discriminate.
    run. reflexivity.
Qed.

End GatewayClaims.

(** The Resolver answers 404, and so does the Gateway. *)
Lemma gateway_translates_resolver_response_witness :
  fst (ServiceA.handleCEPRequest
         (parser := anyURL) (zipcodes := demoZipcodeDecoder)
         (reports := demoReportDecoder)
         demoGateway http.NewRecorder (postCEP "99999999")
         (freshWorld (resolverAnswers 404 "")))
  = errorEnvelope 404 "can not find zipcode".
Proof.
  refine (proj1 (@gateway_translates_resolver_response
                   anyURL demoZipcodeDecoder demoReportDecoder
                   demoGateway (postCEP "99999999")
                   (freshWorld (resolverAnswers 404 "")) "99999999"
                   {| http.StatusCode := 404;
                      http.RespBody := {| json.bytes := "";
                                          json.readErr := None |} |}
                   _ _ _ _ _) _).
  - split; [reflexivity|]. split; [reflexivity|].
    exists {| shared.ZipcodeRequest.CEP := "99999999" |}.
    split; reflexivity.
  - reflexivity.
  - reflexivity.
  - reflexivity.
  - reflexivity.
  - reflexivity.
Defined.

(** C1 as stated fails: to a valid request the Resolver answers 200 with a
    body that is not JSON, which [json.Unmarshal] rejects, and the Gateway
    answers 500 with [error processing request], not 200 with a report. *)
Lemma gateway_200_undecodable_is_500 :
  let world := freshWorld (resolverAnswers 200 "<html>") in
  let answer :=
    fst (ServiceA.handleCEPRequest
           (parser := anyURL) (zipcodes := demoZipcodeDecoder)
           (reports := demoReportDecoder)
           demoGateway http.NewRecorder (postCEP "29902555") world) in
  ServiceA.isValidZipcode "29902555" = true
  /\ upstream world
       (serviceBRequest (shared.ServiceBURL (ServiceA.config demoGateway))
                        "29902555")
     = reply 200 "<html>"
  /\ answer = errorEnvelope 500 "error processing request"
  /\ http.status answer <> Some 200%Z
  /\ forall report : shared.WeatherResponse.t,
       answer <> okDocument (json.Marshal report).
Proof.
  assert (E : fst (ServiceA.handleCEPRequest
                     (parser := anyURL) (zipcodes := demoZipcodeDecoder)
                     (reports := demoReportDecoder)
                     demoGateway http.NewRecorder (postCEP "29902555")
                     (freshWorld (resolverAnswers 200 "<html>")))
              = errorEnvelope 500 "error processing request")
    by (vm_compute; reflexivity).
  cbv zeta. rewrite E.
  split; [reflexivity|]. split; [reflexivity|]. split; [reflexivity|]. split.
  - discriminate.
  - intros report Heq. apply (f_equal http.status) in Heq. discriminate Heq.
Qed.

Section ResolverClaims.
Context {parser : url.Parser}.
Context {zipcodes : json.Decodable shared.ZipcodeRequest.t}.
Context {locations : json.Decodable shared.ViaCEPResponse.t}.
Context {samples : json.Decodable shared.WeatherAPIResponse.t}.
Context {reports : json.Decodable shared.WeatherResponse.t}.

(** C3.  A request whose postal code fails the validation is answered
    with 422 and the envelope [invalid zipcode], by the Gateway and by the
    Resolver alike, and the handler hands no request to the transport:
    nothing goes to the Resolver, the geocoding API or the weather API. *)
Theorem invalid_zipcode_rejected_before_any_call a b r world cep :
  CarriesCEP r cep ->
  ServiceB.isValidZipcode cep = false ->
  (fst (ServiceA.handleCEPRequest a http.NewRecorder r world)
   = errorEnvelope http.StatusUnprocessableEntity "invalid zipcode"
   /\ outbound (snd (ServiceA.handleCEPRequest a http.NewRecorder r world))
      = outbound world)
  /\ (fst (ServiceB.handleWeatherRequest b http.NewRecorder r world)
      = errorEnvelope http.StatusUnprocessableEntity "invalid zipcode"
      /\ outbound (snd (ServiceB.handleWeatherRequest b http.NewRecorder r world))
         = outbound world).
Proof.
  intros Hcarries Hinvalid. split.
  - now apply ServiceA_handle_invalid with (cep := cep).
  - now apply ServiceB_handle_invalid with (cep := cep).
Qed.

(** C4.  For a postal code of valid format, each of the four failures of
    the geocoding step (transport failure, a status other than 200, a body
    that does not decode, a decoded answer with the not-found flag or an
    empty city) makes the Resolver answer 404 with the envelope
    [can not find zipcode]. *)
Theorem geocoding_failure_is_not_found b r world cep :
  CarriesCEP r cep ->
  ServiceB.isValidZipcode cep = true ->
  GeocodingFails shared.ViaCEPResponse.Erro shared.ViaCEPResponse.Localidade
                 (upstream world) cep ->
  fst (ServiceB.handleWeatherRequest b http.NewRecorder r world)
  = errorEnvelope http.StatusNotFound "can not find zipcode".
Proof. apply ServiceB_handle_geocoding_fails. Qed.

End ResolverClaims.

Lemma CarriesCEP_postCEP cep request :
  json.Unmarshal (Decodable := demoZipcodeDecoder) (cepBody cep) = Ok request ->
  shared.ZipcodeRequest.CEP request = cep ->
  CarriesCEP (zipcodes := demoZipcodeDecoder) (postCEP cep) cep.
Proof.
  intros Hdecoded Hcep. split; [reflexivity|]. split; [reflexivity|].
  exists request. split; assumption.
Qed.

(** The request [{"cep":"12345"}] of the spec's scenario. *)
Lemma invalid_zipcode_rejected_before_any_call_witness :
  fst (ServiceA.handleCEPRequest
         (parser := anyURL) (zipcodes := demoZipcodeDecoder)
         (reports := demoReportDecoder)
         demoGateway http.NewRecorder (postCEP "12345")
         (freshWorld demoUpstream))
  = errorEnvelope 422 "invalid zipcode"
  /\ outbound (snd (ServiceB.handleWeatherRequest
                      (parser := anyURL) (zipcodes := demoZipcodeDecoder)
                      (locations := demoViaCEPDecoder)
                      (samples := demoWeatherDecoder)
                      (demoResolver "secret") http.NewRecorder (postCEP "12345")
                      (freshWorld demoUpstream)))
     = [].
Proof.
  pose proof (@invalid_zipcode_rejected_before_any_call
                anyURL demoZipcodeDecoder demoViaCEPDecoder demoWeatherDecoder
                demoReportDecoder demoGateway (demoResolver "secret")
                (postCEP "12345") (freshWorld demoUpstream) "12345"
                (CarriesCEP_postCEP "12345" _ eq_refl eq_refl) eq_refl)
    as [[Ha _] [_ Hb]].
  split; [exact Ha | exact Hb].
Defined.

(** The postal code 99999999, for which the geocoding API raises its
    not-found flag. *)
Lemma geocoding_failure_is_not_found_witness :
  fst (ServiceB.handleWeatherRequest
         (parser := anyURL) (zipcodes := demoZipcodeDecoder)
         (locations := demoViaCEPDecoder) (samples := demoWeatherDecoder)
         (demoResolver "secret") http.NewRecorder (postCEP "99999999")
         (freshWorld demoUpstream))
  = errorEnvelope 404 "can not find zipcode".
Proof.
  apply (@geocoding_failure_is_not_found
           anyURL demoZipcodeDecoder demoViaCEPDecoder demoWeatherDecoder
           (demoResolver "secret") (postCEP "99999999")
           (freshWorld demoUpstream) "99999999").
  - exact (CarriesCEP_postCEP "99999999" _ eq_refl eq_refl).
  - reflexivity.
  - refine (@geocoding_not_found anyURL _ demoViaCEPDecoder _ _ _ _
              {| http.StatusCode := 200;
                 http.RespBody := {| json.bytes := viaCEPNotFoundBody;
                                     json.readErr := None |} |}
              _ _ _ _ _ _).
    + reflexivity.
    + reflexivity.
    + reflexivity.
    + reflexivity.
    + left. reflexivity.
Defined.

Section TemperatureClaims.
Context {parser : url.Parser}.
Context {zipcodes : json.Decodable shared.ZipcodeRequest.t}.
Context {locations : json.Decodable shared.ViaCEPResponse.t}.
Context {samples : json.Decodable shared.WeatherAPIResponse.t}.
Context {locations' : json.Decodable Standalone.ViaCEPResponse.t}.
Context {samples' : json.Decodable Standalone.WeatherAPIResponse.t}.

(** C5, amended.  When both lookups succeed, the report of the Resolver
    carries the city found, the Celsius and Fahrenheit values of the
    upstream sample as they came, and for Kelvin the binary64 sum of the
    Celsius value and 273.15; the standalone handler builds the same three
    temperatures.  No Kelvin value is read from upstream: the sample has
    none.  The binary64 sum is the sum of IEEE 754, of the Celsius value
    and the binary64 value nearest to 273.15, rounded to the nearest
    binary64 value: it is not the decimal sum for every Celsius value. *)
Theorem kelvin_derived_fahrenheit_passed_through :
  (forall b r world cep found sample,
      CarriesCEP r cep ->
      ServiceB.isValidZipcode cep = true ->
      GeocodingFinds shared.ViaCEPResponse.Erro
                     shared.ViaCEPResponse.Localidade
                     (upstream world) cep found ->
      WeatherFinds (upstream world) (shared.WeatherAPIKey (ServiceB.config b))
                   (shared.ViaCEPResponse.Localidade found) sample ->
      let c := shared.WeatherAPIResponse.TempC
                 (shared.WeatherAPIResponse.Current sample) in
      let f := shared.WeatherAPIResponse.TempF
                 (shared.WeatherAPIResponse.Current sample) in
      fst (ServiceB.handleWeatherRequest b http.NewRecorder r world)
      = okDocument [("city", json.Str (shared.ViaCEPResponse.Localidade found));
                    ("temp_C", json.Num c);
                    ("temp_F", json.Num f);
                    ("temp_K", json.Num (c + 273.15)%float)])
  /\ (forall g r world zipcode found sample,
         PathCarries r zipcode ->
         Standalone.isValidZipcode zipcode = true ->
         GeocodingFinds Standalone.ViaCEPResponse.Erro
                        Standalone.ViaCEPResponse.Localidade
                        (upstream world) zipcode found ->
         WeatherFinds (upstream world)
                      (config.WeatherAPIKey (Standalone.conf g))
                      (Standalone.ViaCEPResponse.Localidade found) sample ->
         let c := Standalone.WeatherAPIResponse.TempC
                    (Standalone.WeatherAPIResponse.Current sample) in
         let f := Standalone.WeatherAPIResponse.TempF
                    (Standalone.WeatherAPIResponse.Current sample) in
         fst (Standalone.handleWeatherRequest g http.NewRecorder r world)
         = Some (okDocument [("temp_C", json.Num c);
                             ("temp_F", json.Num f);
                             ("temp_K", json.Num (c + 273.15)%float)]))
  /\ (forall c : float,
         Prim2SF (c + 273.15)%float
         = SF64add (Prim2SF c) (Prim2SF 273.15%float)).
Proof.
  split; [|split].
  - intros b r world cep found sample Hcarries Hvalid Hfinds Hweather.
    now rewrite (ServiceB_handle_success b r world cep found sample).
  - intros g r world zipcode found sample Hpath Hvalid Hfinds Hweather.
    now rewrite (Standalone_handle_success g r world zipcode found sample).
  - intros c. apply add_spec.
Qed.

End TemperatureClaims.

Lemma demo_GeocodingFinds :
  GeocodingFinds (parser := anyURL) (locations := demoViaCEPDecoder)
                 shared.ViaCEPResponse.Erro shared.ViaCEPResponse.Localidade
                 demoUpstream "29902555"
                 {| shared.ViaCEPResponse.Logradouro := "";
                    shared.ViaCEPResponse.Bairro := "";
                    shared.ViaCEPResponse.Localidade := "Vitória";
                    shared.ViaCEPResponse.UF := "ES";
                    shared.ViaCEPResponse.Erro := false |}.
Proof.
  split; [reflexivity|].
  exists {| http.StatusCode := 200;
            http.RespBody := {| json.bytes := viaCEPBody;
                                json.readErr := None |} |}.
  repeat split; try reflexivity. discriminate.
Qed.

Lemma demo_Standalone_GeocodingFinds :
  GeocodingFinds (parser := anyURL) (locations := demoStandaloneViaCEPDecoder)
                 Standalone.ViaCEPResponse.Erro
                 Standalone.ViaCEPResponse.Localidade
                 demoUpstream "29902555"
                 {| Standalone.ViaCEPResponse.CEP := "";
                    Standalone.ViaCEPResponse.Logradouro := "";
                    Standalone.ViaCEPResponse.Complemento := "";
                    Standalone.ViaCEPResponse.Bairro := "";
                    Standalone.ViaCEPResponse.Localidade := "Vitória";
                    Standalone.ViaCEPResponse.UF := "ES";
                    Standalone.ViaCEPResponse.IBGE := "";
                    Standalone.ViaCEPResponse.GIA := "";
                    Standalone.ViaCEPResponse.DDD := "";
                    Standalone.ViaCEPResponse.SIAFI := "";
                    Standalone.ViaCEPResponse.Erro := false |}.
Proof.
  split; [reflexivity|].
  exists {| http.StatusCode := 200;
            http.RespBody := {| json.bytes := viaCEPBody;
                                json.readErr := None |} |}.
  repeat split; try reflexivity. discriminate.
Qed.

Lemma demo_WeatherFinds :
  WeatherFinds (parser := anyURL) (samples := demoWeatherDecoder)
               demoUpstream "secret" "Vitória"
               {| shared.WeatherAPIResponse.Location :=
                    {| shared.WeatherAPIResponse.Name := "";
                       shared.WeatherAPIResponse.Country := "" |};
                  shared.WeatherAPIResponse.Current :=
                    {| shared.WeatherAPIResponse.TempC := 25.5%float;
                       shared.WeatherAPIResponse.TempF := 77.9%float |} |}.
Proof.
  split; [discriminate|]. split; [reflexivity|].
  exists {| http.StatusCode := 200;
            http.RespBody := {| json.bytes := weatherBody;
                                json.readErr := None |} |}.
  repeat split; reflexivity.
Qed.

Lemma demo_Standalone_WeatherFinds :
  WeatherFinds (parser := anyURL) (samples := demoStandaloneWeatherDecoder)
               demoUpstream "secret" "Vitória"
               {| Standalone.WeatherAPIResponse.Location :=
                    {| Standalone.WeatherAPIResponse.Name := "";
                       Standalone.WeatherAPIResponse.Region := "";
                       Standalone.WeatherAPIResponse.Country := "";
                       Standalone.WeatherAPIResponse.Lat := 0%float;
                       Standalone.WeatherAPIResponse.Lon := 0%float |};
                  Standalone.WeatherAPIResponse.Current :=
                    {| Standalone.WeatherAPIResponse.TempC := 25.5%float;
                       Standalone.WeatherAPIResponse.TempF := 77.9%float |} |}.
Proof.
  split; [discriminate|]. split; [reflexivity|].
  exists {| http.StatusCode := 200;
            http.RespBody := {| json.bytes := weatherBody;
                                json.readErr := None |} |}.
  repeat split; reflexivity.
Qed.

(** The scenario of the spec: 25.5 °C and 77.9 °F give 298.65 K. *)
Lemma kelvin_derived_fahrenheit_passed_through_witness :
  fst (ServiceB.handleWeatherRequest
         (parser := anyURL) (zipcodes := demoZipcodeDecoder)
         (locations := demoViaCEPDecoder) (samples := demoWeatherDecoder)
         (demoResolver "secret") http.NewRecorder (postCEP "29902555")
         (freshWorld demoUpstream))
  = okDocument [("city", json.Str "Vitória"); ("temp_C", json.Num 25.5);
                ("temp_F", json.Num 77.9); ("temp_K", json.Num 298.65)].
Proof.
  exact (proj1 (@kelvin_derived_fahrenheit_passed_through
                  anyURL demoZipcodeDecoder demoViaCEPDecoder demoWeatherDecoder
                  demoStandaloneViaCEPDecoder demoStandaloneWeatherDecoder)
               (demoResolver "secret") (postCEP "29902555")
               (freshWorld demoUpstream) "29902555" _ _
               (CarriesCEP_postCEP "29902555" _ eq_refl eq_refl) eq_refl
               demo_GeocodingFinds demo_WeatherFinds).
Defined.

Example kelvin_examples :
  map (fun c => (c + 273.15)%float) [0; 25; 100; 25.5]%float
  = [273.15; 298.15; 373.15; 298.65]%float.
Proof. vm_compute. reflexivity. Qed.

(** At 0.2 °C the Resolver reports 273.34999999999997 K, the binary64
    value just below the one nearest to 273.35. *)
Lemma kelvin_of_a_fifth_is_not_the_decimal_sum :
  let run :=
    ServiceB.handleWeatherRequest
      (parser := anyURL) (zipcodes := demoZipcodeDecoder)
      (locations := demoViaCEPDecoder) (samples := coldWeatherDecoder)
      (demoResolver "secret") http.NewRecorder (postCEP "29902555")
      (freshWorld coldUpstream) in
  fst run
  = okDocument [("city", json.Str "Vitória"); ("temp_C", json.Num 0.2);
                ("temp_F", json.Num 32.36);
                ("temp_K", json.Num 273.34999999999997)]
  /\ fst run
     <> okDocument [("city", json.Str "Vitória"); ("temp_C", json.Num 0.2);
                    ("temp_F", json.Num 32.36); ("temp_K", json.Num 273.35)]
  /\ (273.34999999999997 <? 273.35)%float = true.
Proof.
  cbv zeta.
  assert (E : fst (ServiceB.handleWeatherRequest
                     (parser := anyURL) (zipcodes := demoZipcodeDecoder)
                     (locations := demoViaCEPDecoder) (samples := coldWeatherDecoder)
                     (demoResolver "secret") http.NewRecorder (postCEP "29902555")
                     (freshWorld coldUpstream))
              = okDocument [("city", json.Str "Vitória"); ("temp_C", json.Num 0.2);
                            ("temp_F", json.Num 32.36);
                            ("temp_K", json.Num 273.34999999999997)])
    by (vm_compute; reflexivity).
  rewrite E. split; [reflexivity|]. split; [|vm_compute; reflexivity].
  intros Heq.
  apply (f_equal (fun w => match http.written w with
                           | [http.Encoded [_; _; _; (_, json.Num k)]] =>
                               PrimFloat.eqb k 273.35
                           | _ => true
                           end)) in Heq.
  vm_compute in Heq. discriminate Heq.
Qed.

Section MissingKeyClaims.
Context {parser : url.Parser}.
Context {zipcodes : json.Decodable shared.ZipcodeRequest.t}.
Context {locations : json.Decodable shared.ViaCEPResponse.t}.
Context {samples : json.Decodable shared.WeatherAPIResponse.t}.
Context {locations' : json.Decodable Standalone.ViaCEPResponse.t}.
Context {samples' : json.Decodable Standalone.WeatherAPIResponse.t}.

(** C6, amended.  With an empty weather API key, a request that reaches
    the weather step sends the geocoding request and nothing else: the
    weather lookup fails before any call to the weather API.  The
    Resolver then answers 500 with [error getting weather information],
    which is not its answer to a geocoding failure (404); the standalone
    handler answers the same 500 when development mode is off, and 200
    with the mock temperatures when development mode is on. *)
Theorem missing_key_fails_weather_step :
  (forall b r world cep found,
      shared.WeatherAPIKey (ServiceB.config b) = "" ->
      CarriesCEP r cep ->
      ServiceB.isValidZipcode cep = true ->
      GeocodingFinds shared.ViaCEPResponse.Erro
                     shared.ViaCEPResponse.Localidade
                     (upstream world) cep found ->
      fst (ServiceB.handleWeatherRequest b http.NewRecorder r world)
      = errorEnvelope http.StatusInternalServerError
                      "error getting weather information"
      /\ outbound (snd (ServiceB.handleWeatherRequest b http.NewRecorder r world))
         = (outbound world ++ [viaCEPRequest cep])%list
      /\ forall world',
           GeocodingFails shared.ViaCEPResponse.Erro
                          shared.ViaCEPResponse.Localidade
                          (upstream world') cep ->
           fst (ServiceB.handleWeatherRequest b http.NewRecorder r world')
           = errorEnvelope http.StatusNotFound "can not find zipcode"
           /\ fst (ServiceB.handleWeatherRequest b http.NewRecorder r world')
              <> fst (ServiceB.handleWeatherRequest b http.NewRecorder r world))
  /\ (forall g r world zipcode found,
         config.WeatherAPIKey (Standalone.conf g) = "" ->
         PathCarries r zipcode ->
         Standalone.isValidZipcode zipcode = true ->
         GeocodingFinds Standalone.ViaCEPResponse.Erro
                        Standalone.ViaCEPResponse.Localidade
                        (upstream world) zipcode found ->
         let run := Standalone.handleWeatherRequest g http.NewRecorder r world in
         outbound (snd run) = (outbound world ++ [viaCEPRequest zipcode])%list
         /\ (config.DevMode (Standalone.conf g) = false ->
             fst run = Some (errorEnvelope http.StatusInternalServerError
                                           "error getting weather information"))
         /\ (config.DevMode (Standalone.conf g) = true ->
             fst run = Some (okDocument
                               [("temp_C", json.Num 25.0%float);
                                ("temp_F", json.Num 77.0%float);
                                ("temp_K", json.Num (25.0 + 273.15)%float)]))).
Proof.
  split.
  - intros b r world cep found Hkey Hcarries Hvalid Hfinds.
    destruct (ServiceB_handle_no_key b r world cep found
                Hcarries Hvalid Hfinds Hkey) as [Hanswer Hout].
    split; [exact Hanswer|]. split; [exact Hout|].
    intros world' Hfails.
    pose proof (ServiceB_handle_geocoding_fails b r world' cep
                  Hcarries Hvalid Hfails) as Hanswer'.
    split; [exact Hanswer'|]. rewrite Hanswer, Hanswer'.
    intros Heq. apply (f_equal http.status) in Heq. discriminate Heq.
  - intros g r world zipcode found Hkey Hpath Hvalid Hfinds.
    exact (Standalone_handle_no_key g r world zipcode found
             Hpath Hvalid Hfinds Hkey).
Qed.

End MissingKeyClaims.

(** The Resolver without a key, on the postal code of the scenario. *)
Lemma missing_key_fails_weather_step_witness :
  fst (ServiceB.handleWeatherRequest
         (parser := anyURL) (zipcodes := demoZipcodeDecoder)
         (locations := demoViaCEPDecoder) (samples := demoWeatherDecoder)
         (demoResolver "") http.NewRecorder (postCEP "29902555")
         (freshWorld demoUpstream))
  = errorEnvelope 500 "error getting weather information".
Proof.
  exact (proj1 (proj1 (@missing_key_fails_weather_step
                         anyURL demoZipcodeDecoder demoViaCEPDecoder
                         demoWeatherDecoder demoStandaloneViaCEPDecoder
                         demoStandaloneWeatherDecoder)
                      (demoResolver "") (postCEP "29902555")
                      (freshWorld demoUpstream) "29902555" _ eq_refl
                      (CarriesCEP_postCEP "29902555" _ eq_refl eq_refl) eq_refl
                      demo_GeocodingFinds)).
Defined.

(** C6 as stated fails: the standalone service in development mode, with
    no weather API key, takes a valid request as far as the weather step
    (the geocoding request is the one request sent) and answers it with
    status 200 and the mock temperatures instead of failing it. *)
Lemma missing_key_in_development_mode_is_served :
  let g := demoGlobals "" true in
  let run :=
    Standalone.handleWeatherRequest
      (parser := anyURL) (locations := demoStandaloneViaCEPDecoder)
      (samples := demoStandaloneWeatherDecoder)
      g http.NewRecorder (getWeather "29902555") (freshWorld demoUpstream) in
  config.WeatherAPIKey (Standalone.conf g) = ""
  /\ outbound (snd run) = [viaCEPRequest "29902555"]
  /\ fst run = Some (okDocument [("temp_C", json.Num 25); ("temp_F", json.Num 77);
                                 ("temp_K", json.Num 298.15)])
  /\ forall code message,
       (400 <= code)%Z -> fst run <> Some (errorEnvelope code message).
Proof.
  cbv zeta. split; [reflexivity|].
  split; [vm_compute; reflexivity|].
  assert (E : fst (Standalone.handleWeatherRequest
                     (parser := anyURL) (locations := demoStandaloneViaCEPDecoder)
                     (samples := demoStandaloneWeatherDecoder)
                     (demoGlobals "" true) http.NewRecorder
                     (getWeather "29902555") (freshWorld demoUpstream))
              = Some (okDocument [("temp_C", json.Num 25);
                                  ("temp_F", json.Num 77);
                                  ("temp_K", json.Num 298.15)]))
    by (vm_compute; reflexivity).
  rewrite E. split; [reflexivity|].
  intros code message Hcode Heq.
  assert (Hst : Some http.StatusOK = Some code).
  { change (http.status (okDocument [("temp_C", json.Num 25);
                                     ("temp_F", json.Num 77);
                                     ("temp_K", json.Num 298.15)])
            = http.status (errorEnvelope code message)).
    congruence. }
  injection Hst as Hst. unfold http.StatusOK in Hst. subst code.
  apply Hcode. reflexivity.
Qed.

Section StandaloneClaims.
Context {parser : url.Parser}.
Context {locations : json.Decodable Standalone.ViaCEPResponse.t}.
Context {samples : json.Decodable Standalone.WeatherAPIResponse.t}.

(** C7.  In the standalone handler with development mode off, no request
    makes the mock data run: on every path the handler prints nothing
    through the standard logger, where the mock data announces itself;
    and when the geocoding succeeds and the weather call fails, for want
    of a key or in any other way, the answer is 500 with
    [error getting weather information]. *)
Theorem mock_only_in_development_mode g r world :
  config.DevMode (Standalone.conf g) = false ->
  printed (snd (Standalone.handleWeatherRequest g http.NewRecorder r world))
  = printed world
  /\ forall zipcode found,
       PathCarries r zipcode ->
       Standalone.isValidZipcode zipcode = true ->
       GeocodingFinds Standalone.ViaCEPResponse.Erro
                      Standalone.ViaCEPResponse.Localidade
                      (upstream world) zipcode found ->
       config.WeatherAPIKey (Standalone.conf g) = ""
       \/ WeatherFails (Sample := Standalone.WeatherAPIResponse.t)
                       (upstream world)
                       (config.WeatherAPIKey (Standalone.conf g))
                       (Standalone.ViaCEPResponse.Localidade found) ->
       fst (Standalone.handleWeatherRequest g http.NewRecorder r world)
       = Some (errorEnvelope http.StatusInternalServerError
                             "error getting weather information").
Proof.
  intros Hdev. split.
  - now apply Standalone_handle_prints_nothing.
  - intros zipcode found Hpath Hvalid Hfinds Hfails.
    now apply (Standalone_handle_weather_fails g r world zipcode found).
Qed.

(** The other side of C7: with development mode on, the same failure is
    answered with the mock temperatures, and the mock data says so. *)
Lemma mock_in_development_mode g r world zipcode found :
  config.DevMode (Standalone.conf g) = true ->
  PathCarries r zipcode ->
  Standalone.isValidZipcode zipcode = true ->
  GeocodingFinds Standalone.ViaCEPResponse.Erro
                 Standalone.ViaCEPResponse.Localidade
                 (upstream world) zipcode found ->
  config.WeatherAPIKey (Standalone.conf g) = ""
  \/ WeatherFails (Sample := Standalone.WeatherAPIResponse.t)
                  (upstream world)
                  (config.WeatherAPIKey (Standalone.conf g))
                  (Standalone.ViaCEPResponse.Localidade found) ->
  fst (Standalone.handleWeatherRequest g http.NewRecorder r world)
  = Some (okDocument [("temp_C", json.Num 25.0%float);
                      ("temp_F", json.Num 77.0%float);
                      ("temp_K", json.Num (25.0 + 273.15)%float)])
  /\ printed (snd (Standalone.handleWeatherRequest g http.NewRecorder r world))
     = (printed world
        ++ [("Using mock weather data for "
             ++ Standalone.ViaCEPResponse.Localidade found)%string])%list.
Proof.
  intros Hdev Hpath Hvalid Hfinds Hfails.
  now apply (Standalone_handle_weather_fails g r world zipcode found).
Qed.

End StandaloneClaims.

(** Development mode off and no key: 500, and nothing printed. *)
Lemma mock_only_in_development_mode_witness :
  let run :=
    Standalone.handleWeatherRequest
      (parser := anyURL) (locations := demoStandaloneViaCEPDecoder)
      (samples := demoStandaloneWeatherDecoder)
      (demoGlobals "" false) http.NewRecorder (getWeather "29902555")
      (freshWorld demoUpstream) in
  printed (snd run) = []
  /\ fst run = Some (errorEnvelope 500 "error getting weather information").
Proof.
  destruct (@mock_only_in_development_mode
              anyURL demoStandaloneViaCEPDecoder demoStandaloneWeatherDecoder
              (demoGlobals "" false) (getWeather "29902555")
              (freshWorld demoUpstream) eq_refl) as [Hprinted Hanswer].
  split.
  - exact Hprinted.
  - exact (Hanswer "29902555" _ eq_refl eq_refl
                   demo_Standalone_GeocodingFinds (or_introl eq_refl)).
Defined.

Section ResponseClaims.
Context {parser : url.Parser}.
Context {zipcodes : json.Decodable shared.ZipcodeRequest.t}.
Context {locations : json.Decodable shared.ViaCEPResponse.t}.
Context {samples : json.Decodable shared.WeatherAPIResponse.t}.
Context {reports : json.Decodable shared.WeatherResponse.t}.



End ResponseClaims.

Section DeterminismClaims.
Context {parser : url.Parser}.
Context {zipcodes : json.Decodable shared.ZipcodeRequest.t}.
Context {locations : json.Decodable shared.ViaCEPResponse.t}.
Context {samples : json.Decodable shared.WeatherAPIResponse.t}.
Context {locations' : json.Decodable Standalone.ViaCEPResponse.t}.
Context {samples' : json.Decodable Standalone.WeatherAPIResponse.t}.

(** C9.  Two runs of a handler on the same request, in two worlds whose
    upstreams answer alike, write the same response, whatever the clock,
    the log, the trace and the requests already sent in either world; and
    a run leaves the upstream as it found it, so the second world may be
    the one the first run leaves behind.  This holds for the Resolver and
    for the standalone handler. *)
Theorem same_upstream_same_report b g w0 r world1 world2 :
  upstream world2 = upstream world1 ->
  (fst (ServiceB.handleWeatherRequest b w0 r world2)
   = fst (ServiceB.handleWeatherRequest b w0 r world1)
   /\ upstream (snd (ServiceB.handleWeatherRequest b w0 r world1))
      = upstream world1)
  /\ (fst (Standalone.handleWeatherRequest g w0 r world2)
      = fst (Standalone.handleWeatherRequest g w0 r world1)
      /\ upstream (snd (Standalone.handleWeatherRequest g w0 r world1))
         = upstream world1).
Proof.
  intros Hsame. split; split.
  - now apply ServiceB_handle_steady.
  - apply ServiceB_handle_frame.
  - now apply Standalone_handle_steady.
  - apply Standalone_handle_frame.
Qed.

End DeterminismClaims.

(** The postal code of the scenario resolved twice in a row: the second
    run starts in the world the first one leaves. *)
Lemma same_upstream_same_report_witness :
  let handle :=
    ServiceB.handleWeatherRequest
      (parser := anyURL) (zipcodes := demoZipcodeDecoder)
      (locations := demoViaCEPDecoder) (samples := demoWeatherDecoder)
      (demoResolver "secret") http.NewRecorder (postCEP "29902555") in
  fst (handle (snd (handle (freshWorld demoUpstream))))
  = fst (handle (freshWorld demoUpstream)).
Proof.
  exact (proj1 (proj1 (@same_upstream_same_report
                         anyURL demoZipcodeDecoder demoViaCEPDecoder
                         demoWeatherDecoder demoStandaloneViaCEPDecoder
                         demoStandaloneWeatherDecoder
                         (demoResolver "secret") (demoGlobals "secret" false)
                         http.NewRecorder (postCEP "29902555")
                         (freshWorld demoUpstream)
                         (snd (ServiceB.handleWeatherRequest
                                 (parser := anyURL)
                                 (zipcodes := demoZipcodeDecoder)
                                 (locations := demoViaCEPDecoder)
                                 (samples := demoWeatherDecoder)
                                 (demoResolver "secret") http.NewRecorder
                                 (postCEP "29902555")
                                 (freshWorld demoUpstream)))
                         eq_refl))).
Defined.

(** * Further properties of the handlers *)

(** ** Requests turned away before the postal code is looked at *)

Section EarlyRejections.
Context {parser : url.Parser}.
Context {zipcodes : json.Decodable shared.ZipcodeRequest.t}.
Context {locations : json.Decodable shared.ViaCEPResponse.t}.
Context {samples : json.Decodable shared.WeatherAPIResponse.t}.
Context {reports : json.Decodable shared.WeatherResponse.t}.

(** X1.  A request whose method is not POST is answered with 405 and
    [method not allowed] by the Gateway and by the Resolver; its body is not
    looked at, nothing is sent and nothing is logged. *)
Theorem other_methods_not_allowed a b r world :
  http.Method r <> http.MethodPost ->
  (fst (ServiceA.handleCEPRequest a http.NewRecorder r world)
   = errorEnvelope http.StatusMethodNotAllowed "method not allowed"
   /\ outbound (snd (ServiceA.handleCEPRequest a http.NewRecorder r world))
      = outbound world
   /\ logged (snd (ServiceA.handleCEPRequest a http.NewRecorder r world))
      = logged world)
  /\ (fst (ServiceB.handleWeatherRequest b http.NewRecorder r world)
      = errorEnvelope http.StatusMethodNotAllowed "method not allowed"
      /\ outbound (snd (ServiceB.handleWeatherRequest b http.NewRecorder r world))
         = outbound world
      /\ logged (snd (ServiceB.handleWeatherRequest b http.NewRecorder r world))
         = logged world).
Proof.
  intros Hmethod. apply String.eqb_neq in Hmethod. split.
  - unfold ServiceA.handleCEPRequest. unfold_tracer. run.
    repeat split; reflexivity.
  - unfold ServiceB.handleWeatherRequest. unfold_tracer. run.
    repeat split; reflexivity.
Qed.

(** X2.  A POST whose body cannot be read is answered with 400 and
    [invalid request body]; one whose body is read but is not the JSON of a
    request is answered with 400 and [invalid json format].  In both cases
    nothing is sent. *)
Theorem unusable_body_is_bad_request a b r world :
  http.Method r = http.MethodPost ->
  let fromGateway := ServiceA.handleCEPRequest a http.NewRecorder r world in
  let fromResolver := ServiceB.handleWeatherRequest b http.NewRecorder r world in
  (forall err,
      json.readErr (http.Body r) = Some err ->
      fst fromGateway = errorEnvelope http.StatusBadRequest "invalid request body"
      /\ fst fromResolver = errorEnvelope http.StatusBadRequest "invalid request body"
      /\ outbound (snd fromGateway) = outbound world
      /\ outbound (snd fromResolver) = outbound world)
  /\ (forall err,
         json.readErr (http.Body r) = None ->
         json.Unmarshal (A := shared.ZipcodeRequest.t) (json.bytes (http.Body r))
         = Err err ->
         fst fromGateway = errorEnvelope http.StatusBadRequest "invalid json format"
         /\ fst fromResolver = errorEnvelope http.StatusBadRequest "invalid json format"
         /\ outbound (snd fromGateway) = outbound world
         /\ outbound (snd fromResolver) = outbound world).
Proof.
  intros Hmethod. apply String.eqb_eq in Hmethod. cbv zeta. split.
  - intros err Hread.
    unfold ServiceA.handleCEPRequest, ServiceB.handleWeatherRequest, io_ReadAll.
    unfold_tracer. run. repeat split; reflexivity.
  - intros err Hread Hjson.
    unfold ServiceA.handleCEPRequest, ServiceB.handleWeatherRequest, io_ReadAll.
    unfold_tracer. run. repeat split; reflexivity.
Qed.

End EarlyRejections.

(** [DELETE /cep] is not allowed. *)
Lemma other_methods_not_allowed_witness :
  fst (ServiceA.handleCEPRequest
         (parser := anyURL) (zipcodes := demoZipcodeDecoder)
         (reports := demoReportDecoder)
         demoGateway http.NewRecorder (deleteCEP "29902555")
         (freshWorld demoUpstream))
  = errorEnvelope 405 "method not allowed".
Proof.
  refine (proj1 (proj1 (@other_methods_not_allowed
                          anyURL demoZipcodeDecoder demoViaCEPDecoder
                          demoWeatherDecoder demoReportDecoder
                          demoGateway (demoResolver "secret")
                          (deleteCEP "29902555") (freshWorld demoUpstream) _))).
  discriminate.
Defined.

(** The body [29902555], a number and not an object. *)
Lemma unusable_body_is_bad_request_witness :
  fst (ServiceB.handleWeatherRequest
         (parser := anyURL) (zipcodes := demoZipcodeDecoder)
         (locations := demoViaCEPDecoder) (samples := demoWeatherDecoder)
         (demoResolver "secret") http.NewRecorder (postText "29902555")
         (freshWorld demoUpstream))
  = errorEnvelope 400 "invalid json format".
Proof.
  pose proof (@unusable_body_is_bad_request
                anyURL demoZipcodeDecoder demoViaCEPDecoder
                demoWeatherDecoder demoReportDecoder
                demoGateway (demoResolver "secret")
                (postText "29902555") (freshWorld demoUpstream) eq_refl) as H.
  cbv zeta in H. destruct H as [_ H].
  destruct (H _ eq_refl eq_refl) as (_ & Hb & _).
  exact Hb.
Defined.


(** ** What the services send *)

Section ResolverTraffic.
Context {parser : url.Parser}.
Context {zipcodes : json.Decodable shared.ZipcodeRequest.t}.
Context {locations : json.Decodable shared.ViaCEPResponse.t}.
Context {samples : json.Decodable shared.WeatherAPIResponse.t}.

Lemma ServiceB_getLocationFromCEP_sends s cep w :
  outbound (snd (ServiceB.getLocationFromCEP s cep w))
  = (outbound w ++ attempt (viaCEPRequest cep))%list
  /\ forall found,
       fst (ServiceB.getLocationFromCEP s cep w) = Ok found ->
       attempt (viaCEPRequest cep) = [viaCEPRequest cep].
Proof.
  unfold ServiceB.getLocationFromCEP, http.NewRequestWithContext, attempt.
  unfold_tracer. cbn [viaCEPRequest http.reqURL].
  destruct (url.parseError ("https://viacep.com.br/ws/" ++ cep ++ "/json/")) eqn:Hs.
  - run. split; [now rewrite app_nil_r | discriminate].
  - split; [paths; reflexivity | reflexivity].
Qed.

Lemma ServiceB_getWeatherFromLocation_sends s city w :
  outbound (snd (ServiceB.getWeatherFromLocation s city w))
  = (outbound w
     ++ if String.eqb (shared.WeatherAPIKey (ServiceB.config s)) "" then []
        else attempt (weatherAPIRequest (shared.WeatherAPIKey (ServiceB.config s))
                                        city))%list.
Proof.
  unfold ServiceB.getWeatherFromLocation, http.NewRequestWithContext, attempt,
    io_ReadAll.
  unfold_tracer. cbn [weatherAPIRequest http.reqURL].
  destruct (String.eqb (shared.WeatherAPIKey (ServiceB.config s)) "") eqn:Hkey.
  - run. now rewrite app_nil_r.
  - destruct (url.parseError
                ("https://api.weatherapi.com/v1/current.json?key="
                 ++ shared.WeatherAPIKey (ServiceB.config s) ++ "&q="
                 ++ url.QueryEscape (city ++ ", Brazil") ++ "&aqi=no")) eqn:Hs.
    + run. now rewrite app_nil_r.
    + paths; reflexivity.
Qed.


Lemma CarriesCEP_of_tests (r : http.Request) (request : shared.ZipcodeRequest.t) :
  negb (http.Method r =? http.MethodPost) = false ->
  json.readErr (http.Body r) = None ->
  json.Unmarshal (json.bytes (http.Body r)) = Ok request ->
  CarriesCEP r (shared.ZipcodeRequest.CEP request).
Proof.
  intros Hm Hr Hu. apply negb_false_iff, String.eqb_eq in Hm.
  split; [exact Hm|]. split; [exact Hr|]. now exists request.
Qed.

(** X3.  Whatever the request and the answers, the Resolver sends at most
    two requests, the geocoding one first: nothing, or the geocoding
    request alone, or the geocoding request followed by the weather
    request under the configured key; and it sends nothing at all unless
    the request carries a postal code that passes the validation. *)
Theorem resolver_sends_geocoding_then_weather b r world :
  exists sent,
    outbound (snd (ServiceB.handleWeatherRequest b http.NewRecorder r world))
    = (outbound world ++ sent)%list
    /\ (sent = []
        \/ exists cep,
             CarriesCEP r cep
             /\ ServiceB.isValidZipcode cep = true
             /\ (sent = [viaCEPRequest cep]
                 \/ exists city,
                      sent = [viaCEPRequest cep;
                              weatherAPIRequest
                                (shared.WeatherAPIKey (ServiceB.config b)) city])).
Proof.
  unfold ServiceB.handleWeatherRequest, io_ReadAll. unfold_tracer.
  repeat (run; first [ match goal with
                       | |- context [match ?x with _ => _ end] => destruct x eqn:?
                       end
                     | match goal with
                       | |- context [bind (ServiceB.getLocationFromCEP b ?c) _ ?W] =>
                           let E := fresh "Eloc" in
                           pose proof (ServiceB_getLocationFromCEP_sends b c W) as E;
                           destruct (ServiceB.getLocationFromCEP b c W) eqn:?;
                           through; destruct E
                       | |- context [bind (ServiceB.getWeatherFromLocation b ?c) _ ?W] =>
                           let E := fresh "Ewea" in
                           pose proof (ServiceB_getWeatherFromLocation_sends b c W) as E;
                           destruct (ServiceB.getWeatherFromLocation b c W) eqn:?;
                           through
                       end ]).
  all: run.
  all: try (exists []; split; [now rewrite app_nil_r | now left]).
  all: repeat match goal with
         | E : forall found, Ok ?a = Ok found -> _ |- _ =>
             specialize (E a eq_refl)
         | E : attempt ?req = _, E' : context [attempt ?req] |- _ =>
             rewrite E in E'
         end.
  all: unfold attempt in *;
    repeat match goal with
      | E : context [match ?x with _ => _ end] |- _ => destruct x
      | E : context [if ?x then _ else _] |- _ => destruct x
      end;
    rewrite ?app_nil_r in *;
    repeat match goal with
      | E : outbound _ = _ |- _ => rewrite E; clear E
      end;
    rewrite <- ?app_assoc; cbn [app];
    try (exists []; split; [now rewrite app_nil_r | now left]).
  all: match goal with
       | Hm : negb (http.Method ?rq =? http.MethodPost) = false,
         Hr : json.readErr (http.Body ?rq) = None,
         Hu : json.Unmarshal (json.bytes (http.Body ?rq)) = Ok ?request,
         Hv : negb (ServiceB.isValidZipcode _) = false |- _ =>
           eexists; split; [reflexivity|]; right;
           exists (shared.ZipcodeRequest.CEP request);
           split; [exact (CarriesCEP_of_tests rq request Hm Hr Hu)|];
           split; [now apply negb_false_iff in Hv|];
           first [ left; reflexivity | right; eexists; reflexivity ]
       end.
Qed.

(** X4.  In the Resolver, once the geocoding step has found a city, every
    failure of the weather step (the URL does not parse, the transport fails, the status
    is not 200, the body does not decode) is answered with 500 and
    [error getting weather information]. *)
Theorem resolver_weather_failure_is_500 b r world cep found :
  CarriesCEP r cep ->
  ServiceB.isValidZipcode cep = true ->
  GeocodingFinds shared.ViaCEPResponse.Erro shared.ViaCEPResponse.Localidade
                 (upstream world) cep found ->
  WeatherFails (Sample := shared.WeatherAPIResponse.t) (upstream world)
               (shared.WeatherAPIKey (ServiceB.config b))
               (shared.ViaCEPResponse.Localidade found) ->
  fst (ServiceB.handleWeatherRequest b http.NewRecorder r world)
  = errorEnvelope http.StatusInternalServerError
                  "error getting weather information".
Proof. apply ServiceB_handle_weather_fails. Qed.

(** X5.  What the Resolver has sent when it answers: after a geocoding
    failure the geocoding request alone, the weather API is not contacted;
    after a geocoding success with a key configured and a weather URL that
    parses, the geocoding request and then the weather request for the
    city found, however the weather API answers. *)
Theorem resolver_traffic_by_outcome b r world cep :
  CarriesCEP r cep ->
  ServiceB.isValidZipcode cep = true ->
  let run := ServiceB.handleWeatherRequest b http.NewRecorder r world in
  (GeocodingFails shared.ViaCEPResponse.Erro shared.ViaCEPResponse.Localidade
                  (upstream world) cep ->
   outbound (snd run) = (outbound world ++ [viaCEPRequest cep])%list)
  /\ (forall found,
         GeocodingFinds shared.ViaCEPResponse.Erro
                        shared.ViaCEPResponse.Localidade
                        (upstream world) cep found ->
         shared.WeatherAPIKey (ServiceB.config b) <> "" ->
         Sendable (weatherAPIRequest (shared.WeatherAPIKey (ServiceB.config b))
                                     (shared.ViaCEPResponse.Localidade found)) ->
         outbound (snd run)
         = (outbound world
            ++ [viaCEPRequest cep;
                weatherAPIRequest (shared.WeatherAPIKey (ServiceB.config b))
                                  (shared.ViaCEPResponse.Localidade found)])%list).
Proof.
  intros Hcarries Hv run. subst run. open_request Hcarries request. split.
  - intros Hfail.
    unfold ServiceB.handleWeatherRequest, io_ReadAll. unfold_tracer. run.
    match goal with
    | |- context [bind (ServiceB.getLocationFromCEP b ?c) _ ?W] =>
        destruct (ServiceB_getLocationFromCEP_fails b c W Hfail)
          as (err & w' & E & Hup' & Hout')
    end.
    run. reflexivity.
  - intros found Hfinds Hkey Hs.
    unfold ServiceB.handleWeatherRequest, io_ReadAll. unfold_tracer. run.
    match goal with
    | |- context [bind (ServiceB.getLocationFromCEP b ?c) _ ?W] =>
        destruct (ServiceB_getLocationFromCEP_finds b c W _ Hfinds)
          as (w' & E & Hup' & Hout')
    end.
    run.
    match goal with
    | |- context [bind (ServiceB.getWeatherFromLocation b ?c) _ ?W] =>
        pose proof (ServiceB_getWeatherFromLocation_sends b c W) as Hsent;
        destruct (ServiceB.getWeatherFromLocation b c W) as [res w''] eqn:E'
    end.
    apply String.eqb_neq in Hkey. unfold attempt, Sendable in *.
    through. rewrite Hkey, Hs, Hout' in Hsent. rewrite <- app_assoc in Hsent.
    cbn [app] in Hsent.
    destruct res; run; first [exact Hsent | reflexivity].
Qed.

End ResolverTraffic.

(** The key [expired], under which the weather API of the scenario does
    not answer. *)
Lemma resolver_weather_failure_is_500_witness :
  fst (ServiceB.handleWeatherRequest
         (parser := anyURL) (zipcodes := demoZipcodeDecoder)
         (locations := demoViaCEPDecoder) (samples := demoWeatherDecoder)
         (demoResolver "expired") http.NewRecorder (postCEP "29902555")
         (freshWorld demoUpstream))
  = errorEnvelope 500 "error getting weather information".
Proof.
  apply (@resolver_weather_failure_is_500
           anyURL demoZipcodeDecoder demoViaCEPDecoder demoWeatherDecoder
           (demoResolver "expired") (postCEP "29902555")
           (freshWorld demoUpstream) "29902555" _
           (CarriesCEP_postCEP "29902555" _ eq_refl eq_refl) eq_refl
           demo_GeocodingFinds).
  apply weather_transport_failure
    with (err := "dial tcp: lookup failed: no such host"); reflexivity.
Defined.

(** The postal code 99999999: the geocoding request and no other. *)
Lemma resolver_traffic_by_outcome_witness :
  outbound (snd (ServiceB.handleWeatherRequest
                   (parser := anyURL) (zipcodes := demoZipcodeDecoder)
                   (locations := demoViaCEPDecoder) (samples := demoWeatherDecoder)
                   (demoResolver "secret") http.NewRecorder (postCEP "99999999")
                   (freshWorld demoUpstream)))
  = [viaCEPRequest "99999999"].
Proof.
  pose proof (@resolver_traffic_by_outcome
                anyURL demoZipcodeDecoder demoViaCEPDecoder demoWeatherDecoder
                (demoResolver "secret") (postCEP "99999999")
                (freshWorld demoUpstream) "99999999"
                (CarriesCEP_postCEP "99999999" _ eq_refl eq_refl) eq_refl) as H.
  cbv zeta in H. destruct H as [H _]. apply H.
  refine (@geocoding_not_found anyURL _ demoViaCEPDecoder _ _ _ _
            {| http.StatusCode := 200;
               http.RespBody := {| json.bytes := viaCEPNotFoundBody;
                                   json.readErr := None |} |}
            _ _ _ _ _ _).
  - reflexivity.
  - reflexivity.
  - reflexivity.
  - reflexivity.
  - left. reflexivity.
Defined.


Section GatewayTraffic.
Context {parser : url.Parser}.
Context {zipcodes : json.Decodable shared.ZipcodeRequest.t}.
Context {reports : json.Decodable shared.WeatherResponse.t}.

Lemma ServiceA_callServiceB_sends s cep w :
  outbound (snd (ServiceA.callServiceB s cep w))
  = (outbound w
     ++ attempt (serviceBRequest (shared.ServiceBURL (ServiceA.config s)) cep))%list.
Proof.
  unfold ServiceA.callServiceB, http.NewRequestWithContext, attempt, io_ReadAll.
  unfold_tracer. cbn [serviceBRequest http.reqURL].
  destruct (url.parseError (shared.ServiceBURL (ServiceA.config s) ++ "/weather"))
    eqn:Hs.
  - run. now rewrite app_nil_r.
  - paths; reflexivity.
Qed.

(** The calls of [callServiceB] that bring no response back, or one whose
    body cannot be read, return errors that carry a prefix of their own. *)
Lemma ServiceA_callServiceB_no_response s cep w :
  NoResponse (upstream w) (shared.ServiceBURL (ServiceA.config s)) cep ->
  exists p err w',
    ServiceA.callServiceB s cep w = (Err (String.String "f" p ++ err), w').
Proof.
  unfold ServiceA.callServiceB, http.NewRequestWithContext, io_ReadAll.
  unfold_tracer.
  intros [err Hs | err Hs Hup | resp err Hs Hup Hread];
    unfold Sendable in *; cbn [serviceBRequest http.reqURL] in Hs.
  - run. do 3 eexists. reflexivity.
  - run.
    match goal with
    | |- context [upstream w ?req] =>
        change (upstream w req)
          with (upstream w (serviceBRequest
                              (shared.ServiceBURL (ServiceA.config s)) cep))
    end.
    run. do 3 eexists. reflexivity.
  - run.
    match goal with
    | |- context [upstream w ?req] =>
        change (upstream w req)
          with (upstream w (serviceBRequest
                              (shared.ServiceBURL (ServiceA.config s)) cep))
    end.
    run. do 3 eexists. reflexivity.
Qed.

(** X6.  When the Gateway gets no usable response from the Resolver (its
    URL does not parse, the transport fails, or the body of the response
    cannot be read, whatever its status), it answers 500 with
    [error processing request]: no text of a transport error is taken for
    one of the two messages the Gateway passes on. *)
Theorem gateway_without_response_is_500 a r world cep :
  CarriesCEP r cep ->
  ServiceA.isValidZipcode cep = true ->
  NoResponse (upstream world) (shared.ServiceBURL (ServiceA.config a)) cep ->
  fst (ServiceA.handleCEPRequest a http.NewRecorder r world)
  = errorEnvelope http.StatusInternalServerError "error processing request".
Proof.
  intros Hcarries Hv Hnone. open_request Hcarries request.
  unfold ServiceA.handleCEPRequest, io_ReadAll. unfold_tracer. run.
  match goal with
  | |- context [bind (ServiceA.callServiceB a ?c) _ ?W] =>
      destruct (ServiceA_callServiceB_no_response a c W Hnone)
        as (p & err & w' & E)
  end.
  run. rewrite !eqb_first_byte by discriminate. run. reflexivity.
Qed.

(** X7.  Whatever the request and the answers, the Gateway sends at most
    one request, and only for a request that carries a postal code that
    passes the validation: the POST of that code to the Resolver. *)
Theorem gateway_sends_at_most_one_request a r world :
  exists sent,
    outbound (snd (ServiceA.handleCEPRequest a http.NewRecorder r world))
    = (outbound world ++ sent)%list
    /\ (sent = []
        \/ exists cep,
             CarriesCEP r cep
             /\ ServiceA.isValidZipcode cep = true
             /\ sent = [serviceBRequest (shared.ServiceBURL (ServiceA.config a))
                                        cep]).
Proof.
  unfold ServiceA.handleCEPRequest, io_ReadAll. unfold_tracer.
  repeat (run; first [ match goal with
                       | |- context [match ?x with _ => _ end] => destruct x eqn:?
                       end
                     | match goal with
                       | |- context [bind (ServiceA.callServiceB a ?c) _ ?W] =>
                           let E := fresh "Ecall" in
                           pose proof (ServiceA_callServiceB_sends a c W) as E;
                           destruct (ServiceA.callServiceB a c W) eqn:?;
                           through
                       end ]).
  all: run.
  all: try (exists []; split; [now rewrite app_nil_r | now left]).
  all: unfold attempt in *;
    repeat match goal with
      | E : context [match ?x with _ => _ end] |- _ => destruct x
      end;
    rewrite ?app_nil_r in *;
    repeat match goal with
      | E : outbound _ = _ |- _ => rewrite E; clear E
      end;
    try (exists []; split; [now rewrite app_nil_r | now left]).
  all: match goal with
       | Hm : negb (http.Method ?rq =? http.MethodPost) = false,
         Hr : json.readErr (http.Body ?rq) = None,
         Hu : json.Unmarshal (json.bytes (http.Body ?rq)) = Ok ?request,
         Hv : negb (ServiceA.isValidZipcode _) = false |- _ =>
           eexists; split; [reflexivity|]; right;
           exists (shared.ZipcodeRequest.CEP request);
           split; [exact (CarriesCEP_of_tests rq request Hm Hr Hu)|];
           split; [now apply negb_false_iff in Hv | reflexivity]
       end.
Qed.

End GatewayTraffic.

(** The Resolver is down. *)
Lemma gateway_without_response_is_500_witness :
  fst (ServiceA.handleCEPRequest
         (parser := anyURL) (zipcodes := demoZipcodeDecoder)
         (reports := demoReportDecoder)
         demoGateway http.NewRecorder (postCEP "29902555")
         (freshWorld unreachable))
  = errorEnvelope 500 "error processing request".
Proof.
  apply (@gateway_without_response_is_500
           anyURL demoZipcodeDecoder demoReportDecoder
           demoGateway (postCEP "29902555") (freshWorld unreachable) "29902555"
           (CarriesCEP_postCEP "29902555" _ eq_refl eq_refl) eq_refl).
  apply no_response_transport
    with (err := "dial tcp: lookup failed: no such host"); reflexivity.
Defined.


(** ** The standalone handler *)

Section StandaloneEdges.
Context {parser : url.Parser}.
Context {locations : json.Decodable Standalone.ViaCEPResponse.t}.
Context {samples : json.Decodable Standalone.WeatherAPIResponse.t}.

Lemma sliceFrom_None s : forall n,
  Standalone.sliceFrom s n = None <-> (String.length s < n)%nat.
Proof.
  induction s as [|c s IH]; intros [|n]; cbn; try rewrite IH;
    split; intros; try discriminate; try lia; reflexivity.
Qed.

(** X8.  The standalone handler panics exactly when the path is shorter
    than the nine bytes of [/weather/], before anything is sent or
    written; for every other path it writes one document under one status,
    an error envelope under a status of 400 or more or the three
    temperatures under 200. *)
Theorem standalone_one_response_or_panic g r world :
  let run := Standalone.handleWeatherRequest g http.NewRecorder r world in
  ((String.length (http.Path r) < 9)%nat ->
   fst run = None /\ snd run = world)
  /\ ((9 <= String.length (http.Path r))%nat ->
      exists w, fst run = Some w /\ OneResponse Standalone.WeatherResponse.t w).
Proof.
  cbv zeta. split.
  - intros Hshort.
    apply (sliceFrom_None (http.Path r) (String.length "/weather/")) in Hshort.
    unfold Standalone.handleWeatherRequest. rewrite Hshort. split; reflexivity.
  - intros Hlong.
    destruct (Standalone.sliceFrom (http.Path r) (String.length "/weather/"))
      as [zipcode|] eqn:Hslice;
      [|apply sliceFrom_None in Hslice; cbn in Hslice; lia].
    unfold Standalone.handleWeatherRequest, Standalone.respond,
      Standalone.getMockWeatherData.
    unfold_logging. cbv zeta. rewrite Hslice.
    repeat (run; first [ match goal with
                         | |- context [match ?x with _ => _ end] => destruct x eqn:?
                         end
                       | call ]).
    all: run; unfold Standalone.sendErrorResponse;
      rewrite ?Standalone_sendErrorResponse_fresh, ?Encode_fresh;
      eexists; (split; [reflexivity|]).
    all: first [ left; eexists; eexists; split; [|reflexivity]; discriminate
               | right; eexists; reflexivity ].
Qed.

(** X9.  In the standalone handler a postal code that fails the
    validation is answered with 422 before anything is sent, and a
    geocoding failure with 404, whether development mode is on or off: the
    mock data stands in for a failed weather call only, and does not run in
    either case. *)
Theorem standalone_mock_never_masks_bad_code g r world zipcode :
  PathCarries r zipcode ->
  let run := Standalone.handleWeatherRequest g http.NewRecorder r world in
  (Standalone.isValidZipcode zipcode = false ->
   fst run = Some (errorEnvelope http.StatusUnprocessableEntity "invalid zipcode")
   /\ outbound (snd run) = outbound world
   /\ printed (snd run) = printed world)
  /\ (Standalone.isValidZipcode zipcode = true ->
      GeocodingFails Standalone.ViaCEPResponse.Erro
                     Standalone.ViaCEPResponse.Localidade
                     (upstream world) zipcode ->
      fst run = Some (errorEnvelope http.StatusNotFound "can not find zipcode")
      /\ printed (snd run) = printed world).
Proof.
  intros Hpath. unfold PathCarries in Hpath. cbv zeta. split.
  - intros Hv.
    unfold Standalone.handleWeatherRequest. unfold_logging. cbv zeta. run.
    repeat split; try reflexivity. now autorewrite with worlds.
  - intros Hv Hfail.
    unfold Standalone.handleWeatherRequest. unfold_logging. cbv zeta. run.
    match goal with
    | |- context [bind (Standalone.getLocationFromCEP g ?c) _ ?W] =>
        destruct (Standalone_getLocationFromCEP_fails g c W Hfail)
          as (err & w' & E & Hup');
        pose proof (Standalone_getLocationFromCEP_frame g c W) as [_ Hpr];
        rewrite E in Hpr; through
    end.
    run. split; [reflexivity|].
    autorewrite with worlds. rewrite Hpr. now autorewrite with worlds.
Qed.


End StandaloneEdges.

(** The path [/weather], one byte short of the prefix. *)
Lemma standalone_one_response_or_panic_witness :
  fst (Standalone.handleWeatherRequest
         (parser := anyURL) (locations := demoStandaloneViaCEPDecoder)
         (samples := demoStandaloneWeatherDecoder)
         (demoGlobals "secret" false) http.NewRecorder (getPath "/weather")
         (freshWorld demoUpstream))
  = None.
Proof.
  pose proof (@standalone_one_response_or_panic
                anyURL demoStandaloneViaCEPDecoder demoStandaloneWeatherDecoder
                (demoGlobals "secret" false) (getPath "/weather")
                (freshWorld demoUpstream)) as H.
  cbv zeta in H. destruct H as [H _].
  apply H. cbn. lia.
Defined.

(** The path [/weather/12345] in development mode and without a key. *)
Lemma standalone_mock_never_masks_bad_code_witness :
  fst (Standalone.handleWeatherRequest
         (parser := anyURL) (locations := demoStandaloneViaCEPDecoder)
         (samples := demoStandaloneWeatherDecoder)
         (demoGlobals "" true) http.NewRecorder (getWeather "12345")
         (freshWorld demoUpstream))
  = Some (errorEnvelope 422 "invalid zipcode").
Proof.
  pose proof (@standalone_mock_never_masks_bad_code
                anyURL demoStandaloneViaCEPDecoder demoStandaloneWeatherDecoder
                (demoGlobals "" true) (getWeather "12345")
                (freshWorld demoUpstream) "12345" eq_refl) as H.
  cbv zeta in H. destruct H as [H _].
  exact (proj1 (H eq_refl)).
Defined.



Section StandaloneTraffic.
Context {parser : url.Parser}.
Context {locations : json.Decodable Standalone.ViaCEPResponse.t}.
Context {samples : json.Decodable Standalone.WeatherAPIResponse.t}.

Lemma Standalone_getLocationFromCEP_sends g cep w :
  outbound (snd (Standalone.getLocationFromCEP g cep w))
  = (outbound w ++ attempt (viaCEPRequest cep))%list
  /\ forall found,
       fst (Standalone.getLocationFromCEP g cep w) = Ok found ->
       attempt (viaCEPRequest cep) = [viaCEPRequest cep].
Proof.
  unfold Standalone.getLocationFromCEP, client_Get, http.NewRequestWithContext,
    attempt.
  unfold_logging. cbn [viaCEPRequest http.reqURL].
  destruct (url.parseError ("https://viacep.com.br/ws/" ++ cep ++ "/json/")) eqn:Hs.
  - run. split; [now rewrite app_nil_r | discriminate].
  - split; [paths; reflexivity | reflexivity].
Qed.

Lemma Standalone_getWeatherFromLocation_sends g city w :
  outbound (snd (Standalone.getWeatherFromLocation g city w))
  = (outbound w
     ++ if String.eqb (config.WeatherAPIKey (Standalone.conf g)) "" then []
        else attempt (weatherAPIRequest (config.WeatherAPIKey (Standalone.conf g))
                                        city))%list.
Proof.
  unfold Standalone.getWeatherFromLocation, client_Get,
    http.NewRequestWithContext, attempt, io_ReadAll.
  unfold_logging. cbn [weatherAPIRequest http.reqURL]. cbv zeta.
  destruct (String.eqb (config.WeatherAPIKey (Standalone.conf g)) "") eqn:Hkey.
  - run. now rewrite app_nil_r.
  - destruct (url.parseError
                ("https://api.weatherapi.com/v1/current.json?key="
                 ++ config.WeatherAPIKey (Standalone.conf g) ++ "&q="
                 ++ url.QueryEscape (city ++ ", Brazil") ++ "&aqi=no")) eqn:Hs.
    + run. now rewrite app_nil_r.
    + paths; reflexivity.
Qed.

(** X11.  Whatever the request and the answers, the standalone handler
    sends at most two requests, the geocoding one first: nothing, or the
    geocoding request alone, or the geocoding request followed by the
    weather request under the configured key; and it sends nothing at all
    unless the path carries a postal code that passes the validation.
    Development mode adds no request. *)
Theorem standalone_sends_geocoding_then_weather g r world :
  exists sent,
    outbound (snd (Standalone.handleWeatherRequest g http.NewRecorder r world))
    = (outbound world ++ sent)%list
    /\ (sent = []
        \/ exists zipcode,
             PathCarries r zipcode
             /\ Standalone.isValidZipcode zipcode = true
             /\ (sent = [viaCEPRequest zipcode]
                 \/ exists city,
                      sent = [viaCEPRequest zipcode;
                              weatherAPIRequest
                                (config.WeatherAPIKey (Standalone.conf g)) city])).
Proof.
  unfold Standalone.handleWeatherRequest, Standalone.respond,
    Standalone.getMockWeatherData.
  unfold_logging. cbv zeta.
  repeat (run; first [ match goal with
                       | |- context [match ?x with _ => _ end] => destruct x eqn:?
                       end
                     | match goal with
                       | |- context [bind (Standalone.getLocationFromCEP g ?c) _ ?W] =>
                           let E := fresh "Eloc" in
                           pose proof (Standalone_getLocationFromCEP_sends g c W) as E;
                           destruct (Standalone.getLocationFromCEP g c W) eqn:?;
                           through; destruct E
                       | |- context [bind (Standalone.getWeatherFromLocation g ?c) _ ?W] =>
                           let E := fresh "Ewea" in
                           pose proof (Standalone_getWeatherFromLocation_sends g c W) as E;
                           destruct (Standalone.getWeatherFromLocation g c W) eqn:?;
                           through
                       end ]).
  all: run.
  all: try (exists []; split; [now rewrite app_nil_r | now left]).
  all: repeat match goal with
         | E : forall found, Ok ?a = Ok found -> _ |- _ =>
             specialize (E a eq_refl)
         | E : attempt ?req = _, E' : context [attempt ?req] |- _ =>
             rewrite E in E'
         end.
  all: unfold attempt in *;
    repeat match goal with
      | E : context [match ?x with _ => _ end] |- _ => destruct x
      | E : context [if ?x then _ else _] |- _ => destruct x
      end;
    rewrite ?app_nil_r in *;
    repeat match goal with
      | E : outbound _ = _ |- _ => rewrite E; clear E
      end;
    rewrite <- ?app_assoc; cbn [app];
    try (exists []; split; [now rewrite app_nil_r | now left]).
  all: match goal with
       | Hp : Standalone.sliceFrom (http.Path ?rq) _ = Some ?z,
         Hv : negb (Standalone.isValidZipcode _) = false |- _ =>
           eexists; split; [reflexivity|]; right;
           exists z;
           split; [exact Hp|];
           split; [now apply negb_false_iff in Hv|];
           first [ left; reflexivity | right; eexists; reflexivity ]
       end.
Qed.

End StandaloneTraffic.

(** ** Loading the configuration *)

Section ConfigLoading.

Lemma config_getEnv_is_shared_getEnv env key defaultValue :
  config.getEnv env key defaultValue = shared.getEnv env key defaultValue.
Proof.
  unfold config.getEnv, shared.getEnv. cbv zeta.
  now destruct (String.eqb (os.Getenv env key) "").
Qed.

Lemma config_getEnvAsBool_is_shared_getEnvBool env key defaultValue :
  config.getEnvAsBool env key defaultValue
  = shared.getEnvBool env key defaultValue.
Proof.
  unfold config.getEnvAsBool, shared.getEnvBool. cbv zeta.
  destruct (String.eqb (os.Getenv env key) ""); cbn [negb]; [reflexivity|].
  now destruct (strconv.ParseBool (os.Getenv env key)).
Qed.

Lemma shared_getEnv_no_default env key :
  shared.getEnv env key "" = os.Getenv env key.
Proof.
  unfold shared.getEnv. cbv zeta.
  destruct (String.eqb (os.Getenv env key) "") eqn:E; cbn [negb]; [|reflexivity].
  now apply String.eqb_eq in E.
Qed.

(** X12.  The two configuration loaders, written differently, read the
    settings they share alike: on every environment the port, the log
    level, the JSON flag and the weather API key of the standalone
    configuration are those of the services' configuration. *)
Theorem configuration_loaders_agree (env : os.Environ) :
  config.Port (config.GetConfig env) = shared.Port (shared.GetConfig env)
  /\ config.LogLevel (config.GetConfig env) = shared.LogLevel (shared.GetConfig env)
  /\ config.LogJSON (config.GetConfig env) = shared.LogJSON (shared.GetConfig env)
  /\ config.WeatherAPIKey (config.GetConfig env)
     = shared.WeatherAPIKey (shared.GetConfig env).
Proof.
  unfold config.GetConfig, shared.GetConfig. cbv zeta.
  cbn [config.Port config.LogLevel config.LogJSON config.WeatherAPIKey
       shared.Port shared.LogLevel shared.LogJSON shared.WeatherAPIKey].
  rewrite !config_getEnv_is_shared_getEnv, config_getEnvAsBool_is_shared_getEnvBool,
    shared_getEnv_no_default.
  repeat split; reflexivity.
Qed.

Lemma getEnvAsBool_false_default env key :
  config.getEnvAsBool env key false = true <-> In (os.Getenv env key) truthy.
Proof.
  unfold config.getEnvAsBool, strconv.ParseBool, truthy. cbv zeta.
  destruct (String.eqb (os.Getenv env key) "") eqn:E.
  - apply String.eqb_eq in E. rewrite E. split; [discriminate|].
    cbn. intuition discriminate.
  - destruct (existsb (String.eqb (os.Getenv env key))
                      ["1"; "t"; "T"; "TRUE"; "true"; "True"]) eqn:Ht.
    + split; [intros _|reflexivity].
      apply existsb_exists in Ht. destruct Ht as (v & Hin & Hv).
      apply String.eqb_eq in Hv. now rewrite Hv.
    + destruct (existsb (String.eqb (os.Getenv env key))
                        ["0"; "f"; "F"; "FALSE"; "false"; "False"]);
        (split; [discriminate|]); intros Hin.
      all: assert (existsb (String.eqb (os.Getenv env key))
                     ["1"; "t"; "T"; "TRUE"; "true"; "True"] = true)
        by (apply existsb_exists; eexists; split; [exact Hin|apply String.eqb_refl]).
      all: congruence.
Qed.

(** X13.  A flag of the configuration is on exactly when its variable
    holds one of the six values [1], [t], [T], [TRUE], [true], [True]:
    development mode and JSON logging of the standalone program, JSON
    logging of the services.  Any other value, [yes] or [on] included,
    leaves the flag off. *)
Theorem flag_on_iff_truthy (env : os.Environ) :
  (config.DevMode (config.GetConfig env) = true
   <-> In (os.Getenv env "DEV_MODE") truthy)
  /\ (config.LogJSON (config.GetConfig env) = true
      <-> In (os.Getenv env "LOG_JSON") truthy)
  /\ (shared.LogJSON (shared.GetConfig env) = true
      <-> In (os.Getenv env "LOG_JSON") truthy).
Proof.
  unfold config.GetConfig, shared.GetConfig. cbv zeta.
  cbn [config.DevMode config.LogJSON shared.LogJSON].
  rewrite <- config_getEnvAsBool_is_shared_getEnvBool.
  split; [|split]; apply getEnvAsBool_false_default.
Qed.

Lemma shared_getEnv_nonempty env key defaultValue :
  defaultValue <> "" -> shared.getEnv env key defaultValue <> "".
Proof.
  intros Hd. unfold shared.getEnv. cbv zeta.
  destruct (String.eqb (os.Getenv env key) "") eqn:E; cbn [negb]; [exact Hd|].
  now apply String.eqb_neq in E.
Qed.

(** X14.  Whatever the environment holds, unset and empty variables
    included, a loaded configuration has a port, a log level and, for the
    services, a Resolver address and a trace collector address: none of
    them is empty.  Only the weather API key can be: it is the variable's
    value as it is, empty when the variable is not set. *)
Theorem loaded_configuration_is_complete (env : os.Environ) :
  (shared.Port (shared.GetConfig env) <> ""
   /\ shared.LogLevel (shared.GetConfig env) <> ""
   /\ shared.ServiceBURL (shared.GetConfig env) <> ""
   /\ shared.ZipkinURL (shared.GetConfig env) <> "")
  /\ (config.Port (config.GetConfig env) <> ""
      /\ config.LogLevel (config.GetConfig env) <> "")
  /\ (shared.WeatherAPIKey (shared.GetConfig env) = os.Getenv env "WEATHER_API_KEY"
      /\ config.WeatherAPIKey (config.GetConfig env) = os.Getenv env "WEATHER_API_KEY").
Proof.
  unfold config.GetConfig, shared.GetConfig. cbv zeta.
  cbn [config.Port config.LogLevel config.WeatherAPIKey
       shared.Port shared.LogLevel shared.ServiceBURL shared.ZipkinURL
       shared.WeatherAPIKey].
  rewrite !config_getEnv_is_shared_getEnv, shared_getEnv_no_default.
  repeat split; apply shared_getEnv_nonempty; discriminate.
Qed.

End ConfigLoading.

(** ** Spans *)

Section Traces.

Lemma nested_inside outer name below rest inner : forall open,
  nested name open inner = true ->
  nested outer (open ++ name :: below) (inner ++ rest)
  = nested outer (name :: below) rest.
Proof.
  induction inner as [|t inner IH]; intros open Hin.
  - destruct open; [reflexivity | discriminate].
  - destruct t; cbn [nested app] in *.
    + apply (IH (name0 :: open) Hin).
    + apply andb_prop in Hin. destruct Hin as [Hev Hin].
      rewrite (IH open Hin).
      destruct open; cbn [hd app] in *; now rewrite Hev.
    + destruct open as [|top open']; [discriminate|].
      apply andb_prop in Hin. destruct Hin as [Hev Hin].
      cbn [app]. now rewrite Hev, (IH open' Hin).
Qed.

Lemma nested_OneSpan outer open tracer name ts rest :
  OneSpan tracer name ts ->
  nested outer open (ts ++ rest) = nested outer open rest.
Proof.
  intros (inner & -> & Hin).
  cbn [app nested]. rewrite <- app_assoc.
  change (name :: open) with ([] ++ name :: open)%list.
  rewrite (nested_inside outer name open ([SpanEnd name] ++ rest) inner [] Hin).
  cbn [app nested]. now rewrite String.eqb_refl.
Qed.

Lemma nested_OneSpan_last outer open tracer name ts :
  OneSpan tracer name ts ->
  nested outer open ts = nested outer open [].
Proof.
  intros H. rewrite <- (app_nil_r ts) at 1. now apply nested_OneSpan with tracer name.
Qed.

Lemma one_span_traced (T0 : list TraceRecord) tracer name inner A :
  A = (T0 ++ SpanStart tracer name :: inner)%list ->
  nested name [] inner = true ->
  exists ts, (A ++ [SpanEnd name] = T0 ++ ts)%list /\ OneSpan tracer name ts.
Proof.
  intros -> Hin. exists (SpanStart tracer name :: inner ++ [SpanEnd name])%list.
  split; [now rewrite <- app_assoc | now exists inner].
Qed.

End Traces.

Ltac one_span :=
  through;
  repeat match goal with
    | E : traced ?w = _ |- context [traced ?w] => rewrite E
    end;
  eapply one_span_traced;
  [ rewrite <- ?app_assoc; cbn [app]; reflexivity
  | repeat first [ erewrite nested_OneSpan by eassumption
                 | erewrite nested_OneSpan_last by eassumption
                 | progress cbn [nested hd app] ];
    reflexivity ].

Section ResolverTraces.
Context {parser : url.Parser}.
Context {zipcodes : json.Decodable shared.ZipcodeRequest.t}.
Context {locations : json.Decodable shared.ViaCEPResponse.t}.
Context {samples : json.Decodable shared.WeatherAPIResponse.t}.

Lemma ServiceB_getLocationFromCEP_traces s cep w :
  exists ts,
    traced (snd (ServiceB.getLocationFromCEP s cep w)) = (traced w ++ ts)%list
    /\ OneSpan (ServiceB.tracer s) "service-b.getLocationFromCEP" ts.
Proof.
  unfold ServiceB.getLocationFromCEP, http.NewRequestWithContext.
  unfold_tracer. paths; one_span.
Qed.

Lemma ServiceB_getWeatherFromLocation_traces s city w :
  exists ts,
    traced (snd (ServiceB.getWeatherFromLocation s city w)) = (traced w ++ ts)%list
    /\ OneSpan (ServiceB.tracer s) "service-b.getWeatherFromLocation" ts.
Proof.
  unfold ServiceB.getWeatherFromLocation, http.NewRequestWithContext, io_ReadAll.
  unfold_tracer. paths; one_span.
Qed.

Lemma ServiceB_handle_traces b w0 r world :
  exists ts,
    traced (snd (ServiceB.handleWeatherRequest b w0 r world))
    = (traced world ++ ts)%list
    /\ OneSpan (ServiceB.tracer b) "service-b.handleWeatherRequest" ts.
Proof.
  unfold ServiceB.handleWeatherRequest, io_ReadAll. unfold_tracer.
  repeat (run; first [ match goal with
                       | |- context [match ?x with _ => _ end] => destruct x eqn:?
                       end
                     | match goal with
                       | |- context [bind (ServiceB.getLocationFromCEP b ?c) _ ?W] =>
                           destruct (ServiceB_getLocationFromCEP_traces b c W)
                             as (? & ? & ?);
                           destruct (ServiceB.getLocationFromCEP b c W) eqn:?;
                           through
                       | |- context [bind (ServiceB.getWeatherFromLocation b ?c) _ ?W] =>
                           destruct (ServiceB_getWeatherFromLocation_traces b c W)
                             as (? & ? & ?);
                           destruct (ServiceB.getWeatherFromLocation b c W) eqn:?;
                           through
                       end ]).
  all: run; one_span.
Qed.

End ResolverTraces.

Section GatewayTraces.
Context {parser : url.Parser}.
Context {zipcodes : json.Decodable shared.ZipcodeRequest.t}.
Context {reports : json.Decodable shared.WeatherResponse.t}.

Lemma ServiceA_callServiceB_traces s cep w :
  exists ts,
    traced (snd (ServiceA.callServiceB s cep w)) = (traced w ++ ts)%list
    /\ OneSpan (ServiceA.tracer s) "service-a.callServiceB" ts.
Proof.
  unfold ServiceA.callServiceB, http.NewRequestWithContext, io_ReadAll.
  unfold_tracer. paths; one_span.
Qed.

Lemma ServiceA_handle_traces a w0 r world :
  exists ts,
    traced (snd (ServiceA.handleCEPRequest a w0 r world))
    = (traced world ++ ts)%list
    /\ OneSpan (ServiceA.tracer a) "service-a.handleCEPRequest" ts.
Proof.
  unfold ServiceA.handleCEPRequest, io_ReadAll. unfold_tracer.
  repeat (run; first [ match goal with
                       | |- context [match ?x with _ => _ end] => destruct x eqn:?
                       end
                     | match goal with
                       | |- context [bind (ServiceA.callServiceB a ?c) _ ?W] =>
                           destruct (ServiceA_callServiceB_traces a c W)
                             as (? & ? & ?);
                           destruct (ServiceA.callServiceB a c W) eqn:?;
                           through
                       end ]).
  all: run; one_span.
Qed.

End GatewayTraces.

Section TraceClaims.
Context {parser : url.Parser}.
Context {zipcodes : json.Decodable shared.ZipcodeRequest.t}.
Context {locations : json.Decodable shared.ViaCEPResponse.t}.
Context {samples : json.Decodable shared.WeatherAPIResponse.t}.
Context {reports : json.Decodable shared.WeatherResponse.t}.

(** X15.  On every path, early returns included, a handler run adds to
    the trace exactly one span of its own, started first and ended last,
    and what lies between is well nested: each span a callee starts is
    ended before its caller's, and each event is recorded on the innermost
    open span.  No return path leaves a span open. *)
Theorem every_run_is_one_span a b w0 r world :
  (exists ts,
      traced (snd (ServiceA.handleCEPRequest a w0 r world))
      = (traced world ++ ts)%list
      /\ OneSpan (ServiceA.tracer a) "service-a.handleCEPRequest" ts)
  /\ (exists ts,
         traced (snd (ServiceB.handleWeatherRequest b w0 r world))
         = (traced world ++ ts)%list
         /\ OneSpan (ServiceB.tracer b) "service-b.handleWeatherRequest" ts).
Proof.
  split; [apply ServiceA_handle_traces | apply ServiceB_handle_traces].
Qed.

End TraceClaims.

(** ** Log levels *)

Section Levels.

Lemma Forall_lineIf (P : LogLine -> Prop) pass l :
  (pass = true -> P l) -> Forall P (lineIf pass l).
Proof. destruct pass; cbn; auto. Qed.

Lemma Passes_line threshold lv j t message fields :
  (shared.DEBUG <= lv <= shared.ERROR)%Z ->
  (threshold <=? lv)%Z = true ->
  Passes threshold (Line j t (shared.levelString lv) message fields).
Proof. intros Hlv Hle. apply Z.leb_le in Hle. now exists lv. Qed.

Lemma logged_more (P : LogLine -> Prop) (L0 lines : list LogLine) A :
  A = (L0 ++ lines)%list -> Forall P lines ->
  exists lines, A = (L0 ++ lines)%list /\ Forall P lines.
Proof. intros -> H. now exists lines. Qed.

Lemma logged_same (P : LogLine -> Prop) (L0 : list LogLine) :
  exists lines, L0 = (L0 ++ lines)%list /\ Forall P lines.
Proof. exists []. split; [now rewrite app_nil_r | constructor]. Qed.

End Levels.

Ltac passes :=
  through;
  repeat match goal with
    | E : logged ?w = _ |- context [logged ?w] => rewrite E
    end;
  first
    [ apply logged_same
    | eapply logged_more;
      [ rewrite <- ?app_assoc; reflexivity
      | repeat (apply Forall_app; split);
        first
          [ assumption
          | apply Forall_lineIf;
            first [ exact (Passes_line _ shared.DEBUG _ _ _ _ ltac:(cbv; intuition discriminate))
                  | exact (Passes_line _ shared.INFO _ _ _ _ ltac:(cbv; intuition discriminate))
                  | exact (Passes_line _ shared.WARN _ _ _ _ ltac:(cbv; intuition discriminate))
                  | exact (Passes_line _ shared.ERROR _ _ _ _ ltac:(cbv; intuition discriminate)) ] ] ] ].

Section ResolverLevels.
Context {parser : url.Parser}.
Context {zipcodes : json.Decodable shared.ZipcodeRequest.t}.
Context {locations : json.Decodable shared.ViaCEPResponse.t}.
Context {samples : json.Decodable shared.WeatherAPIResponse.t}.

Lemma ServiceB_getLocationFromCEP_logs s cep w :
  exists lines,
    logged (snd (ServiceB.getLocationFromCEP s cep w)) = (logged w ++ lines)%list
    /\ Forall (Passes (shared.level (ServiceB.logger s))) lines.
Proof.
  unfold ServiceB.getLocationFromCEP, http.NewRequestWithContext.
  unfold_tracer. paths; passes.
Qed.

Lemma ServiceB_getWeatherFromLocation_logs s city w :
  exists lines,
    logged (snd (ServiceB.getWeatherFromLocation s city w)) = (logged w ++ lines)%list
    /\ Forall (Passes (shared.level (ServiceB.logger s))) lines.
Proof.
  unfold ServiceB.getWeatherFromLocation, http.NewRequestWithContext, io_ReadAll.
  unfold_tracer. paths; passes.
Qed.

Lemma ServiceB_handle_logs b w0 r world :
  exists lines,
    logged (snd (ServiceB.handleWeatherRequest b w0 r world))
    = (logged world ++ lines)%list
    /\ Forall (Passes (shared.level (ServiceB.logger b))) lines.
Proof.
  unfold ServiceB.handleWeatherRequest, io_ReadAll. unfold_tracer.
  repeat (run; first [ match goal with
                       | |- context [match ?x with _ => _ end] => destruct x eqn:?
                       end
                     | match goal with
                       | |- context [bind (ServiceB.getLocationFromCEP b ?c) _ ?W] =>
                           destruct (ServiceB_getLocationFromCEP_logs b c W)
                             as (? & ? & ?);
                           destruct (ServiceB.getLocationFromCEP b c W) eqn:?;
                           through
                       | |- context [bind (ServiceB.getWeatherFromLocation b ?c) _ ?W] =>
                           destruct (ServiceB_getWeatherFromLocation_logs b c W)
                             as (? & ? & ?);
                           destruct (ServiceB.getWeatherFromLocation b c W) eqn:?;
                           through
                       end ]).
  all: run; passes.
Qed.

End ResolverLevels.

Section GatewayLevels.
Context {parser : url.Parser}.
Context {zipcodes : json.Decodable shared.ZipcodeRequest.t}.
Context {reports : json.Decodable shared.WeatherResponse.t}.

Lemma ServiceA_callServiceB_logs s cep w :
  exists lines,
    logged (snd (ServiceA.callServiceB s cep w)) = (logged w ++ lines)%list
    /\ Forall (Passes (shared.level (ServiceA.logger s))) lines.
Proof.
  unfold ServiceA.callServiceB, http.NewRequestWithContext, io_ReadAll.
  unfold_tracer. paths; passes.
Qed.

Lemma ServiceA_handle_logs a w0 r world :
  exists lines,
    logged (snd (ServiceA.handleCEPRequest a w0 r world))
    = (logged world ++ lines)%list
    /\ Forall (Passes (shared.level (ServiceA.logger a))) lines.
Proof.
  unfold ServiceA.handleCEPRequest, io_ReadAll. unfold_tracer.
  repeat (run; first [ match goal with
                       | |- context [match ?x with _ => _ end] => destruct x eqn:?
                       end
                     | match goal with
                       | |- context [bind (ServiceA.callServiceB a ?c) _ ?W] =>
                           destruct (ServiceA_callServiceB_logs a c W)
                             as (? & ? & ?);
                           destruct (ServiceA.callServiceB a c W) eqn:?;
                           through
                       end ]).
  all: run; passes.
Qed.

End GatewayLevels.

Section LevelClaims.
Context {parser : url.Parser}.
Context {zipcodes : json.Decodable shared.ZipcodeRequest.t}.
Context {locations : json.Decodable shared.ViaCEPResponse.t}.
Context {samples : json.Decodable shared.WeatherAPIResponse.t}.
Context {reports : json.Decodable shared.WeatherResponse.t}.

(** X16.  A handler run of either service only adds to the log, and every
    line it adds is a line of the service's logger at a level not below the
    one the logger is set to: with the level at [ERROR] a run writes error
    lines only, whatever path it takes. *)
Theorem services_log_at_or_above_level a b w0 r world :
  (exists lines,
      logged (snd (ServiceA.handleCEPRequest a w0 r world))
      = (logged world ++ lines)%list
      /\ Forall (Passes (shared.level (ServiceA.logger a))) lines)
  /\ (exists lines,
         logged (snd (ServiceB.handleWeatherRequest b w0 r world))
         = (logged world ++ lines)%list
         /\ Forall (Passes (shared.level (ServiceB.logger b))) lines).
Proof.
  split; [apply ServiceA_handle_logs | apply ServiceB_handle_logs].
Qed.

End LevelClaims.

Section StandaloneLevels.
Context {parser : url.Parser}.
Context {locations : json.Decodable Standalone.ViaCEPResponse.t}.
Context {samples : json.Decodable Standalone.WeatherAPIResponse.t}.



End StandaloneLevels.


Section StandaloneLevelClaims.
Context {parser : url.Parser}.
Context {locations : json.Decodable Standalone.ViaCEPResponse.t}.
Context {samples : json.Decodable Standalone.WeatherAPIResponse.t}.




End StandaloneLevelClaims.

(** ** The query of the weather request *)

Section Escaping.

Lemma upperhex_unreserved c :
  url.isUnreserved (url.upperhex (nat_of_ascii c / 16)) = true
  /\ url.isUnreserved (url.upperhex (nat_of_ascii c mod 16)) = true.
Proof.
  destruct c as [[] [] [] [] [] [] [] []]; split; vm_compute; reflexivity.
Qed.

Lemma QueryEscape_safe s :
  forallb querySafe (list_ascii_of_string (url.QueryEscape s)) = true.
Proof.
  induction s as [|c s IH]; [reflexivity|].
  cbn [url.QueryEscape].
  destruct (Ascii.eqb c " ") eqn:Hsp; [exact IH|].
  destruct (url.isUnreserved c) eqn:Hun.
  - cbn [list_ascii_of_string forallb]. unfold querySafe at 1.
    now rewrite Hun, IH.
  - destruct (upperhex_unreserved c) as [Hhi Hlo].
    cbn [list_ascii_of_string forallb]. unfold querySafe at 1 2 3.
    now rewrite Hhi, Hlo, IH.
Qed.

Lemma querySafe_not_delimiter c :
  In c delimiters -> querySafe c = false.
Proof.
  unfold delimiters. cbn [In].
  intros [<- | [<- | [<- | [<- | [<- | [<- | []]]]]]]; reflexivity.
Qed.

Lemma safe_has_no_delimiter l :
  forallb querySafe l = true ->
  forall c, In c delimiters -> ~ In c l.
Proof.
  intros Hsafe c Hd Hin.
  rewrite forallb_forall in Hsafe. specialize (Hsafe c Hin).
  rewrite (querySafe_not_delimiter c Hd) in Hsafe. discriminate.
Qed.

Lemma weatherAPIRequest_escaped key city :
  EscapedWeatherRequest key (weatherAPIRequest key city).
Proof.
  exists (url.QueryEscape (city ++ ", Brazil")).
  split; [reflexivity|]. split; [apply QueryEscape_safe|].
  apply safe_has_no_delimiter, QueryEscape_safe.
Qed.

Lemma attempt_escaped {parser : url.Parser} key city :
  Forall (EscapedWeatherRequest key) (attempt (weatherAPIRequest key city)).
Proof.
  unfold attempt.
  destruct (url.parseError (http.reqURL (weatherAPIRequest key city)));
    repeat constructor. apply weatherAPIRequest_escaped.
Qed.

End Escaping.

Section EscapingClaims.
Context {parser : url.Parser}.
Context {locations : json.Decodable shared.ViaCEPResponse.t}.
Context {samples : json.Decodable shared.WeatherAPIResponse.t}.
Context {zipcodes : json.Decodable shared.ZipcodeRequest.t}.
Context {standaloneLocations : json.Decodable Standalone.ViaCEPResponse.t}.
Context {standaloneSamples : json.Decodable Standalone.WeatherAPIResponse.t}.

(** X18.  Whatever bytes the name of the city holds, the weather step
    sends at most one request, and its URL is the fixed address, the
    configured key and a query made of letters, digits, [-], [_], [.],
    [~], [+] and [%] only: a city name cannot add a parameter to the query
    or cut the URL short.  So in the Resolver and in the standalone
    program. *)
Theorem city_name_cannot_alter_the_query s g city w :
  (exists sent,
      outbound (snd (ServiceB.getWeatherFromLocation s city w))
      = (outbound w ++ sent)%list
      /\ (length sent <= 1)%nat
      /\ Forall (EscapedWeatherRequest
                   (shared.WeatherAPIKey (ServiceB.config s))) sent)
  /\ (exists sent,
         outbound (snd (Standalone.getWeatherFromLocation g city w))
         = (outbound w ++ sent)%list
         /\ (length sent <= 1)%nat
         /\ Forall (EscapedWeatherRequest
                      (config.WeatherAPIKey (Standalone.conf g))) sent).
Proof.
  split; eexists; (split; [first [ apply ServiceB_getWeatherFromLocation_sends
                                 | apply Standalone_getWeatherFromLocation_sends ]|]).
  - destruct (String.eqb (shared.WeatherAPIKey (ServiceB.config s)) "").
    + split; [cbn; lia | constructor].
    + split; [|apply attempt_escaped].
      unfold attempt. destruct (url.parseError _); cbn; lia.
  - destruct (String.eqb (config.WeatherAPIKey (Standalone.conf g)) "").
    + split; [cbn; lia | constructor].
    + split; [|apply attempt_escaped].
      unfold attempt. destruct (url.parseError _); cbn; lia.
Qed.

End EscapingClaims.
